(** * Trend pipeline of [trend.py]: shallow embedding and verified properties

    The development follows the data flow of the program:

    - [Text]      characters, decimal numbers, line iteration of a text file;
    - [Calendar]  the part of Python's [datetime] the program relies on
                  (proleptic Gregorian ordinals, range 0001-01-01 .. 9999-12-31,
                  the constructor of CPython with its C [int] arguments);
    - [Num]       Python's [int]/[float] mix used by the aggregator (IEEE
                  binary64 through Rocq's primitive floats);
    - [Pattern]   the regular expression [data_pattern];
    - [Board]     the board snapshot built by [__init__], raw cards and
                  [_calculate_exclude];
    - [Trend]     the methods of [ProjectTrend] over an explicit file system;
    - [Sample]    a concrete environment and run, for the examples;
    - [Vocabulary] the notions the properties are stated with;
    - [Normalizer], [Invariants] further notions: the attributes of a
                  normalized card, what the loops keep true;
    - [Trello]    the client of [trello_api.py] as a log of requests, the
                  board lookup, the report card, the upload and the steps
                  of the script.

    Definitions come first (Part I), properties second (Parts II and III).

    Modelling conventions.  Text is a list of characters with code points
    below 256 (the classes [\d] and [\s] and [str.lower] are those of Python
    on that range).  A Python exception is a value of [exn]; a computation
    that can raise returns a [result].  Files are a finite map from path to
    content; the trend store is read in text mode with universal newlines,
    and written on a POSIX system (a written line feed stays one character).
    Integers are unbounded, as in Python; the interpreter's limit on the
    number of digits [int] accepts from a string is not modelled.  Floats are
    IEEE binary64.  The HTTP client, the clock, and the statistics and
    plotting libraries are parameters ([External]); the answers of the
    Trello service are a parameter too ([Service]), a function of the
    requests sent so far. *)

From Stdlib Require Import ZArith Lia List Bool ZifyBool Ascii String.
From Stdlib Require Import Floats.PrimFloat Floats.SpecFloat Floats.FloatOps.
From stdpp Require Import base option list list_numbers gmap strings.

Local Open Scope Z_scope.

(* ===================================================================== *)
(** * Part I: the embedding                                               *)
(* ===================================================================== *)

(** ** Exceptions and results *)

(** The exceptions of the modelled code; [LibraryError] stands for whatever
    a library behind [External] may raise. *)
Inductive exn : Type :=
| IndexError
| KeyError
| TypeError
| ValueError
| OverflowError
| FileNotFoundError
| LibraryError.

Inductive result (A : Type) : Type :=
| Ok (a : A)
| Raise (e : exn).

Arguments Ok {A} a.
Arguments Raise {A} e.

Global Instance result_ret : MRet result := fun A a => Ok a.

Global Instance result_bind : MBind result := fun A B k r =>
  match r with
  | Ok a => k a
  | Raise e => Raise e
  end.

(** ** Text *)

Module Text.

Abbreviation text := (list ascii).

(** A string literal as text. *)
Definition txt (s : string) : text := list_ascii_of_string s.

Definition code (c : ascii) : N := N_of_ascii c.

(** [\d] on code points below 256: the ten ASCII digits. *)
Definition is_digit (c : ascii) : bool :=
  ((48 <=? code c) && (code c <=? 57))%N.

(** [\s] on code points below 256 (as [str.isspace]): TAB..CR, FS..US,
    SPACE, NEL and NBSP. *)
Definition is_space (c : ascii) : bool :=
  (((9 <=? code c) && (code c <=? 13)) || ((28 <=? code c) && (code c <=? 32))
   || (code c =? 133) || (code c =? 160))%N.

Definition LF : ascii := ascii_of_N 10.
Definition CR : ascii := ascii_of_N 13.

Definition is_char (a c : ascii) : bool := Ascii.eqb a c.

Arguments is_char : simpl never.

Definition digit_value (c : ascii) : Z := Z.of_N (code c) - 48.

Definition digit_char (d : Z) : ascii := ascii_of_N (Z.to_N (48 + d)).

Definition all_digits (s : text) : bool := forallb is_digit s.

(** Value of a run of decimal digits, most significant first. *)
Definition digits_value (s : text) : Z :=
  fold_left (fun acc c => 10 * acc + digit_value c) s 0.

(** [int(s)] for the strings the program passes to it, the [\d+] groups of
    a match: a non-empty run of digits, leading zeros allowed. *)
Definition int_of_text (s : text) : result Z :=
  match s with
  | [] => Raise ValueError
  | _ => if all_digits s then Ok (digits_value s) else Raise ValueError
  end.

(** Decimal digits of a non-negative number; [fuel] bounds the number of
    digits, any fuel above the binary length is enough. *)
Fixpoint digits_of (fuel : nat) (n : Z) (acc : text) : text :=
  match fuel with
  | O => acc
  | S fuel' =>
      let acc' := digit_char (n mod 10) :: acc in
      if n <? 10 then acc' else digits_of fuel' (n / 10) acc'
  end.

(** [str(n)], as produced by [format] for an [int]. *)
Definition text_of_Z (n : Z) : text :=
  if n <? 0
  then "-"%char :: digits_of (S (Z.to_nat (Z.log2 (- n)))) (- n) []
  else digits_of (S (Z.to_nat (Z.log2 n))) n [].

(** [s.zfill(w)] for a run of digits: zero padding on the left. *)
Definition zfill (w : nat) (s : text) : text :=
  repeat "0"%char (w - length s) ++ s.

(** Universal-newline translation of text-mode reading: [\r\n] and a lone
    [\r] both arrive as [\n].  [pending] tells that the previous character
    was a [\r], which has been delivered as [\n] already. *)
Fixpoint translate_from (pending : bool) (s : text) : text :=
  match s with
  | [] => []
  | c :: s' =>
      if is_char CR c then LF :: translate_from true s'
      else if is_char LF c then
             if pending then translate_from false s'
             else LF :: translate_from false s'
           else c :: translate_from false s'
  end.

Definition translate_newlines (s : text) : text := translate_from false s.

(** The lines of a text, each with its terminating line feed; only the last
    line may lack one.  [cur] is the beginning of the current line. *)
Fixpoint lines_from (cur : text) (s : text) : list text :=
  match s with
  | [] => match cur with
          | [] => []
          | _ :: _ => [cur]
          end
  | c :: s' =>
      if is_char LF c then (cur ++ [c]) :: lines_from [] s'
      else lines_from (cur ++ [c]) s'
  end.

Definition split_lines (s : text) : list text := lines_from [] s.

(** [for line in file] on a file opened with mode ['r']. *)
Definition file_lines (content : text) : list text :=
  split_lines (translate_newlines content).

(** [s.split(sep)] for a one-character separator. *)
Fixpoint split_on (sep : ascii) (s : text) : list text :=
  match s with
  | [] => [[]]
  | c :: s' =>
      if is_char sep c then [] :: split_on sep s'
      else match split_on sep s' with
           | [] => [[c]]
           | p :: ps => (c :: p) :: ps
           end
  end.

(** Longest prefix of characters in a class, and what follows it. *)
Fixpoint span (p : ascii -> bool) (s : text) : text * text :=
  match s with
  | [] => ([], [])
  | c :: s' =>
      if p c then let '(a, b) := span p s' in (c :: a, b)
      else ([], s)
  end.

End Text.

Export Text.

(** ** Calendar: the subset of [datetime] used by the program *)

Module Calendar.

(** A [datetime] at midnight: the program never sets the time fields. *)
Record datetime : Type := mk_datetime { year : Z; month : Z; day : Z }.

Definition MINYEAR : Z := 1.
Definition MAXYEAR : Z := 9999.
Definition _MAXORDINAL : Z := 3652059.

Definition table_get (t : list Z) (i : Z) : Z := nth (Z.to_nat i) t 0.

Definition _DAYS_IN_MONTH : list Z :=
  [-1; 31; 28; 31; 30; 31; 30; 31; 31; 30; 31; 30; 31].

Definition _DAYS_BEFORE_MONTH : list Z :=
  [-1; 0; 31; 59; 90; 120; 151; 181; 212; 243; 273; 304; 334].

Definition _is_leap (y : Z) : bool :=
  (y mod 4 =? 0) && (negb (y mod 100 =? 0) || (y mod 400 =? 0)).

Definition _days_before_year (yr : Z) : Z :=
  let y := yr - 1 in y * 365 + y / 4 - y / 100 + y / 400.

Definition _days_in_month (y m : Z) : Z :=
  if (m =? 2) && _is_leap y then 29 else table_get _DAYS_IN_MONTH m.

Definition _days_before_month (y m : Z) : Z :=
  table_get _DAYS_BEFORE_MONTH m + (if (2 <? m) && _is_leap y then 1 else 0).

Definition _ymd2ord (y m d : Z) : Z :=
  _days_before_year y + _days_before_month y m + d.

Definition _DI400Y : Z := 146097.
Definition _DI100Y : Z := 36524.
Definition _DI4Y : Z := 1461.

(** The end of [_ord2ymd], from [month = (n + 50) >> 5] on: the month and
    the day of the month from the offset [n] in the year. *)
Definition month_day (leapyear : bool) (n : Z) : Z * Z :=
  let mo := Z.shiftr (n + 50) 5 in
  let preceding :=
    table_get _DAYS_BEFORE_MONTH mo + (if (2 <? mo) && leapyear then 1 else 0) in
  if n <? preceding then
    let mo := mo - 1 in
    let preceding :=
      preceding
      - (table_get _DAYS_IN_MONTH mo + (if (mo =? 2) && leapyear then 1 else 0)) in
    (mo, n - preceding + 1)
  else (mo, n - preceding + 1).

Definition _ord2ymd (n0 : Z) : Z * Z * Z :=
  let n := n0 - 1 in
  let n400 := n / _DI400Y in
  let n := n mod _DI400Y in
  let yr := n400 * 400 + 1 in
  let n100 := n / _DI100Y in
  let n := n mod _DI100Y in
  let n4 := n / _DI4Y in
  let n := n mod _DI4Y in
  let n1 := n / 365 in
  let n := n mod 365 in
  let yr := yr + (n100 * 100 + n4 * 4 + n1) in
  if (n1 =? 4) || (n100 =? 4) then (yr - 1, 12, 31)
  else
    let leapyear := (n1 =? 3) && (negb (n4 =? 24) || (n100 =? 3)) in
    let '(mo, d) := month_day leapyear n in
    (yr, mo, d).

(** [_check_date_fields]. *)
Definition valid_ymd (y m d : Z) : bool :=
  (MINYEAR <=? y) && (y <=? MAXYEAR) && (1 <=? m) && (m <=? 12)
  && (1 <=? d) && (d <=? _days_in_month y m).

Definition valid_date (d : datetime) : bool :=
  valid_ymd (year d) (month d) (day d).

(** The constructor of [datetime] converts each argument to a C [int]
    before it looks at the fields. *)
Definition INT_MAX : Z := 2147483647.
Definition INT_MIN : Z := -2147483648.

Definition fits_int (n : Z) : bool := (INT_MIN <=? n) && (n <=? INT_MAX).

(** [datetime(year=y, month=m, day=d)]: [OverflowError] when an argument
    does not fit a C [int], [ValueError] when the fields are not those of a
    date. *)
Definition datetime_new (y m d : Z) : result datetime :=
  if fits_int y && fits_int m && fits_int d then
    if valid_ymd y m d then Ok (mk_datetime y m d) else Raise ValueError
  else Raise OverflowError.

Definition toordinal (d : datetime) : Z :=
  _ymd2ord (year d) (month d) (day d).

Definition fromordinal (n : Z) : datetime :=
  let '(y, m, d) := _ord2ymd n in mk_datetime y m d.

(** [d + timedelta(days=n)]. *)
Definition add_days (d : datetime) (n : Z) : result datetime :=
  let o := toordinal d + n in
  if (0 <? o) && (o <=? _MAXORDINAL) then Ok (fromordinal o)
  else Raise OverflowError.

(** [d.strftime('%Y-%m-%d')]: year on four digits, month and day on two. *)
Definition strftime_Ymd (d : datetime) : text :=
  zfill 4 (text_of_Z (year d)) ++ txt "-" ++ zfill 2 (text_of_Z (month d))
  ++ txt "-" ++ zfill 2 (text_of_Z (day d)).

(** ['{0}-{1}-{2}'.format(d.year, d.month, d.day)]. *)
Definition format_ymd (d : datetime) : text :=
  text_of_Z (year d) ++ txt "-" ++ text_of_Z (month d) ++ txt "-"
  ++ text_of_Z (day d).

End Calendar.

Export Calendar.

(** ** Numbers: Python's [int] and [float] *)

Module Num.

(** [float(n)] for an [int]: the nearest binary64 (ties to even);
    [OverflowError] when the integer is too large. *)
Definition float_of_Z (n : Z) : result float :=
  let f := SF2Prim (binary_normalize prec emax n 0 false) in
  if PrimFloat.is_infinity f then Raise OverflowError else Ok f.

(** [int(f)] for a [float]: truncation towards zero; infinities and NaN
    raise. *)
Definition int_of_float (f : float) : result Z :=
  match Prim2SF f with
  | S754_zero _ => Ok 0
  | S754_finite s m e =>
      let mag := if 0 <=? e then Z.pos m * 2 ^ e else Z.pos m / 2 ^ (- e) in
      Ok (if s then - mag else mag)
  | S754_infinity _ => Raise OverflowError
  | S754_nan => Raise ValueError
  end.

(** A Python number: the aggregate starts as the [int] 0 and becomes a
    [float] with the first addition. *)
Inductive num : Type :=
| NInt (n : Z)
| NFloat (f : float).

(** [a + f] for a float [f]. *)
Definition num_add_float (a : num) (f : float) : result num :=
  match a with
  | NInt n => g ← float_of_Z n; Ok (NFloat (PrimFloat.add g f))
  | NFloat g => Ok (NFloat (PrimFloat.add g f))
  end.

(** [int(a)]. *)
Definition int_of_num (a : num) : result Z :=
  match a with
  | NInt n => Ok n
  | NFloat f => int_of_float f
  end.

End Num.

Export Num.

(** ** The regular expression [data_pattern] *)

Module Pattern.

(** The named groups of
    [^(?P<year>\d+)-(?P<month>\d+)-(?P<day>\d+)\s*=\s*(?P<remaining>\d+)\s*$]. *)
Record groups : Type := mk_groups {
  g_year : text;
  g_month : text;
  g_day : text;
  g_remaining : text
}.

(** [\d+]: a non-empty run of digits, as long as possible. *)
Definition take_digits (s : text) : option (text * text) :=
  match span is_digit s with
  | ([], _) => None
  | (d, rest) => Some (d, rest)
  end.

(** A literal character. *)
Definition take_char (c : ascii) (s : text) : option text :=
  match s with
  | x :: rest => if is_char c x then Some rest else None
  | [] => None
  end.

(** [\s*]: what follows the white space. *)
Definition skip_spaces (s : text) : text := snd (span is_space s).

(** [re.match(data_pattern, line)] of [generate_trend].  Every class of the
    pattern is disjoint from what may follow it, so the leftmost-longest scan
    below finds the match whenever there is one ([match_data_pattern_intro],
    [match_data_pattern_elim]).  After the final [\s*], which takes a line
    feed too, [$] demands the end of the line. *)
Definition match_data_pattern (line : text) : option groups :=
  '(y, r) ← take_digits line;
  r ← take_char "-" r;
  '(m, r) ← take_digits r;
  r ← take_char "-" r;
  '(d, r) ← take_digits r;
  r ← take_char "=" (skip_spaces r);
  '(v, r) ← take_digits (skip_spaces r);
  match skip_spaces r with
  | [] => Some (mk_groups y m d v)
  | _ :: _ => None
  end.

(** The group [date] of the pattern of [generate_estimated_trend],
    [(?P<date>\d+-\d+-\d+)]: the same expression with one group around the
    three numbers. *)
Definition g_date (g : groups) : text :=
  g_year g ++ txt "-" ++ g_month g ++ txt "-" ++ g_day g.

End Pattern.

Export Pattern.

(** ** Board snapshot, cards and the exclusion rule *)

Module Board.

(** Parsed JSON, as [response.json()] returns it. *)
#[local] Set Warnings "-register-all".
Inductive json : Type :=
| JNull
| JBool (b : bool)
| JInt (n : Z)
| JFloat (f : float)
| JStr (s : string)
| JList (l : list json)
| JObj (o : list (string * json)).
#[local] Set Warnings "register-all".

(** Truth value of an object, as [not x] tests it. *)
Definition truthy (v : json) : bool :=
  match v with
  | JNull => false
  | JBool b => b
  | JInt n => negb (n =? 0)
  | JFloat f => negb (PrimFloat.eqb f 0%float)
  | JStr s => negb (String.eqb s "")
  | JList l => match l with [] => false | _ => true end
  | JObj o => match o with [] => false | _ => true end
  end.

(** A [dict] keeps its keys in insertion order: an association list
    without repeated keys. *)
Definition pydict (V : Type) : Type := list (string * V).

Fixpoint dict_get {V : Type} (d : pydict V) (k : string) : option V :=
  match d with
  | [] => None
  | (k', v) :: d' => if String.eqb k' k then Some v else dict_get d' k
  end.

(** [d[k] = v]: an existing key keeps its place, a new key goes last. *)
Fixpoint dict_set {V : Type} (d : pydict V) (k : string) (v : V) : pydict V :=
  match d with
  | [] => [(k, v)]
  | (k', v') :: d' =>
      if String.eqb k' k then (k', v) :: d' else (k', v') :: dict_set d' k v
  end.

(** [v[k]] for a JSON value [v] and a string key. *)
Definition subscript (v : json) (k : string) : result json :=
  match v with
  | JObj o => match dict_get o k with
              | Some x => Ok x
              | None => Raise KeyError
              end
  | _ => Raise TypeError
  end.

(** [c.lower()] on a code point below 256. *)
Definition lower_char (c : ascii) : ascii :=
  let n := code c in
  if (((65 <=? n) && (n <=? 90))
      || ((192 <=? n) && (n <=? 222) && negb (n =? 215)))%N
  then ascii_of_N (n + 32) else c.

Fixpoint lower (s : string) : string :=
  match s with
  | EmptyString => EmptyString
  | String c s' => String (lower_char c) (lower s')
  end.

(** A label, a list or a custom field definition of the board. *)
Record board_item : Type := mk_item { item_id : string; item_name : string }.

(** A card as the board client returns it. *)
Record trello_card : Type := mk_card {
  card_id : string;
  card_name : string;
  card_idList : string;
  card_labels : list board_item
}.

(** A custom field item of a card. *)
Record field_item : Type := mk_field_item {
  idCustomField : string;
  field_value : json
}.

(** The mappings [__init__] builds: [d[value['id']] = value['name']] for
    each value the client returns. *)
Definition build_mapping (values : list board_item) : pydict string :=
  fold_left (fun d v => dict_set d (item_id v) (item_name v)) values [].

Record snapshot : Type := mk_snapshot {
  custom_fields : pydict string;
  labels : pydict string;
  lists : pydict string
}.

Definition init_snapshot (fields labs lsts : list board_item) : snapshot :=
  mk_snapshot (build_mapping fields) (build_mapping labs) (build_mapping lsts).

(** [for k in d: if d[k].lower() == name: found = k; break], with [found]
    initially [None]. *)
Fixpoint resolve_name (name : string) (d : pydict string) : option string :=
  match d with
  | [] => None
  | (k, n) :: d' =>
      if String.eqb (lower n) name then Some k else resolve_name name d'
  end.

(** [_calculate_exclude]; the global [trend] it reads is the object under
    construction. *)
Definition _calculate_exclude (trend : snapshot) (card : trello_card) : bool :=
  let exclude_label := resolve_name "exclude" (labels trend) in
  if existsb (fun label => bool_decide (Some (item_id label) = exclude_label))
       (card_labels card)
  then true
  else
    let complete_list := resolve_name "complete" (lists trend) in
    if bool_decide (Some (card_idList card) = complete_list) then true
    else false.

(** A normalized card: a [dict] from attribute name to value. *)
Abbreviation card_record := (gmap string json).

(** The body of the loop of [initialize_cards] for one card; [items] is
    what [get_custom_field_items] returns for it. *)
Definition normalize_card (trend : snapshot) (card : trello_card)
    (items : list field_item) : card_record :=
  let new_card : card_record :=
    <["exclude" := JBool (_calculate_exclude trend card)]>
      (<["list" := JStr (card_idList card)]>
         (<["name" := JStr (card_name card)]>
            (<["id" := JStr (card_id card)]> ∅))) in
  fold_left
    (fun (c : card_record) (item : field_item) =>
       match dict_get (custom_fields trend) (idCustomField item) with
       | Some field_name => <[lower field_name := field_value item]> c
       | None => c
       end)
    items new_card.

Definition initialize_cards (trend : snapshot) (cards : list trello_card)
    (get_custom_field_items : string -> list field_item) : list card_record :=
  map (fun card => normalize_card trend card (get_custom_field_items (card_id card)))
      cards.

End Board.

Export Board.

(** ** The methods of [ProjectTrend] *)

Module Trend.

(** The colour class of a point. *)
Inductive trend_status : Type := start | better | worse | same.

(** What [generate_trend] hands to the statistics and plotting libraries. *)
Record chart : Type := mk_chart {
  chart_title : text;
  chart_x : list float;
  chart_y : list Z;
  chart_status : list trend_status;
  chart_range_y : Z * Z;
  chart_tickvals : list float;
  chart_ticktext : list text
}.

(** What the program takes from its environment and from libraries whose
    results it only passes on. *)
Class External : Type := {
  (** a plotly figure *)
  figure : Type;
  (** [float(s)] for a [str] *)
  str_to_float : string -> result float;
  (** [time.mktime(date.timetuple())] *)
  mktime : datetime -> result float;
  (** [date.strftime('%B %Y')] *)
  strftime_B_Y : datetime -> text;
  (** the working directory of the process *)
  cwd : text;
  (** the ordinary least squares fit and the construction of the figure *)
  plot : chart -> result figure;
  (** the bytes [write_image] and [write_html] put into their files *)
  to_image : figure -> result text;
  to_html : figure -> result text
}.

(** [float(v)]. *)
Definition py_float `{External} (v : json) : result float :=
  match v with
  | JStr s => str_to_float s
  | JInt n => float_of_Z n
  | JFloat f => Ok f
  | JBool b => float_of_Z (if b then 1 else 0)
  | JNull | JList _ | JObj _ => Raise TypeError
  end.

(** *** Files *)

Abbreviation files := (gmap text text).

Definition ends_with_slash (a : text) : bool :=
  match last a with
  | Some c => is_char "/" c
  | None => false
  end.

(** [os.path.join(a, b)]. *)
Definition path_join (a b : text) : text :=
  match b with
  | c :: _ =>
      if is_char "/" c then b
      else if ends_with_slash a then a ++ b
           else match a with
                | [] => b
                | _ :: _ => a ++ txt "/" ++ b
                end
  | [] =>
      if ends_with_slash a then a
      else match a with
           | [] => []
           | _ :: _ => a ++ txt "/"
           end
  end.

(** The file a relative name denotes. *)
Definition resolve `{External} (name : text) : text := path_join cwd name.

(** [open(path, 'a')]: the file exists afterwards. *)
Definition open_append (path : text) (fs : files) : files :=
  match fs !! path with
  | Some _ => fs
  | None => <[path := []]> fs
  end.

(** [file.write(s)] on a file opened with ['a']. *)
Definition write_append (path : text) (s : text) (fs : files) : files :=
  <[path := default [] (fs !! path) ++ s]> fs.

(** The state of a run: the attributes of [self] the pipeline reads. *)
Record ProjectTrend : Type := mk_ProjectTrend {
  project_board_name : text;
  board : snapshot;
  cards : list card_record;
  _path : text
}.

Definition trend_data (self : ProjectTrend) : text :=
  path_join (_path self) (txt "trend.dat").

Definition estimate_data (self : ProjectTrend) : text :=
  path_join (_path self) (txt "estimate.dat").

(** *** Remaining-time aggregation *)

Definition _get_card_remaining_time `{External} (card : card_record) : result float :=
  match card !! "exclude" with
  | None => Raise KeyError
  | Some flag =>
      if negb (truthy flag) then
        match card !! "remaining" with
        | Some r => n ← subscript r "number"; py_float n
        | None => float_of_Z 1
        end
      else float_of_Z 0
  end.

(** The loop of [add_datapoint], from a running total. *)
Fixpoint accumulate `{External} (total : num) (cs : list card_record) : result num :=
  match cs with
  | [] => Ok total
  | card :: cs' =>
      r ← _get_card_remaining_time card;
      total' ← num_add_float total r;
      accumulate total' cs'
  end.

Definition total_remaining `{External} (cs : list card_record) : result num :=
  accumulate (NInt 0) cs.

(** The record [add_datapoint] writes. *)
Definition datapoint (now : datetime) (total : Z) : text :=
  LF :: strftime_Ymd now ++ txt " = " ++ text_of_Z total.

(** Lines 124-126: the file is opened before [int(total_remaining)] is
    evaluated. *)
Definition append_datapoint (self : ProjectTrend) (now : datetime)
    (total : num) (fs : files) : result unit * files :=
  let fs1 := open_append (trend_data self) fs in
  match int_of_num total with
  | Raise e => (Raise e, fs1)
  | Ok n => (Ok (), write_append (trend_data self) (datapoint now n) fs1)
  end.

(** [add_datapoint]; [now] is [datetime.now()]. *)
Definition add_datapoint `{External} (self : ProjectTrend) (now : datetime)
    (fs : files) : result unit * files :=
  match total_remaining (cards self) with
  | Raise e => (Raise e, fs)
  | Ok total => append_datapoint self now total fs
  end.

(** *** Reading the store in [generate_trend] *)

Record gathered : Type := mk_gathered {
  y_axis : list Z;
  x_axis : list float;
  x_tick_vals : list float;
  x_tick_text : list text;
  y_max : Z;
  status : list trend_status
}.

Definition gathered_init : gathered := mk_gathered [] [] [] [] 0 [].

(** [l[-k]] for [k >= 1]. *)
Definition index_from_end {A : Type} (l : list A) (k : nat) : result A :=
  if (length l <? k)%nat then Raise IndexError
  else match l !! (length l - k)%nat with
       | Some x => Ok x
       | None => Raise IndexError
       end.

(** The body of the loop over the lines, lines 228-261. *)
Definition gather_line `{External} (st : gathered) (line : text) : result gathered :=
  match match_data_pattern line with
  | None => Ok st
  | Some g =>
      remaining ← int_of_text (g_remaining g);
      let y_axis' := y_axis st ++ [remaining] in
      let y_max' := if y_max st <? remaining then remaining else y_max st in
      y ← int_of_text (g_year g);
      m ← int_of_text (g_month g);
      d ← int_of_text (g_day g);
      date ← datetime_new y m d;
      seconds ← mktime date;
      let x_axis' := x_axis st ++ [seconds] in
      let label := strftime_B_Y date in
      let known := bool_decide (label ∈ x_tick_text st) in
      let x_tick_text' := if known then x_tick_text st else x_tick_text st ++ [label] in
      let x_tick_vals' := if known then x_tick_vals st else x_tick_vals st ++ [seconds] in
      s ← match status st with
          | [] => Ok start
          | _ :: _ =>
              a ← index_from_end y_axis' 1;
              b ← index_from_end y_axis' 2;
              if a <? b then Ok better
              else if b <? a then Ok worse
                   else Ok same
          end;
      Ok (mk_gathered y_axis' x_axis' x_tick_vals' x_tick_text' y_max' (status st ++ [s]))
  end.

Fixpoint gather_lines `{External} (st : gathered) (lines : list text) : result gathered :=
  match lines with
  | [] => Ok st
  | line :: lines' => st' ← gather_line st line; gather_lines st' lines'
  end.

(** Lines 219-261 on the content of the file. *)
Definition gather `{External} (content : text) : result gathered :=
  gather_lines gathered_init (file_lines content).

(** [int(y_max * 0.05)]; the literal is the binary64 nearest to 0.05. *)
Definition y_margin_of (ymax : Z) : result Z :=
  f ← float_of_Z ymax; int_of_float (PrimFloat.mul f 0x1.999999999999ap-5%float).

Definition chart_of (title : text) (g : gathered) (y_margin : Z) : chart :=
  mk_chart title (x_axis g) (y_axis g) (status g)
           (0 - y_margin, y_max g + y_margin) (x_tick_vals g) (x_tick_text g).

(** [generate_trend(graph_name, trend_data, title)]; [None] stands for an
    omitted argument, and an empty string is replaced like [None]. *)
Definition generate_trend `{External} (self : ProjectTrend) (graph_name : text)
    (trend_data_arg title_arg : option text) (fs : files) : result unit * files :=
  let path := match trend_data_arg with
              | Some (c :: p) => c :: p
              | _ => trend_data self
              end in
  let title := match title_arg with
               | Some (c :: t) => c :: t
               | _ => project_board_name self ++ txt " Trend"
               end in
  match fs !! path with
  | None => (Raise FileNotFoundError, fs)
  | Some content =>
      match (g ← gather content;
             y_margin ← y_margin_of (y_max g);
             plot (chart_of title g y_margin)) with
      | Raise e => (Raise e, fs)
      | Ok fig =>
          match to_image fig with
          | Raise e => (Raise e, fs)
          | Ok png =>
              let fs1 := <[resolve (graph_name ++ txt ".png") := png]> fs in
              match to_html fig with
              | Raise e => (Raise e, fs1)
              | Ok html =>
                  (Ok (), <[resolve (graph_name ++ txt ".html") := html]> fs1)
              end
          end
      end
  end.

(** *** The estimate *)

(** Lines 172-177: the dates and values of the matching lines. *)
Fixpoint read_points (dates : list text) (data : list Z) (lines : list text)
    : result (list text * list Z) :=
  match lines with
  | [] => Ok (dates, data)
  | line :: lines' =>
      match match_data_pattern line with
      | None => read_points dates data lines'
      | Some g =>
          v ← int_of_text (g_remaining g);
          read_points (dates ++ [g_date g]) (data ++ [v]) lines'
      end
  end.

(** [datetime] of a date as the store spells it: [split('-')], three
    [int]s, the constructor. *)
Definition date_of_text (s : text) : result datetime :=
  match split_on "-" s with
  | [y; m; d] =>
      y ← int_of_text y; m ← int_of_text m; d ← int_of_text d;
      datetime_new y m d
  | _ => Raise ValueError
  end.

(** The variables of the loop that expands the data. *)
Record projection : Type := mk_projection {
  last_date : datetime;
  last_remaining : Z;
  current_dates : list text;
  current_data : list Z
}.

(** Lines 180-182: the last point of the data. *)
Definition last_point (dates : list text) (data : list Z) : result projection :=
  match last dates with
  | None => Raise IndexError
  | Some s =>
      date ← date_of_text s;
      match last data with
      | None => Raise IndexError
      | Some v => Ok (mk_projection date v dates data)
      end
  end.

Inductive step : Type :=
| Exit
| Next (st : projection)
| Throw (e : exn).

(** One test of the condition of the [while] and, when it holds, one
    execution of its body (lines 185-191). *)
Definition expand_step (worked_days_per_week : Z) (st : projection) : step :=
  if 0 <? last_remaining st then
    match add_days (last_date st) 7 with
    | Raise e => Throw e
    | Ok date =>
        let r := last_remaining st - worked_days_per_week in
        let r := if r <? 0 then 0 else r in
        Next (mk_projection date r
                (current_dates st ++ [format_ymd date])
                (current_data st ++ [r]))
    end
  else Exit.

(** The outcome of running the loop for at most [fuel] tests. *)
Inductive run : Type :=
| Finished (st : projection)
| Raised (e : exn) (st : projection)
| Running (st : projection).

Fixpoint expand_loop (fuel : nat) (k : Z) (st : projection) : run :=
  match fuel with
  | O => Running st
  | S fuel' =>
      match expand_step k st with
      | Exit => Finished st
      | Throw e => Raised e st
      | Next st' => expand_loop fuel' k st'
      end
  end.

(** Every execution of the body moves the date seven days towards
    9999-12-31, so this many tests always end the loop
    ([expand_loop_ends]). *)
Definition enough_fuel (st : projection) : nat :=
  S (Z.to_nat ((_MAXORDINAL - toordinal (last_date st)) / 7 + 1)).

(** Lines 185-191.  The loop always ends, so the last case does not occur
    ([expand_data_total]). *)
Definition expand_data (k : Z) (st : projection) : result projection :=
  match expand_loop (enough_fuel st) k st with
  | Finished st' => Ok st'
  | Raised e _ => Raise e
  | Running _ => Raise LibraryError
  end.

(** ['{date} = {data}\n'.format(date=date, data=data)]. *)
Definition estimate_line (date : text) (data : Z) : text :=
  date ++ txt " = " ++ text_of_Z data ++ [LF].

(** Lines 195-196: what is written to the file, and how the loop ends. *)
Fixpoint write_points (dates : list text) (data : list Z) (range : list nat)
    (written : text) : text * result unit :=
  match range with
  | [] => (written, Ok ())
  | i :: range' =>
      match dates !! i, data !! i with
      | Some date, Some v =>
          write_points dates data range' (written ++ estimate_line date v)
      | _, _ => (written, Raise IndexError)
      end
  end.

(** [generate_estimated_trend(worked_days_per_week)]. *)
Definition generate_estimated_trend `{External} (self : ProjectTrend)
    (worked_days_per_week : Z) (fs : files) : result unit * files :=
  match fs !! trend_data self with
  | None => (Raise FileNotFoundError, fs)
  | Some content =>
      match ('(dates, data) ← read_points [] [] (file_lines content);
             st ← last_point dates data;
             expand_data worked_days_per_week st) with
      | Raise e => (Raise e, fs)
      | Ok st =>
          let '(written, r) :=
            write_points (current_dates st) (current_data st)
                         (seq 0 (length (current_data st))) [] in
          let fs1 := <[estimate_data self := written]> fs in
          match r with
          | Raise e => (Raise e, fs1)
          | Ok _ =>
              let title := project_board_name self ++ txt " Estimated Trend" in
              generate_trend self (txt "estimate") (Some (estimate_data self))
                             (Some title) fs1
          end
      end
  end.

End Trend.

Export Trend.

(** ** A concrete environment and run, for the examples *)

Module Sample.

Definition month_names : list string :=
  ["January"; "February"; "March"; "April"; "May"; "June"; "July"; "August";
   "September"; "October"; "November"; "December"].

(** A process in [/work] with its clock on UTC, whose figures are the
    charts themselves and whose [float] reads unsigned integers. *)
Definition sample_external : External := {|
  figure := chart;
  str_to_float := fun s => n ← int_of_text (txt s); float_of_Z n;
  mktime := fun d => float_of_Z ((toordinal d - 719163) * 86400);
  strftime_B_Y := fun d =>
    txt (nth (Z.to_nat (month d - 1)) month_names "") ++ txt " "
    ++ text_of_Z (year d);
  cwd := txt "/work";
  plot := fun c => Ok c;
  to_image := fun _ => Ok (txt "PNG");
  to_html := fun _ => Ok (txt "<html>")
|}.

(** A run installed in [/opt/trend], on a board without cards. *)
Definition sample_run : ProjectTrend :=
  mk_ProjectTrend (txt "Board") (init_snapshot [] [] []) [] (txt "/opt/trend").

(** A file system that holds only the trend store, with the given content. *)
Definition store_only (content : text) : files :=
  <[trend_data sample_run := content]> ∅.

End Sample.

Export Sample.

(** ** Vocabulary of the properties *)

Module Vocabulary.

(** Every offset in a year is sent to a month and a day of that month. *)
Definition month_day_ok (leap : bool) (n : Z) : bool :=
  let '(m, d) := month_day leap n in
  (1 <=? m) && (m <=? 12) && (1 <=? d)
  && (d <=? (if (m =? 2) && leap then 29 else table_get _DAYS_IN_MONTH m))
  && (table_get _DAYS_BEFORE_MONTH m + (if (2 <? m) && leap then 1 else 0) + d =? n + 1).

(** [ceil(v / k)] for a positive [k]. *)
Definition ceil_div (v k : Z) : Z := (v + k - 1) / k.

(** The dates and values the loop reaches after 1, 2, ..., [n] executions
    of its body, from the date [d] and the value [v]. *)
Definition projected_dates (d : datetime) (n : Z) : list datetime :=
  (fun i => fromordinal (toordinal d + 7 * i)) <$> seqZ 1 n.

Definition projected_values (v k n : Z) : list Z :=
  (fun i => Z.max 0 (v - i * k)) <$> seqZ 1 n.

Definition unclamped_values (v k n : Z) : list Z :=
  (fun i => v - i * k) <$> seqZ 1 n.

(** A non-empty run of digits; a run of white space. *)
Definition digits1 (s : text) : Prop := s <> [] /\ all_digits s = true.

Definition spaces (s : text) : Prop := forallb is_space s = true.

(** The lines of the language of [data_pattern], by their parts. *)
Definition point_line (y m d ws1 ws2 v ws3 : text) : text :=
  (y ++ "-"%char :: m ++ "-"%char :: d ++ ws1 ++ "="%char :: ws2 ++ v) ++ ws3.

(** [s] is empty or starts outside the class [p]. *)
Definition stops (p : ascii -> bool) (s : text) : Prop :=
  match s with [] => True | c :: _ => p c = false end.

(** The matches of the lines of a file, in file order. *)
Definition matches (lines : list text) : list groups :=
  omap match_data_pattern lines.

(** The value of the group [remaining]. *)
Definition remaining_of (g : groups) : Z := digits_value (g_remaining g).

Definition no_CR (s : text) : Prop := forallb (fun c => negb (is_char CR c)) s = true.

Definition no_LF (s : text) : Prop := forallb (fun c => negb (is_char LF c)) s = true.

(** What has been delivered when a [\r] is pending. *)
Definition delivered (pending : bool) : text := if pending then [LF] else [].

(** What [add_datapoint] writes after the line feed. *)
Definition record_of (now : datetime) (total : Z) : text :=
  strftime_Ymd now ++ txt " = " ++ text_of_Z total.

(** The three padded fields of the date a record starts with. *)
Definition date_groups (now : datetime) (total : Z) : groups :=
  mk_groups (zfill 4 (text_of_Z (year now))) (zfill 2 (text_of_Z (month now)))
            (zfill 2 (text_of_Z (day now))) (text_of_Z total).

(** The content of a file, empty when the file does not exist. *)
Definition content_of (path : text) (fs : files) : text := default [] (fs !! path).

(** A sequence of appends to the trend store, one per run of
    [add_datapoint]: each with its date and its aggregate. *)
Definition append_all (self : ProjectTrend) (ops : list (datetime * num))
    (fs : files) : files :=
  fold_left (fun fs op => (append_datapoint self op.1 op.2 fs).2) ops fs.

(** The point an append is meant to store. *)
Definition stores (op : datetime * num) (p : datetime * Z) : Prop :=
  op.1 = p.1 /\ int_of_num op.2 = Ok p.2 /\ valid_date p.1 = true /\ 0 <= p.2.

(** The lines of a file that match the pattern, in file order. *)
Definition matching_lines (lines : list text) : list text :=
  filter (fun line => is_Some (match_data_pattern line)) lines.

(** A line in the format [YYYY-MM-DD = <int>]: a point line whose year has
    four digits and whose month and day have two. *)
Definition iso_point_line (line : text) : bool :=
  match match_data_pattern line with
  | Some g =>
      (length (g_year g) =? 4)%nat && (length (g_month g) =? 2)%nat
      && (length (g_day g) =? 2)%nat
  | None => false
  end.

(** The status of a value that follows the value [prev]. *)
Definition status_after (prev cur : Z) : trend_status :=
  if cur <? prev then better
  else if prev <? cur then worse
       else same.

(** The statuses of a sequence of values: [start], then each value against
    the one just before it. *)
Fixpoint statuses_after (prev : Z) (ys : list Z) : list trend_status :=
  match ys with
  | [] => []
  | y :: ys' => status_after prev y :: statuses_after y ys'
  end.

Definition derived_statuses (ys : list Z) : list trend_status :=
  match ys with
  | [] => []
  | y :: ys' => start :: statuses_after y ys'
  end.

(** [id] is the key a mapping resolves [name] to: the first key, in the
    order of the mapping, whose value is [name] up to case. *)
Definition resolves (name : string) (d : pydict string) (id : string) : Prop :=
  exists (i : nat) (n : string),
    d !! i = Some (id, n) /\ lower n = name
    /\ forall (j : nat) (kn : string * string),
         (j < i)%nat -> d !! j = Some kn -> lower kn.2 <> name.

(** No value of the mapping is [name] up to case. *)
Definition unnamed (name : string) (d : pydict string) : Prop :=
  forall (i : nat) (kn : string * string), d !! i = Some kn -> lower kn.2 <> name.

(** The aggregate of the per-card values [rs], added in the order of the
    cards: the [int] 0 when there is no card, else the floating-point sum
    that starts from 0.0. *)
Definition sum_floats (rs : list float) : num :=
  match rs with
  | [] => NInt 0
  | _ :: _ => NFloat (fold_left PrimFloat.add rs 0%float)
  end.

End Vocabulary.

Export Vocabulary.

(** ** Further vocabulary: the normalizer *)

Module Normalizer.

(** The record [initialize_cards] starts from: [card_template] with the id,
    the name, the list and the flag of the card. *)
Definition base_card (trend : snapshot) (card : trello_card) : card_record :=
  <["exclude" := JBool (_calculate_exclude trend card)]>
    (<["list" := JStr (card_idList card)]>
       (<["name" := JStr (card_name card)]>
          (<["id" := JStr (card_id card)]> ∅))).

(** The attribute a custom field item is stored under: the lower-cased name
    of its field, when the board knows the field. *)
Definition custom_key (trend : snapshot) (item : field_item) : option string :=
  lower <$> dict_get (custom_fields trend) (idCustomField item).

(** The items of a card that are stored under [key], in the order of the
    response. *)
Definition items_for (trend : snapshot) (key : string) (items : list field_item)
    : list field_item :=
  filter (fun item => custom_key trend item = Some key) items.

(** The values a board mapping received for the id [k], in the order of
    the response. *)
Definition values_for (k : string) (values : list board_item) : list board_item :=
  filter (fun v => item_id v = k) values.

End Normalizer.

Export Normalizer.

(** ** Invariants of the readers *)

Module Invariants.

(** [m] is the greatest of [0] and the values [ys]. *)
Definition maximum_of (m : Z) (ys : list Z) : Prop :=
  0 <= m /\ Forall (fun y => y <= m) ys /\ (m = 0 \/ m ∈ ys).

(** What the loop of [generate_trend] keeps true of its variables. *)
Definition gathered_ok (st : gathered) : Prop :=
  length (x_axis st) = length (y_axis st)
  /\ maximum_of (y_max st) (y_axis st)
  /\ NoDup (x_tick_text st)
  /\ length (x_tick_vals st) = length (x_tick_text st)
  /\ sublist (x_tick_vals st) (x_axis st).

(** The date the groups of a matching line spell: the constructor
    [datetime] applied to the values of the three groups. *)
Definition date_of_groups (g : groups) : result datetime :=
  datetime_new (digits_value (g_year g)) (digits_value (g_month g))
               (digits_value (g_day g)).

(** The groups spell a date that the chart can place: the constructor
    accepts it and [time.mktime] gives its seconds. *)
Definition date_accepted `{External} (g : groups) : Prop :=
  exists d s, date_of_groups g = Ok d /\ mktime d = Ok s.

(** A date as the lines of a store spell it: three runs of digits. *)
Definition date_text (s : text) : Prop :=
  exists y m d,
    digits1 y /\ digits1 m /\ digits1 d /\ s = y ++ "-"%char :: m ++ "-"%char :: d.

(** What the loop that expands the data keeps true of its variables. *)
Definition projection_ok (st : projection) : Prop :=
  length (current_dates st) = length (current_data st)
  /\ Forall date_text (current_dates st)
  /\ Forall (fun v => 0 <= v) (current_data st)
  /\ valid_date (last_date st) = true.

(** A line as [generate_estimated_trend] writes it: no carriage return, and
    one line feed, at its end. *)
Definition closed_line (l : text) : Prop :=
  no_CR l /\ exists body, l = body ++ [LF] /\ no_LF body.

(** The margin of the chart is the twentieth part of [y], rounded down. *)
Definition margin_ok (y : Z) : bool :=
  match y_margin_of y with
  | Ok m => m =? y / 20
  | Raise _ => false
  end.

End Invariants.

Export Invariants.

(** ** The Trello client, the report card and the upload *)

Module Trello.

(** [for x in v] for a JSON value [v]: the items of a list, the keys of an
    object, the characters of a string; the other values are not
    iterable. *)
Definition elements (v : json) : result (list json) :=
  match v with
  | JList l => Ok l
  | JObj o => Ok ((fun kv => JStr kv.1) <$> o)
  | JStr s => Ok ((fun c => JStr (String c EmptyString)) <$> list_ascii_of_string s)
  | JNull | JBool _ | JInt _ | JFloat _ => Raise TypeError
  end.

(** [v == name] for a JSON value [v] and a [str]. *)
Definition equals_str (v : json) (name : string) : bool :=
  match v with
  | JStr s => String.eqb s name
  | _ => false
  end.

(** The loop of [get_board_with_name] over the parsed response. *)
Fixpoint first_board (boards : list json) (name : string) : result json :=
  match boards with
  | [] => Ok JNull
  | board :: rest =>
      n ← subscript board "name";
      if equals_str n name then Ok board else first_board rest name
  end.

(** [get_board_with_name]; [raw] is what [response_to_json] returns,
    [JNull] for [None]. *)
Definition get_board_with_name (raw : json) (name : string) : result json :=
  boards ← elements raw; first_board boards name.

(** Lines 36-40 of [__init__]: the board and its id. *)
Definition project_board (raw : json) (name : string) : result (json * json) :=
  board ← get_board_with_name raw name;
  if negb (truthy board) then Raise ValueError
  else id ← subscript board "id"; Ok (board, id).

(** A request of the client, by the method that sends it, with the values
    that go into its URL, its parameters and its files. *)
Inductive request : Type :=
| GetCard (card_id : json)
| GetAttachments (card_id : json)
| DeleteAttachment (card_id attachment_id : json)
| PostAttachment (card_id : json) (filename data : text) (setCover : string).

(** The service: what [response_to_json] returns for the response to a
    request that follows the requests [log] (the parsed body, [JNull] when
    the body is not JSON), or the exception [requests] raises. *)
Class Service : Type := {
  respond : list request -> request -> result json
}.

(** A computation of the client: it extends the log of the requests sent,
    also when it raises. *)
Definition api (A : Type) : Type := list request -> result A * list request.

Definition api_ret {A : Type} (a : A) : api A := fun log => (Ok a, log).

Definition api_bind {A B : Type} (k : A -> api B) (m : api A) : api B :=
  fun log =>
    match m log with
    | (Ok a, log') => k a log'
    | (Raise e, log') => (Raise e, log')
    end.

#[global] Instance api_mret : MRet api := @api_ret.
#[global] Instance api_mbind : MBind api := @api_bind.

Definition lift {A : Type} (r : result A) : api A := fun log => (r, log).

Definition send `{Service} (req : request) : api json :=
  fun log => (respond log req, log ++ [req]).

Definition get_card `{Service} (card_id : json) : api json :=
  send (GetCard card_id).

Definition get_all_attachments `{Service} (card_id : json) : api json :=
  send (GetAttachments card_id).

Definition delete_attachment `{Service} (card_id attachment_id : json) : api json :=
  send (DeleteAttachment card_id attachment_id).

(** [str(cover).lower()]. *)
Definition setCover_of (cover : bool) : string :=
  lower (if cover then "True" else "False").

(** [add_attachment]: the file is opened before the request is sent. *)
Definition add_attachment `{Service} (fs : files) (card_id : json)
    (filename : text) (cover : bool) : api json :=
  match fs !! filename with
  | None => lift (Raise FileNotFoundError)
  | Some data => send (PostAttachment card_id filename data (setCover_of cover))
  end.

(** [card[k]] for a normalized card. *)
Definition attribute (card : card_record) (k : string) : result json :=
  match card !! k with
  | Some v => Ok v
  | None => Raise KeyError
  end.

(** [get_card_by_name]: [None] when the loop ends. *)
Fixpoint get_card_by_name `{Service} (cards : list card_record) (name : string)
    : api json :=
  match cards with
  | [] => api_ret JNull
  | card :: rest =>
      n ← lift (attribute card "name");
      if equals_str n name then id ← lift (attribute card "id"); get_card id
      else get_card_by_name rest name
  end.

(** The last line of [initialize_cards]. *)
Definition report_card_of `{Service} (cards : list card_record) : api json :=
  get_card_by_name cards "Weekly Report".

(** The loop of [add_trends_to_trello] over the attachments. *)
Fixpoint delete_attachments `{Service} (id : json) (attachments : list json)
    : api unit :=
  match attachments with
  | [] => api_ret ()
  | attachment :: rest =>
      aid ← lift (subscript attachment "id");
      _ ← delete_attachment id aid;
      delete_attachments id rest
  end.

(** [add_trends_to_trello]; [report_card] is the attribute of that name and
    [path] is [self._path]. *)
Definition add_trends_to_trello `{Service} (report_card : json) (path : text)
    (fs : files) : api unit :=
  if truthy report_card then
    id ← lift (subscript report_card "id");
    attachments ← get_all_attachments id;
    l ← lift (elements attachments);
    _ ← delete_attachments id l;
    _ ← add_attachment fs id (path_join path (txt "figure.png")) true;
    _ ← add_attachment fs id (path_join path (txt "estimate.png")) false;
    api_ret ()
  else api_ret ().

(** Lines 393-399 of the script, on the initialized object: [add] and [est]
    are the two arguments of the command line, [est] an [int]. *)
Definition main_steps `{External} `{Service} (add : bool) (est : Z)
    (self : ProjectTrend) (report_card : json) (now : datetime)
    (fs : files) (log : list request) : result unit * files * list request :=
  let '(r0, fs0) := if add then add_datapoint self now fs else (Ok (), fs) in
  match r0 with
  | Raise e => (Raise e, fs0, log)
  | Ok _ =>
      let '(r1, fs1) := generate_trend self (txt "figure") None None fs0 in
      match r1 with
      | Raise e => (Raise e, fs1, log)
      | Ok _ =>
          let '(r2, fs2) := generate_estimated_trend self est fs1 in
          match r2 with
          | Raise e => (Raise e, fs2, log)
          | Ok _ =>
              let '(r3, log3) :=
                add_trends_to_trello report_card (_path self) fs2 log in
              (r3, fs2, log3)
          end
      end
  end.

(** A service that answers every request, with two attachments on every
    card. *)
Definition sample_service : Service := {|
  respond := fun _ req =>
    match req with
    | GetAttachments _ =>
        Ok (JList [JObj [("id", JStr "a1")]; JObj [("id", JStr "a2")]])
    | GetCard id => Ok (JObj [("id", id); ("name", JStr "Weekly Report")])
    | _ => Ok JNull
    end
|}.

(** The upload paths of a run. *)
Definition figure_png (self : ProjectTrend) : text :=
  path_join (_path self) (txt "figure.png").

Definition estimate_png (self : ProjectTrend) : text :=
  path_join (_path self) (txt "estimate.png").

End Trello.

Export Trello.

(* ===================================================================== *)
(** * Part II: properties                                                 *)
(* ===================================================================== *)

(** Case analysis on every condition in sight. *)
Ltac split_ifs :=
  repeat match goal with
         | |- context [if ?b then _ else _] => destruct b eqn:?
         | H : context [if ?b then _ else _] |- _ => destruct b eqn:?
         end.

(** ** The calendar *)

Section CalendarFacts.

Lemma table_get_before (m : Z) :
  1 <= m <= 12 ->
  0 <= table_get _DAYS_BEFORE_MONTH m <= 334
  /\ table_get _DAYS_BEFORE_MONTH m + table_get _DAYS_IN_MONTH m <= 365
  /\ (m <= 2 -> table_get _DAYS_BEFORE_MONTH m + table_get _DAYS_IN_MONTH m <= 59).
Proof.
  intros Hm.
  assert (Hcases : m = 1 \/ m = 2 \/ m = 3 \/ m = 4 \/ m = 5 \/ m = 6 \/ m = 7
                   \/ m = 8 \/ m = 9 \/ m = 10 \/ m = 11 \/ m = 12) by lia.
  repeat (destruct Hcases as [-> | Hcases]); try subst m; vm_compute; intuition congruence.
Qed.

Lemma month_day_all (leap : bool) :
  forallb (fun k => month_day_ok leap (Z.of_nat k))
          (seq 0%nat (if leap then 366%nat else 365%nat)) = true.
Proof. destruct leap; vm_compute; reflexivity. Qed.

Lemma month_day_spec (leap : bool) (n : Z) :
  0 <= n < (if leap then 366 else 365) -> month_day_ok leap n = true.
Proof.
  intros H. pose proof (month_day_all leap) as A.
  rewrite forallb_forall in A.
  specialize (A (Z.to_nat n)). rewrite Z2Nat.id in A by lia.
  apply A. apply in_seq. destruct leap; lia.
Qed.

Lemma days_before_year_cycle (a b c e : Z) :
  0 <= b <= 3 -> 0 <= c <= 24 -> 0 <= e <= 3 ->
  _days_before_year (400 * a + 100 * b + 4 * c + e + 1)
  = 146097 * a + 36524 * b + 1461 * c + 365 * e.
Proof.
  intros Hb Hc He. unfold _days_before_year.
  replace (400 * a + 100 * b + 4 * c + e + 1 - 1)
    with (400 * a + 100 * b + 4 * c + e) by lia.
  cbv zeta. Z.div_mod_to_equations. lia.
Qed.

Lemma is_leap_cycle (a b c e : Z) :
  0 <= b <= 3 -> 0 <= c <= 24 -> 0 <= e <= 3 ->
  _is_leap (400 * a + 100 * b + 4 * c + e + 1)
  = (e =? 3) && (negb (c =? 24) || (b =? 3)).
Proof.
  intros Hb Hc He. unfold _is_leap.
  repeat match goal with |- context [?x =? ?y] => destruct (Z.eqb_spec x y) end;
    simpl; try reflexivity; exfalso; Z.div_mod_to_equations; lia.
Qed.

(** [_ord2ymd] inverts [_ymd2ord] on the whole supported range and yields
    valid dates. *)
Lemma ord2ymd_spec (n : Z) :
  1 <= n <= _MAXORDINAL ->
  let '(y, m, d) := _ord2ymd n in
  valid_ymd y m d = true /\ _ymd2ord y m d = n.
Proof.
  intros Hn. unfold _ord2ymd.
  set (a := n - 1).
  set (n400 := a / _DI400Y). set (r400 := a mod _DI400Y).
  set (n100 := r400 / _DI100Y). set (r100 := r400 mod _DI100Y).
  set (n4 := r100 / _DI4Y). set (r4 := r100 mod _DI4Y).
  set (n1 := r4 / 365). set (r1 := r4 mod 365).
  unfold _MAXORDINAL, _DI400Y, _DI100Y, _DI4Y in *.
  assert (E400 : a = 146097 * n400 + r400 /\ 0 <= r400 < 146097)
    by (subst n400 r400; split; [apply Z.div_mod; lia | apply Z.mod_pos_bound; lia]).
  assert (E100 : r400 = 36524 * n100 + r100 /\ 0 <= r100 < 36524)
    by (subst n100 r100; split; [apply Z.div_mod; lia | apply Z.mod_pos_bound; lia]).
  assert (E4 : r100 = 1461 * n4 + r4 /\ 0 <= r4 < 1461)
    by (subst n4 r4; split; [apply Z.div_mod; lia | apply Z.mod_pos_bound; lia]).
  assert (E1 : r4 = 365 * n1 + r1 /\ 0 <= r1 < 365)
    by (subst n1 r1; split; [apply Z.div_mod; lia | apply Z.mod_pos_bound; lia]).
  clearbody n400 r400 n100 r100 n4 r4 n1 r1.
  assert (0 <= n400 <= 24) by lia.
  assert (0 <= n100 <= 4) by lia.
  assert (0 <= n4 <= 24) by lia.
  assert (0 <= n1 <= 4) by lia.
  destruct (Z.eqb_spec n1 4) as [e1|e1];
    [|destruct (Z.eqb_spec n100 4) as [e2|e2]]; cbn [orb].
  - assert (r1 = 0) by lia. assert (n4 <= 23) by lia. assert (n100 <= 3) by lia.
    replace (n400 * 400 + 1 + (n100 * 100 + n4 * 4 + n1) - 1)
      with (400 * n400 + 100 * n100 + 4 * n4 + 3 + 1) by lia.
    unfold valid_ymd, _ymd2ord, _days_in_month, _days_before_month.
    rewrite days_before_year_cycle, is_leap_cycle by lia.
    replace (n4 =? 24) with false by (symmetry; apply Z.eqb_neq; lia).
    change (table_get _DAYS_BEFORE_MONTH 12) with 334.
    change (table_get _DAYS_IN_MONTH 12) with 31.
    unfold MINYEAR, MAXYEAR. split_ifs; lia.
  - assert (r100 = 0 /\ n4 = 0 /\ n1 = 0 /\ r1 = 0) as (-> & -> & -> & ->) by lia.
    subst n100.
    replace (n400 * 400 + 1 + (4 * 100 + 0 * 4 + 0) - 1)
      with (400 * n400 + 100 * 3 + 4 * 24 + 3 + 1) by lia.
    unfold valid_ymd, _ymd2ord, _days_in_month, _days_before_month.
    rewrite days_before_year_cycle, is_leap_cycle by lia.
    change (table_get _DAYS_BEFORE_MONTH 12) with 334.
    change (table_get _DAYS_IN_MONTH 12) with 31.
    unfold MINYEAR, MAXYEAR. split_ifs; lia.
  - set (leap := (n1 =? 3) && (negb (n4 =? 24) || (n100 =? 3))).
    assert (MD : month_day_ok leap r1 = true)
      by (apply month_day_spec; destruct leap; lia).
    unfold month_day_ok in MD.
    replace (n400 * 400 + 1 + (n100 * 100 + n4 * 4 + n1))
      with (400 * n400 + 100 * n100 + 4 * n4 + n1 + 1) by lia.
    destruct (month_day leap r1) as [mo dd].
    unfold valid_ymd, _ymd2ord, _days_in_month, _days_before_month.
    rewrite days_before_year_cycle, is_leap_cycle by lia. fold leap.
    unfold MINYEAR, MAXYEAR. split_ifs; lia.
Qed.

Lemma fromordinal_spec (n : Z) :
  1 <= n <= _MAXORDINAL ->
  valid_date (fromordinal n) = true /\ toordinal (fromordinal n) = n.
Proof.
  intros Hn. pose proof (ord2ymd_spec n Hn) as H.
  unfold fromordinal, valid_date, toordinal.
  destruct (_ord2ymd n) as [[y m] d]. exact H.
Qed.

(** A valid date has an ordinal in the supported range. *)
Lemma toordinal_range (d : datetime) :
  valid_date d = true -> 1 <= toordinal d <= _MAXORDINAL.
Proof.
  destruct d as [y m d]. unfold valid_date, valid_ymd, toordinal, _ymd2ord. simpl.
  unfold MINYEAR, MAXYEAR, _MAXORDINAL, _days_in_month, _days_before_month.
  intros V.
  assert (Hm : 1 <= m <= 12) by lia.
  destruct (table_get_before m Hm) as (B1 & B2 & B3).
  assert (Hy : 0 <= _days_before_year y
               /\ _days_before_year y + 365 + (if _is_leap y then 1 else 0) <= 3652059).
  { assert (1 <= y <= 9999) by lia.
    unfold _days_before_year, _is_leap. cbv zeta.
    split_ifs; Z.div_mod_to_equations; lia. }
  split_ifs; lia.
Qed.

Lemma datetime_new_valid (y m d : Z) (date : datetime) :
  datetime_new y m d = Ok date -> valid_date date = true.
Proof.
  unfold datetime_new. destruct (_ && _); [|discriminate].
  destruct (valid_ymd y m d) eqn:V; [|discriminate].
  intros [= <-]. exact V.
Qed.

Lemma days_in_month_le (y m : Z) : 1 <= m <= 12 -> _days_in_month y m <= 31.
Proof.
  intros Hm. unfold _days_in_month.
  assert (H : m = 1 \/ m = 2 \/ m = 3 \/ m = 4 \/ m = 5 \/ m = 6 \/ m = 7
              \/ m = 8 \/ m = 9 \/ m = 10 \/ m = 11 \/ m = 12) by lia.
  repeat (destruct H as [-> | H]); try rewrite H;
    destruct (_is_leap y); vm_compute; discriminate.
Qed.

(** The fields of a date fit a C [int]: the constructor accepts them. *)
Lemma datetime_new_Ok (y m d : Z) :
  valid_ymd y m d = true -> datetime_new y m d = Ok (mk_datetime y m d).
Proof.
  intros V. unfold datetime_new. rewrite V.
  assert (Hm : 1 <= m <= 12) by (unfold valid_ymd in V; lia).
  pose proof (days_in_month_le y m Hm) as Hd.
  assert (F : fits_int y && fits_int m && fits_int d = true)
    by (unfold valid_ymd, MINYEAR, MAXYEAR in V; unfold fits_int, INT_MIN, INT_MAX; lia).
  rewrite F. reflexivity.
Qed.

(** The exception of the constructor tells why it refuses its arguments. *)
Lemma datetime_new_Raise (y m d : Z) (e : exn) :
  datetime_new y m d = Raise e ->
  e = (if fits_int y && fits_int m && fits_int d then ValueError else OverflowError).
Proof.
  unfold datetime_new. destruct (_ && _).
  - destruct (valid_ymd y m d); [discriminate|]. intros [= <-]. reflexivity.
  - intros [= <-]. reflexivity.
Qed.

Lemma add_days_in_range (d : datetime) (n : Z) :
  1 <= toordinal d + n <= _MAXORDINAL ->
  add_days d n = Ok (fromordinal (toordinal d + n)).
Proof.
  intros H. unfold add_days.
  destruct ((0 <? toordinal d + n) && (toordinal d + n <=? _MAXORDINAL)) eqn:E;
    [reflexivity | lia].
Qed.

Lemma add_days_overflow (d : datetime) (n : Z) :
  _MAXORDINAL < toordinal d + n -> add_days d n = Raise OverflowError.
Proof.
  intros H. unfold add_days.
  destruct ((0 <? toordinal d + n) && (toordinal d + n <=? _MAXORDINAL)) eqn:E;
    [lia | reflexivity].
Qed.

End CalendarFacts.

(** ** The projection loop *)

Section Projection.

Lemma ceil_div_spec (v k : Z) :
  0 < k -> (ceil_div v k - 1) * k < v <= ceil_div v k * k.
Proof.
  intros Hk. unfold ceil_div.
  pose proof (Z.div_mod (v + k - 1) k ltac:(lia)) as E.
  pose proof (Z.mod_pos_bound (v + k - 1) k Hk) as B. nia.
Qed.

Lemma ceil_div_unique (v k n : Z) :
  0 < k -> (n - 1) * k < v <= n * k -> ceil_div v k = n.
Proof.
  intros Hk H. pose proof (ceil_div_spec v k Hk) as S. nia.
Qed.

Lemma seqZ_shift (n : Z) : seqZ 2 n = Z.add 1 <$> seqZ 1 n.
Proof. rewrite fmap_add_seqZ. reflexivity. Qed.

Lemma seqZ_1_succ (n : nat) :
  seqZ 1 (Z.of_nat (S n)) = 1 :: (Z.add 1 <$> seqZ 1 (Z.of_nat n)).
Proof.
  rewrite seqZ_cons by lia. rewrite <- seqZ_shift.
  replace (Z.pred (Z.of_nat (S n))) with (Z.of_nat n) by lia. reflexivity.
Qed.

Lemma projected_dates_succ (d d' : datetime) (n : nat) :
  d' = fromordinal (toordinal d + 7) ->
  toordinal d' = toordinal d + 7 ->
  projected_dates d (Z.of_nat (S n)) = d' :: projected_dates d' (Z.of_nat n).
Proof.
  intros -> Hord. unfold projected_dates.
  rewrite seqZ_1_succ, fmap_cons, <- list_fmap_compose.
  f_equal; try (f_equal; lia).
  apply list_fmap_ext. intros i x _. cbn. rewrite Hord. f_equal. lia.
Qed.

Lemma unclamped_values_succ (v k : Z) (n : nat) :
  unclamped_values v k (Z.of_nat (S n))
  = (v - k) :: unclamped_values (v - k) k (Z.of_nat n).
Proof.
  unfold unclamped_values.
  rewrite seqZ_1_succ, fmap_cons, <- list_fmap_compose.
  f_equal; try lia.
  apply list_fmap_ext. intros i x _. cbn. lia.
Qed.

Lemma projected_values_succ (v k : Z) (n : nat) :
  0 < k -> ceil_div v k = Z.of_nat (S n) ->
  projected_values v k (Z.of_nat (S n))
  = Z.max 0 (v - k) :: projected_values (Z.max 0 (v - k)) k (Z.of_nat n).
Proof.
  intros Hk Hc. unfold projected_values.
  rewrite seqZ_1_succ, fmap_cons, <- list_fmap_compose.
  f_equal; try (f_equal; lia).
  apply list_fmap_ext. intros i x Hx. cbn.
  apply lookup_seqZ in Hx. pose proof (ceil_div_spec v k Hk). nia.
Qed.

Lemma expand_loop_add (k : Z) (n m : nat) (st : projection) :
  expand_loop (n + m) k st =
  match expand_loop n k st with
  | Running st' => expand_loop m k st'
  | r => r
  end.
Proof.
  revert st. induction n as [|n IH]; intros st; simpl; [reflexivity|].
  destruct (expand_step k st); [reflexivity | apply IH | reflexivity].
Qed.

(** With a positive decrement the loop runs its body [ceil_div v k] times
    and leaves, provided no date goes beyond the last day of year 9999. *)
Lemma expand_loop_positive (k : Z) (Hk : 0 < k) (n : nat) :
  forall (st : projection) (fuel : nat),
    0 <= last_remaining st ->
    ceil_div (last_remaining st) k = Z.of_nat n ->
    1 <= toordinal (last_date st) ->
    toordinal (last_date st) + 7 * Z.of_nat n <= _MAXORDINAL ->
    (n < fuel)%nat ->
    exists date,
      expand_loop fuel k st =
      Finished (mk_projection date 0
                  (current_dates st
                   ++ (format_ymd <$> projected_dates (last_date st) (Z.of_nat n)))
                  (current_data st
                   ++ projected_values (last_remaining st) k (Z.of_nat n))).
Proof.
  induction n as [|n IH]; intros [d v dates data] fuel;
    cbn [last_remaining last_date current_dates current_data];
    intros Hv Hc Ho Hmax Hf.
  - destruct fuel as [|fuel]; [lia|].
    assert (v = 0) by (pose proof (ceil_div_spec v k Hk); lia). subst v.
    exists d. simpl. unfold expand_step. simpl.
    unfold projected_dates, projected_values. simpl.
    rewrite !app_nil_r. reflexivity.
  - destruct fuel as [|fuel]; [lia|].
    assert (0 < v) by (pose proof (ceil_div_spec v k Hk); nia).
    cbn [expand_loop]. unfold expand_step. cbn [last_remaining last_date].
    destruct (0 <? v) eqn:E; [|lia].
    rewrite add_days_in_range by lia.
    destruct (fromordinal_spec (toordinal d + 7) ltac:(lia)) as [_ Hord].
    cbn [current_dates current_data].
    assert (Hr : (if v - k <? 0 then 0 else v - k) = Z.max 0 (v - k))
      by (destruct (v - k <? 0) eqn:E'; lia).
    rewrite Hr.
    set (r := Z.max 0 (v - k)).
    set (d' := fromordinal (toordinal d + 7)) in *.
    assert (Hrc : ceil_div r k = Z.of_nat n).
    { pose proof (ceil_div_spec v k Hk) as S. subst r.
      apply ceil_div_unique; [lia|]. nia. }
    destruct (IH (mk_projection d' r (dates ++ [format_ymd d']) (data ++ [r])) fuel)
      as [date Hrun]; cbn [last_remaining last_date]; try lia.
    exists date. rewrite Hrun.
    cbn [current_dates current_data last_date last_remaining].
    rewrite (projected_dates_succ d d' n eq_refl Hord).
    rewrite (projected_values_succ v k n Hk Hc). fold r.
    rewrite fmap_cons, <- !app_assoc. reflexivity.
Qed.

(** With a non-positive decrement the value never decreases: the loop is
    still running after any number of bodies that the calendar allows. *)
Lemma expand_loop_nonpositive (k : Z) (Hk : k <= 0) (n : nat) :
  forall st : projection,
    0 < last_remaining st ->
    1 <= toordinal (last_date st) ->
    toordinal (last_date st) + 7 * Z.of_nat n <= _MAXORDINAL ->
    exists date,
      toordinal date = toordinal (last_date st) + 7 * Z.of_nat n /\
      expand_loop n k st =
      Running (mk_projection date
                 (last_remaining st - Z.of_nat n * k)
                 (current_dates st
                  ++ (format_ymd <$> projected_dates (last_date st) (Z.of_nat n)))
                 (current_data st
                  ++ unclamped_values (last_remaining st) k (Z.of_nat n))).
Proof.
  induction n as [|n IH]; intros [d v dates data];
    cbn [last_remaining last_date current_dates current_data];
    intros Hv Ho Hmax.
  - exists d. split; [lia|].
    unfold projected_dates, unclamped_values. simpl. rewrite !app_nil_r.
    f_equal. f_equal. lia.
  - cbn [expand_loop]. unfold expand_step. cbn [last_remaining last_date].
    destruct (0 <? v) eqn:E; [|lia].
    rewrite add_days_in_range by lia.
    destruct (fromordinal_spec (toordinal d + 7) ltac:(lia)) as [_ Hord].
    cbn [current_dates current_data].
    assert (Hr : (if v - k <? 0 then 0 else v - k) = v - k)
      by (destruct (v - k <? 0) eqn:E'; lia).
    rewrite Hr.
    set (d' := fromordinal (toordinal d + 7)) in *.
    destruct (IH (mk_projection d' (v - k) (dates ++ [format_ymd d'])
                                (data ++ [v - k])))
      as (date & Hdate & Hrun); cbn [last_remaining last_date]; try lia.
    exists date. split; [cbn [last_date] in Hdate; lia|]. rewrite Hrun.
    cbn [current_dates current_data last_date last_remaining].
    rewrite (projected_dates_succ d d' n eq_refl Hord).
    rewrite unclamped_values_succ.
    rewrite fmap_cons, <- !app_assoc. cbn [app].
    f_equal. f_equal. lia.
Qed.

(** The loop always ends within [enough_fuel] tests of its condition. *)
Lemma expand_loop_ends (k : Z) (fuel : nat) :
  forall st : projection,
    (enough_fuel st <= fuel)%nat ->
    match expand_loop fuel k st with
    | Running _ => False
    | _ => True
    end.
Proof.
  induction fuel as [|fuel IH]; intros st Hf; [unfold enough_fuel in Hf; lia|].
  simpl. unfold expand_step.
  destruct (0 <? last_remaining st); [|exact I].
  unfold add_days.
  destruct ((0 <? toordinal (last_date st) + 7)
            && (toordinal (last_date st) + 7 <=? _MAXORDINAL)) eqn:E; [|exact I].
  apply IH. unfold enough_fuel in *. cbn [last_date].
  destruct (fromordinal_spec (toordinal (last_date st) + 7) ltac:(lia)) as [_ ->].
  assert (D : (_MAXORDINAL - (toordinal (last_date st) + 7)) / 7
              = (_MAXORDINAL - toordinal (last_date st)) / 7 - 1).
  { replace (_MAXORDINAL - (toordinal (last_date st) + 7))
      with (_MAXORDINAL - toordinal (last_date st) + (-1) * 7) by lia.
    rewrite Z.div_add by lia. lia. }
  rewrite D.
  assert (1 <= (_MAXORDINAL - toordinal (last_date st)) / 7)
    by (apply Z.div_le_lower_bound; lia).
  lia.
Qed.

(** The only exception of the loop is the overflow of the date. *)
Lemma expand_data_total (k : Z) (st : projection) :
  (exists st', expand_data k st = Ok st') \/ expand_data k st = Raise OverflowError.
Proof.
  unfold expand_data.
  pose proof (expand_loop_ends k (enough_fuel st) st (Nat.le_refl _)) as H.
  assert (G : forall fuel s e s', expand_loop fuel k s = Raised e s' -> e = OverflowError).
  { induction fuel as [|fuel IH]; intros s e s'; simpl; [discriminate|].
    unfold expand_step. destruct (0 <? last_remaining s); [|discriminate].
    unfold add_days. destruct (_ && _).
    - apply IH.
    - intros [= <- _]. reflexivity. }
  destruct (expand_loop (enough_fuel st) k st) as [s|e s|s] eqn:E.
  - left. eauto.
  - right. f_equal. eapply G. exact E.
  - destruct H.
Qed.

End Projection.

(** ** Claims on the projection *)

Section ProjectionClaims.

Lemma bind_Ok {A B : Type} (r : result A) (k : A -> result B) (b : B) :
  (x ← r; k x) = Ok b -> exists a, r = Ok a /\ k a = Ok b.
Proof. destruct r as [a|e]; [eauto | discriminate]. Qed.

Lemma date_of_text_valid (s : text) (d : datetime) :
  date_of_text s = Ok d -> valid_date d = true.
Proof.
  unfold date_of_text.
  destruct (split_on "-" s) as [|y [|m [|dd [|? ?]]]]; try discriminate.
  intros H.
  apply bind_Ok in H as (y' & _ & H).
  apply bind_Ok in H as (m' & _ & H).
  apply bind_Ok in H as (d' & _ & H).
  eapply datetime_new_valid, H.
Qed.

Lemma last_point_Ok (dates : list text) (data : list Z) (st : projection) :
  last_point dates data = Ok st ->
  valid_date (last_date st) = true
  /\ last data = Some (last_remaining st)
  /\ (exists s, last dates = Some s /\ date_of_text s = Ok (last_date st))
  /\ current_dates st = dates /\ current_data st = data.
Proof.
  unfold last_point. destruct (last dates) as [s|] eqn:Es; [|discriminate].
  intros H. apply bind_Ok in H as (d & Hd & H).
  destruct (last data) as [v|]; [|discriminate].
  injection H as <-. cbn. repeat split; eauto using date_of_text_valid.
Qed.

(** ** C1 *)

(** C1, within the range of the calendar.  For a series whose last point is
    [(d, v)] and a weekly decrement [k > 0] such that [d] plus
    [7 * ceil(v/k)] days is not after 9999-12-31, the loop appends exactly
    [ceil(v/k)] points: the [i]-th has the value [max 0 (v - i*k)] and the
    date [7*i] days after [d] (seven days after the previous point), and the
    last one has the value 0; when [v] is 0 nothing is appended. *)
Theorem projection_appends_ceil_points
    (dates : list text) (data : list Z) (st0 : projection) (k : Z) :
  last_point dates data = Ok st0 ->
  0 <= last_remaining st0 ->
  0 < k ->
  toordinal (last_date st0) + 7 * ceil_div (last_remaining st0) k <= _MAXORDINAL ->
  let d := last_date st0 in
  let v := last_remaining st0 in
  let n := ceil_div v k in
  (exists st,
      expand_data k st0 = Ok st
      /\ current_dates st = dates ++ (format_ymd <$> projected_dates d n)
      /\ current_data st = data ++ projected_values v k n)
  /\ length (projected_values v k n) = Z.to_nat n
  /\ length (projected_dates d n) = Z.to_nat n
  /\ (n - 1) * k < v <= n * k
  /\ (forall i, 1 <= i <= n ->
        valid_date (fromordinal (toordinal d + 7 * i)) = true
        /\ toordinal (fromordinal (toordinal d + 7 * i)) = toordinal d + 7 * i)
  /\ (0 < v -> last (projected_values v k n) = Some 0)
  /\ (v = 0 -> projected_values v k n = [] /\ projected_dates d n = []).
Proof.
  intros Hlast Hv Hk Hmax. cbv zeta.
  apply last_point_Ok in Hlast as (Hvalid & _ & _ & Hdates & Hdata).
  pose proof (toordinal_range _ Hvalid) as Hord.
  remember (last_date st0) as d eqn:Ed.
  remember (last_remaining st0) as v eqn:Ev.
  remember (ceil_div v k) as n eqn:En.
  pose proof (ceil_div_spec v k Hk) as Hceil. rewrite <- En in Hceil.
  assert (Hn : 0 <= n) by nia.
  assert (Hfuel : (Z.to_nat n < enough_fuel st0)%nat).
  { unfold enough_fuel. rewrite <- Ed.
    assert (n <= (_MAXORDINAL - toordinal d) / 7)
      by (apply Z.div_le_lower_bound; lia).
    lia. }
  repeat split.
  - destruct (expand_loop_positive k Hk (Z.to_nat n) st0 (enough_fuel st0))
      as [date Hrun]; rewrite ?Z2Nat.id by lia; rewrite <- ?Ed, <- ?Ev; try lia.
    rewrite Z2Nat.id, <- Ed, <- Ev in Hrun by lia.
    eexists. unfold expand_data. rewrite Hrun. split; [reflexivity|].
    cbn [current_dates current_data]. rewrite Hdates, Hdata. split; reflexivity.
  - unfold projected_values. rewrite length_fmap, length_seqZ. reflexivity.
  - unfold projected_dates. rewrite length_fmap, length_seqZ. reflexivity.
  - lia.
  - lia.
  - apply fromordinal_spec. lia.
  - apply fromordinal_spec. lia.
  - intros Hpos. unfold projected_values.
    assert (1 <= n) by nia.
    replace n with (Z.of_nat (S (Z.to_nat (n - 1)))) at 1 by lia.
    rewrite seqZ_S, fmap_app, list_fmap_singleton, last_snoc. f_equal. nia.
  - replace n with 0 by nia. reflexivity.
  - replace n with 0 by nia. reflexivity.
Qed.

(** The example of the specification: from [(2024-02-01, 9)] with the
    decrement 4 the loop appends the values 5, 1 and 0, a week apart. *)
Lemma projection_appends_ceil_points_witness :
  exists st,
    expand_data 4 (mk_projection (mk_datetime 2024 2 1) 9 [txt "2024-02-01"] [9])
    = Ok st
    /\ current_data st = [9; 5; 1; 0]
    /\ current_dates st
       = [txt "2024-02-01"; txt "2024-2-8"; txt "2024-2-15"; txt "2024-2-22"].
Proof.
  destruct (projection_appends_ceil_points
              [txt "2024-02-01"] [9]
              (mk_projection (mk_datetime 2024 2 1) 9 [txt "2024-02-01"] [9]) 4)
    as [(st & Hrun & Hdates & Hdata) _].
  - vm_compute. reflexivity.
  - vm_compute. discriminate.
  - lia.
  - vm_compute. discriminate.
  - exists st. split; [exact Hrun|].
    rewrite Hdates, Hdata. vm_compute. split; reflexivity.
Defined.

(** C1 does not hold at the end of the calendar: from [(9999-12-28, 1)]
    with the decrement 1 one point is due, and the loop raises
    [OverflowError] instead of appending it. *)
Lemma projection_overflow_counterexample :
  last_point [txt "9999-12-28"] [1]
  = Ok (mk_projection (mk_datetime 9999 12 28) 1 [txt "9999-12-28"] [1])
  /\ ceil_div 1 1 = 1
  /\ expand_data 1 (mk_projection (mk_datetime 9999 12 28) 1 [txt "9999-12-28"] [1])
     = Raise OverflowError.
Proof. vm_compute. repeat split; reflexivity. Qed.

End ProjectionClaims.

(** ** Digits, numbers and spans *)

Section TextFacts.

Lemma is_char_true (a c : ascii) : is_char a c = true <-> a = c.
Proof. apply Ascii.eqb_eq. Qed.

Lemma is_char_refl (a : ascii) : is_char a a = true.
Proof. apply Ascii.eqb_refl. Qed.

Ltac by_cases_on c :=
  destruct c as [[] [] [] [] [] [] [] []]; vm_compute; try congruence; auto.

Lemma digit_not_space (c : ascii) : is_digit c = true -> is_space c = false.
Proof. by_cases_on c. Qed.

Lemma space_not_digit (c : ascii) : is_space c = true -> is_digit c = false.
Proof. by_cases_on c. Qed.

Lemma digit_not_dash (c : ascii) : is_digit c = true -> is_char "-" c = false.
Proof. by_cases_on c. Qed.

Lemma digit_not_newline (c : ascii) :
  is_digit c = true -> is_char LF c = false /\ is_char CR c = false.
Proof. by_cases_on c. Qed.

Lemma list_snoc_case {A : Type} (l : list A) :
  l = [] \/ exists l' x, l = l' ++ [x].
Proof. destruct l as [|x l _] using rev_ind; eauto. Qed.

Lemma span_spec (p : ascii -> bool) (s a b : text) :
  span p s = (a, b) ->
  s = a ++ b /\ forallb p a = true
  /\ match b with [] => True | c :: _ => p c = false end.
Proof.
  revert a b. induction s as [|c s IH]; intros a b; simpl.
  - intros [= <- <-]. auto.
  - destruct (p c) eqn:Hc.
    + destruct (span p s) as [a' b']. intros [= <- <-].
      destruct (IH a' b' eq_refl) as (-> & Ha & Hb).
      simpl. rewrite Hc, Ha. auto.
    + intros [= <- <-]. simpl. auto.
Qed.

Lemma span_app (p : ascii -> bool) (a b : text) :
  forallb p a = true ->
  match b with [] => True | c :: _ => p c = false end ->
  span p (a ++ b) = (a, b).
Proof.
  intros Ha Hb. induction a as [|c a IH]; simpl in *.
  - destruct b as [|c b]; simpl; [reflexivity|]. rewrite Hb. reflexivity.
  - apply andb_prop in Ha as [Hc Ha]. rewrite Hc, (IH Ha). reflexivity.
Qed.

Lemma digit_char_spec (d : Z) :
  0 <= d <= 9 -> is_digit (digit_char d) = true /\ digit_value (digit_char d) = d.
Proof.
  intros H.
  assert (Hc : d = 0 \/ d = 1 \/ d = 2 \/ d = 3 \/ d = 4 \/ d = 5 \/ d = 6
               \/ d = 7 \/ d = 8 \/ d = 9) by lia.
  repeat (destruct Hc as [-> | Hc]); try subst d; vm_compute; auto.
Qed.

Lemma digits_value_snoc (a : text) (c : ascii) :
  digits_value (a ++ [c]) = 10 * digits_value a + digit_value c.
Proof. unfold digits_value. rewrite fold_left_app. reflexivity. Qed.

Lemma all_digits_app (a b : text) :
  all_digits (a ++ b) = all_digits a && all_digits b.
Proof. apply forallb_app. Qed.

Lemma digits_of_spec (fuel : nat) :
  forall (n : Z) (acc : text),
    0 <= n < 2 ^ Z.of_nat (S fuel) ->
    exists D, digits_of (S fuel) n acc = D ++ acc /\ D <> []
              /\ all_digits D = true /\ digits_value D = n.
Proof.
  induction fuel as [|fuel IH]; intros n acc Hn;
    pose proof (Z.mod_pos_bound n 10 ltac:(lia)) as Hm;
    destruct (digit_char_spec (n mod 10) ltac:(lia)) as [Hd Hv];
    cbn [digits_of]; destruct (n <? 10) eqn:E.
  - exists [digit_char (n mod 10)]. repeat split; [discriminate | |].
    + simpl. rewrite Hd. reflexivity.
    + unfold digits_value. simpl. rewrite Hv. apply Z.mod_small. lia.
  - change (2 ^ Z.of_nat 1) with 2 in Hn. lia.
  - exists [digit_char (n mod 10)]. repeat split; [discriminate | |].
    + simpl. rewrite Hd. reflexivity.
    + unfold digits_value. simpl. rewrite Hv. apply Z.mod_small. lia.
  - destruct (IH (n / 10) (digit_char (n mod 10) :: acc))
      as (D & HD & Hne & Hall & Hval).
    { rewrite (Nat2Z.inj_succ (S fuel)), Z.pow_succ_r in Hn by lia.
      split; [apply Z.div_pos; lia|].
      apply Z.div_lt_upper_bound; lia. }
    exists (D ++ [digit_char (n mod 10)]). repeat split.
    + cbn [digits_of] in HD. rewrite HD, <- app_assoc. reflexivity.
    + destruct D; discriminate.
    + rewrite all_digits_app, Hall. simpl. rewrite Hd. reflexivity.
    + rewrite digits_value_snoc, Hval, Hv.
      pose proof (Z.div_mod n 10 ltac:(lia)). lia.
Qed.

(** The decimal spelling of a natural number reads back as that number. *)
Lemma text_of_Z_spec (n : Z) :
  0 <= n ->
  text_of_Z n <> [] /\ all_digits (text_of_Z n) = true
  /\ digits_value (text_of_Z n) = n.
Proof.
  intros Hn. unfold text_of_Z. destruct (n <? 0) eqn:E; [lia|].
  destruct (digits_of_spec (Z.to_nat (Z.log2 n)) n []) as (D & HD & Hne & Hall & Hval).
  { split; [lia|].
    rewrite Nat2Z.inj_succ, Z2Nat.id by apply Z.log2_nonneg.
    destruct (Z.eq_dec n 0) as [->|]; [reflexivity|].
    apply Z.log2_spec. lia. }
  rewrite HD, app_nil_r. auto.
Qed.

Lemma int_of_text_digits (s : text) :
  s <> [] -> all_digits s = true -> int_of_text s = Ok (digits_value s).
Proof.
  intros Hne Hall. unfold int_of_text. destruct s; [congruence|].
  rewrite Hall. reflexivity.
Qed.

Lemma zfill_spec (w : nat) (s : text) :
  all_digits s = true ->
  all_digits (zfill w s) = true /\ digits_value (zfill w s) = digits_value s
  /\ (s <> [] -> zfill w s <> []).
Proof.
  intros Hs. unfold zfill.
  generalize (w - length s)%nat as k. intros k. repeat split.
  - induction k; simpl; auto.
  - unfold digits_value. rewrite fold_left_app.
    replace (fold_left (fun acc c => 10 * acc + digit_value c) (repeat "0"%char k) 0)
      with 0; [reflexivity|].
    induction k; simpl; auto.
  - intros Hne. destruct k, s; simpl; congruence.
Qed.

Lemma int_of_text_zfill (w : nat) (n : Z) :
  0 <= n -> int_of_text (zfill w (text_of_Z n)) = Ok n.
Proof.
  intros Hn. destruct (text_of_Z_spec n Hn) as (Hne & Hall & Hval).
  destruct (zfill_spec w _ Hall) as (Hall' & Hval' & Hne').
  rewrite int_of_text_digits by auto. rewrite Hval', Hval. reflexivity.
Qed.

End TextFacts.

(** ** The language of the pattern *)

Section PatternFacts.

Lemma take_digits_app (a b : text) :
  digits1 a -> stops is_digit b -> take_digits (a ++ b) = Some (a, b).
Proof.
  intros [Hne Hall] Hb. unfold take_digits.
  rewrite (span_app is_digit a b Hall Hb). destruct a; [congruence | reflexivity].
Qed.

Lemma take_digits_spec (s a b : text) :
  take_digits s = Some (a, b) -> s = a ++ b /\ digits1 a /\ stops is_digit b.
Proof.
  unfold take_digits. destruct (span is_digit s) as [a' b'] eqn:E.
  destruct a' as [|c a']; [discriminate|]. intros [= <- <-].
  destruct (span_spec _ _ _ _ E) as (-> & Ha & Hb).
  split; [reflexivity|]. split; [split; [discriminate | exact Ha] | exact Hb].
Qed.

Lemma skip_spaces_app (ws b : text) :
  spaces ws -> stops is_space b -> skip_spaces (ws ++ b) = b.
Proof.
  intros Hws Hb. unfold skip_spaces. rewrite (span_app is_space ws b Hws Hb).
  reflexivity.
Qed.

Lemma skip_spaces_spec (s : text) :
  exists ws, s = ws ++ skip_spaces s /\ spaces ws /\ stops is_space (skip_spaces s).
Proof.
  unfold skip_spaces. destruct (span is_space s) as [ws r] eqn:E.
  exists ws. exact (span_spec _ _ _ _ E).
Qed.

Lemma take_char_spec (c : ascii) (s r : text) :
  take_char c s = Some r <-> s = c :: r.
Proof.
  unfold take_char. destruct s as [|x s]; [split; discriminate|].
  destruct (is_char c x) eqn:E.
  - apply is_char_true in E as <-. split; intros [= ->]; reflexivity.
  - split; [discriminate|]. intros [= -> ->]. rewrite is_char_refl in E. discriminate.
Qed.

Lemma take_char_cons (c : ascii) (r : text) : take_char c (c :: r) = Some r.
Proof. unfold take_char. rewrite is_char_refl. reflexivity. Qed.

Lemma stops_digit_spaces (ws r : text) (c : ascii) :
  spaces ws -> is_digit c = false -> stops is_digit (ws ++ c :: r).
Proof.
  intros Hws Hc. destruct ws as [|w ws]; simpl; [exact Hc|].
  apply andb_prop in Hws as [Hw _]. apply space_not_digit, Hw.
Qed.

Lemma stops_digit_only_spaces (ws : text) : spaces ws -> stops is_digit ws.
Proof.
  intros Hws. destruct ws as [|w ws]; simpl; [exact I|].
  apply andb_prop in Hws as [Hw _]. apply space_not_digit, Hw.
Qed.

Lemma stops_space_digits (v r : text) : digits1 v -> stops is_space (v ++ r).
Proof.
  intros [Hne Hall]. destruct v as [|c v]; [congruence|]. simpl.
  apply andb_prop in Hall as [Hc _]. apply digit_not_space, Hc.
Qed.

(** Every line of the language is matched, with its numbers as groups. *)
Lemma match_data_pattern_intro (y m d ws1 ws2 v ws3 : text) :
  digits1 y -> digits1 m -> digits1 d -> digits1 v ->
  spaces ws1 -> spaces ws2 -> spaces ws3 ->
  match_data_pattern (point_line y m d ws1 ws2 v ws3) = Some (mk_groups y m d v).
Proof.
  intros Hy Hm Hd Hv H1 H2 H3. unfold point_line, match_data_pattern.
  repeat (rewrite <- app_assoc; cbn [app]).
  rewrite (take_digits_app y) by (auto; reflexivity). cbn. rewrite ?take_char_cons, ?is_char_refl. cbn.
  rewrite (take_digits_app m) by (auto; reflexivity). cbn. rewrite ?take_char_cons, ?is_char_refl. cbn.
  rewrite (take_digits_app d) by (auto using stops_digit_spaces). cbn.
  rewrite (skip_spaces_app ws1) by (auto; reflexivity). rewrite ?take_char_cons, ?is_char_refl. cbn.
  rewrite (skip_spaces_app ws2) by (auto using stops_space_digits).
  rewrite (take_digits_app v) by (auto using stops_digit_only_spaces). cbn.
  rewrite <- (app_nil_r ws3), (skip_spaces_app ws3) by (auto; exact I).
  reflexivity.
Qed.

(** Only the lines of the language are matched. *)
Lemma match_data_pattern_elim (line : text) (g : groups) :
  match_data_pattern line = Some g ->
  exists ws1 ws2 ws3,
    line = point_line (g_year g) (g_month g) (g_day g) ws1 ws2 (g_remaining g) ws3
    /\ digits1 (g_year g) /\ digits1 (g_month g) /\ digits1 (g_day g)
    /\ digits1 (g_remaining g)
    /\ spaces ws1 /\ spaces ws2 /\ spaces ws3.
Proof.
  unfold match_data_pattern. intros H.
  destruct (take_digits line) as [[y r1]|] eqn:E1; [|discriminate]. cbn in H.
  destruct (take_char "-" r1) as [r2|] eqn:E2; [|discriminate]. cbn in H.
  destruct (take_digits r2) as [[m r3]|] eqn:E3; [|discriminate]. cbn in H.
  destruct (take_char "-" r3) as [r4|] eqn:E4; [|discriminate]. cbn in H.
  destruct (take_digits r4) as [[d r5]|] eqn:E5; [|discriminate]. cbn in H.
  destruct (take_char "=" (skip_spaces r5)) as [r6|] eqn:E6; [|discriminate]. cbn in H.
  destruct (take_digits (skip_spaces r6)) as [[v r7]|] eqn:E7; [|discriminate]. cbn in H.
  destruct (skip_spaces r7) as [|? ?] eqn:E8; [|discriminate].
  injection H as <-. cbn.
  apply take_digits_spec in E1 as (-> & Hy & _).
  apply take_char_spec in E2 as ->.
  apply take_digits_spec in E3 as (-> & Hm & _).
  apply take_char_spec in E4 as ->.
  apply take_digits_spec in E5 as (-> & Hd & _).
  apply take_char_spec in E6.
  destruct (skip_spaces_spec r5) as (ws1 & Hr5 & H1 & _). rewrite E6 in Hr5.
  apply take_digits_spec in E7 as (E7 & Hv & _).
  destruct (skip_spaces_spec r6) as (ws2 & Hr6 & H2 & _). rewrite E7 in Hr6.
  destruct (skip_spaces_spec r7) as (ws3 & Hr7 & H3 & _). rewrite E8 in Hr7.
  exists ws1, ws2, ws3. split; [|tauto].
  unfold point_line. rewrite Hr5, Hr6, Hr7, app_nil_r.
  repeat (rewrite <- app_assoc; cbn [app]). reflexivity.
Qed.

(** A final line feed changes nothing: the last [\s*] takes it. *)
Lemma match_data_pattern_snoc_LF (line : text) :
  match_data_pattern (line ++ [LF]) = match_data_pattern line.
Proof.
  destruct (match_data_pattern line) as [g|] eqn:E.
  - apply match_data_pattern_elim in E
      as (ws1 & ws2 & ws3 & -> & Hy & Hm & Hd & Hv & H1 & H2 & H3).
    destruct g as [y m d v]. cbn in *.
    unfold point_line. rewrite <- app_assoc.
    apply (match_data_pattern_intro y m d ws1 ws2 v (ws3 ++ [LF])); auto.
    unfold spaces. rewrite forallb_app, H3. reflexivity.
  - destruct (match_data_pattern (line ++ [LF])) as [g|] eqn:E'; [|reflexivity].
    exfalso.
    apply match_data_pattern_elim in E'
      as (ws1 & ws2 & ws3 & Hl & Hy & Hm & Hd & Hv & H1 & H2 & H3).
    destruct g as [y m d v]. cbn in *. unfold point_line in Hl.
    destruct (list_snoc_case ws3) as [-> | (ws3' & c & ->)].
    + rewrite app_nil_r in Hl. destruct Hv as [Hne Hall].
      destruct (list_snoc_case v) as [-> | (v' & c & ->)]; [congruence|].
      rewrite all_digits_app in Hall. apply andb_prop in Hall as [_ Hc].
      simpl in Hc. rewrite andb_true_r in Hc.
      replace (y ++ "-"%char :: m ++ "-"%char :: d ++ ws1 ++ "="%char :: ws2 ++ v' ++ [c])
        with ((y ++ "-"%char :: m ++ "-"%char :: d ++ ws1 ++ "="%char :: ws2 ++ v') ++ [c])
        in Hl by (repeat (rewrite <- app_assoc; cbn [app]); reflexivity).
      apply app_inj_tail in Hl as [_ <-]. discriminate.
    + rewrite app_assoc in Hl. apply app_inj_tail in Hl as [-> _].
      unfold spaces in H3. rewrite forallb_app in H3. apply andb_prop in H3 as [H3 _].
      pose proof (match_data_pattern_intro y m d ws1 ws2 v ws3' Hy Hm Hd Hv H1 H2 H3) as X.
      unfold point_line in X. rewrite X in E. discriminate.
Qed.

End PatternFacts.

(** ** Lines of a file and the points they hold *)

Section LineFacts.

Lemma translate_from_no_CR (s : text) : no_CR s -> translate_from false s = s.
Proof.
  unfold no_CR. induction s as [|c s IH]; cbn [forallb translate_from]; [reflexivity|].
  intros H. apply andb_prop in H as [Hc Hs].
  destruct (is_char CR c); [discriminate|].
  destruct (is_char LF c) eqn:E; rewrite (IH Hs); [apply is_char_true in E as <-|];
    reflexivity.
Qed.

(** Translation of a text followed by a line feed and a record: the record
    arrives unchanged on a line of its own. *)
Lemma translate_from_record (rec : text) (Hrec : no_CR rec) (old : text) :
  forall pending : bool,
  exists X,
    delivered pending ++ translate_from pending (old ++ LF :: rec) = X ++ LF :: rec
    /\ (X = delivered pending ++ translate_from pending old
        \/ X ++ [LF] = delivered pending ++ translate_from pending old).
Proof.
  induction old as [|c old IH]; intros pending.
  - cbn [app translate_from]. change (is_char CR LF) with false.
    change (is_char LF LF) with true. cbv iota.
    rewrite (translate_from_no_CR rec Hrec).
    destruct pending; exists []; cbn; auto.
  - cbn [app translate_from].
    destruct (is_char CR c).
    + destruct (IH true) as (X & HX & Hcase). cbn [delivered app] in HX, Hcase.
      exists (delivered pending ++ X). rewrite <- app_assoc, <- HX.
      split; [reflexivity|].
      destruct Hcase as [-> | Hc]; [left; reflexivity|].
      right. rewrite <- app_assoc, Hc. reflexivity.
    + destruct (is_char LF c).
      * destruct (IH false) as (X & HX & Hcase). cbn [delivered app] in HX, Hcase.
        exists (LF :: X). destruct pending; cbn [delivered app]; rewrite HX;
          (split; [reflexivity|]);
          (destruct Hcase as [-> | Hc];
           [left; reflexivity | right; cbn [app]; f_equal; exact Hc]).
      * destruct (IH false) as (X & HX & Hcase). cbn [delivered app] in HX, Hcase.
        exists (delivered pending ++ c :: X). rewrite <- app_assoc. cbn [app]. rewrite HX.
        split; [reflexivity|].
        destruct Hcase as [-> | Hc]; [left; reflexivity|].
        right. rewrite <- app_assoc. cbn [app]. rewrite Hc. reflexivity.
Qed.

Lemma lines_from_app_LF (X Y : text) :
  forall cur, lines_from cur (X ++ LF :: Y) = lines_from cur (X ++ [LF]) ++ lines_from [] Y.
Proof.
  induction X as [|c X IH]; intros cur; cbn [app lines_from].
  - change (is_char LF LF) with true. cbv iota. reflexivity.
  - destruct (is_char LF c); [|apply IH].
    rewrite IH. reflexivity.
Qed.

Lemma lines_from_no_LF (s : text) :
  no_LF s -> forall cur, cur ++ s <> [] -> lines_from cur s = [cur ++ s].
Proof.
  unfold no_LF. induction s as [|c s IH]; intros H cur Hne; cbn [lines_from].
  - rewrite app_nil_r in *. destruct cur; [congruence | reflexivity].
  - cbn [forallb] in H. apply andb_prop in H as [Hc Hs].
    destruct (is_char LF c); [discriminate|].
    rewrite (IH Hs) by (destruct cur; discriminate).
    rewrite <- app_assoc. reflexivity.
Qed.

Lemma matches_app (l1 l2 : list text) : matches (l1 ++ l2) = matches l1 ++ matches l2.
Proof. apply omap_app. Qed.

(** A line feed at the end of a text adds no match and loses none. *)
Lemma matches_closed (X : text) :
  forall cur, matches (lines_from cur (X ++ [LF])) = matches (lines_from cur X).
Proof.
  induction X as [|c X IH]; intros cur; cbn [app lines_from].
  - change (is_char LF LF) with true. cbv iota. unfold matches. cbn [omap list_omap].
    rewrite match_data_pattern_snoc_LF.
    destruct cur as [|c cur]; [reflexivity|]. reflexivity.
  - destruct (is_char LF c); [|apply IH].
    unfold matches in *. cbn [omap list_omap]. rewrite IH. reflexivity.
Qed.

(** Appending a line feed and a record to a file appends the match of the
    record to the matches of the file. *)
Lemma matches_append_record (old rec : text) (g : groups) :
  no_CR rec -> no_LF rec -> match_data_pattern rec = Some g ->
  matches (file_lines (old ++ LF :: rec)) = matches (file_lines old) ++ [g].
Proof.
  intros Hcr Hlf Hg. unfold file_lines, translate_newlines, split_lines.
  destruct (translate_from_record rec Hcr old false) as (X & HX & Hcase).
  cbn [delivered app] in HX, Hcase. rewrite HX, lines_from_app_LF, matches_app.
  assert (Hne : rec <> []) by (intros ->; discriminate).
  rewrite (lines_from_no_LF rec Hlf []) by exact Hne.
  unfold matches at 2. cbn [omap list_omap app]. rewrite Hg.
  f_equal. destruct Hcase as [-> | ->]; [apply matches_closed | reflexivity].
Qed.

(** The loop of [generate_estimated_trend] over the lines never raises: it
    collects the dates and the values of the matches. *)
Lemma read_points_spec (lines : list text) :
  forall dates data,
    read_points dates data lines
    = Ok (dates ++ (g_date <$> matches lines), data ++ (remaining_of <$> matches lines)).
Proof.
  induction lines as [|line lines IH]; intros dates data; cbn [read_points].
  - unfold matches. cbn. rewrite !app_nil_r. reflexivity.
  - unfold matches. cbn [omap list_omap]. fold (matches lines).
    destruct (match_data_pattern line) as [g|] eqn:E; [|apply IH].
    apply match_data_pattern_elim in E as (? & ? & ? & _ & _ & _ & _ & [Hne Hall] & _).
    rewrite (int_of_text_digits _ Hne Hall). cbn.
    rewrite IH, <- !app_assoc. reflexivity.
Qed.

End LineFacts.

(** ** The record of a data point *)

Section RecordFacts.

Lemma digits_no_newline (s : text) : all_digits s = true -> no_CR s /\ no_LF s.
Proof.
  unfold no_CR, no_LF. induction s as [|c s IH]; cbn [all_digits forallb]; [auto|].
  intros H. apply andb_prop in H as [Hc Hs]. destruct (IH Hs) as [-> ->].
  destruct (digit_not_newline c Hc) as [-> ->]. auto.
Qed.

Lemma no_CR_app (a b : text) : no_CR a -> no_CR b -> no_CR (a ++ b).
Proof. unfold no_CR. intros Ha Hb. rewrite forallb_app, Ha, Hb. reflexivity. Qed.

Lemma no_LF_app (a b : text) : no_LF a -> no_LF b -> no_LF (a ++ b).
Proof. unfold no_LF. intros Ha Hb. rewrite forallb_app, Ha, Hb. reflexivity. Qed.

Lemma no_CR_cons (c : ascii) (s : text) :
  is_char CR c = false -> no_CR s -> no_CR (c :: s).
Proof. unfold no_CR. cbn [forallb]. intros -> ->. reflexivity. Qed.

Lemma no_LF_cons (c : ascii) (s : text) :
  is_char LF c = false -> no_LF s -> no_LF (c :: s).
Proof. unfold no_LF. cbn [forallb]. intros -> ->. reflexivity. Qed.

Lemma digits_no_CR (s : text) : all_digits s = true -> no_CR s.
Proof. intros H. apply digits_no_newline, H. Qed.

Lemma digits_no_LF (s : text) : all_digits s = true -> no_LF s.
Proof. intros H. apply digits_no_newline, H. Qed.

Ltac no_break :=
  repeat first
    [ apply digits_no_CR; assumption | apply digits_no_LF; assumption
    | apply no_CR_cons; [reflexivity|] | apply no_LF_cons; [reflexivity|]
    | apply no_CR_app | apply no_LF_app
    | reflexivity ].

Lemma valid_date_fields (d : datetime) :
  valid_date d = true -> 1 <= year d <= 9999 /\ 1 <= month d <= 12 /\ 1 <= day d.
Proof. unfold valid_date, valid_ymd, MINYEAR, MAXYEAR. lia. Qed.

Lemma padded_digits (w : nat) (n : Z) : 0 <= n -> digits1 (zfill w (text_of_Z n)).
Proof.
  intros Hn. destruct (text_of_Z_spec n Hn) as (Hne & Hall & _).
  destruct (zfill_spec w _ Hall) as (Hall' & _ & Hne'). split; auto.
Qed.

Lemma record_of_line (now : datetime) (total : Z) :
  record_of now total
  = point_line (zfill 4 (text_of_Z (year now))) (zfill 2 (text_of_Z (month now)))
               (zfill 2 (text_of_Z (day now))) [" "%char] [" "%char]
               (text_of_Z total) [].
Proof.
  unfold record_of, strftime_Ymd, point_line.
  change (txt "-") with ["-"%char]. change (txt " = ") with [" "%char; "="%char; " "%char].
  repeat (rewrite <- app_assoc; cbn [app]). rewrite app_nil_r. reflexivity.
Qed.

(** The record of a valid date and a natural number is a line of the
    store, without line breaks, that reads back as written. *)
Lemma record_of_match (now : datetime) (total : Z) :
  valid_date now = true -> 0 <= total ->
  match_data_pattern (record_of now total) = Some (date_groups now total)
  /\ no_CR (record_of now total) /\ no_LF (record_of now total)
  /\ g_date (date_groups now total) = strftime_Ymd now
  /\ remaining_of (date_groups now total) = total.
Proof.
  intros Hv Ht. apply valid_date_fields in Hv as (Hy & Hm & Hd).
  pose proof (padded_digits 4 (year now) ltac:(lia)) as Py.
  pose proof (padded_digits 2 (month now) ltac:(lia)) as Pm.
  pose proof (padded_digits 2 (day now) ltac:(lia)) as Pd.
  destruct (text_of_Z_spec total Ht) as (Tne & Tall & Tval).
  split; [|split; [|split; [|split]]].
  - rewrite record_of_line. apply match_data_pattern_intro; auto; try reflexivity.
    split; auto.
  - rewrite record_of_line. unfold point_line.
    destruct Py as [_ Py], Pm as [_ Pm], Pd as [_ Pd]. no_break.
  - rewrite record_of_line. unfold point_line.
    destruct Py as [_ Py], Pm as [_ Pm], Pd as [_ Pd]. no_break.
  - reflexivity.
  - exact Tval.
Qed.

Lemma split_on_dash_digits (a : text) :
  all_digits a = true ->
  split_on "-" a = [a]
  /\ forall r, split_on "-" (a ++ "-"%char :: r) = a :: split_on "-" r.
Proof.
  induction a as [|c a IH]; cbn [all_digits forallb app split_on].
  - intros _. split; [reflexivity|]. intros r. rewrite is_char_refl. reflexivity.
  - intros H. apply andb_prop in H as [Hc Ha]. destruct (IH Ha) as [E1 E2].
    rewrite (digit_not_dash c Hc). split.
    + rewrite E1. reflexivity.
    + intros r. rewrite E2. reflexivity.
Qed.

(** The date of a record reads back as the date that was written. *)
Lemma date_of_text_strftime (now : datetime) :
  valid_date now = true -> date_of_text (strftime_Ymd now) = Ok now.
Proof.
  intros Hv. pose proof (valid_date_fields now Hv) as (Hy & Hm & Hd).
  destruct (padded_digits 4 (year now) ltac:(lia)) as [_ Py].
  destruct (padded_digits 2 (month now) ltac:(lia)) as [_ Pm].
  destruct (padded_digits 2 (day now) ltac:(lia)) as [_ Pd].
  unfold date_of_text, strftime_Ymd. change (txt "-") with ["-"%char]. cbn [app].
  rewrite (proj2 (split_on_dash_digits _ Py)), (proj2 (split_on_dash_digits _ Pm)),
    (proj1 (split_on_dash_digits _ Pd)).
  rewrite !int_of_text_zfill by lia. cbn.
  rewrite datetime_new_Ok by exact Hv.
  destruct now; reflexivity.
Qed.

End RecordFacts.

(** ** Claims on the store *)

Section StoreClaims.

Context `{External}.

Lemma open_append_content (path : text) (fs : files) :
  content_of path (open_append path fs) = content_of path fs.
Proof.
  unfold content_of, open_append.
  destruct (fs !! path) eqn:E; rewrite ?E, ?lookup_insert_eq; reflexivity.
Qed.

Lemma append_datapoint_content (self : ProjectTrend) (now : datetime)
    (total : num) (n : Z) (fs : files) :
  int_of_num total = Ok n ->
  append_datapoint self now total fs
  = (Ok (), <[trend_data self := content_of (trend_data self) fs ++ datapoint now n]>
              (open_append (trend_data self) fs))
  /\ content_of (trend_data self) (append_datapoint self now total fs).2
     = content_of (trend_data self) fs ++ LF :: record_of now n.
Proof.
  intros Hn. unfold append_datapoint. rewrite Hn. unfold write_append.
  fold (content_of (trend_data self) (open_append (trend_data self) fs)).
  rewrite open_append_content. split; [reflexivity|].
  cbn [snd]. unfold content_of at 1. rewrite lookup_insert_eq. reflexivity.
Qed.

Lemma matches_append_all (self : ProjectTrend) (ops : list (datetime * num))
    (pts : list (datetime * Z)) :
  Forall2 stores ops pts ->
  forall fs,
    matches (file_lines (content_of (trend_data self) (append_all self ops fs)))
    = matches (file_lines (content_of (trend_data self) fs))
      ++ ((fun p => date_groups p.1 p.2) <$> pts).
Proof.
  induction 1 as [|[now total] [d n] ops pts (Hd & Hn & Hv & H0) _ IH]; intros fs.
  - cbn. rewrite app_nil_r. reflexivity.
  - cbn in Hd, Hn, Hv, H0. subst d. cbn [append_all fold_left fst snd].
    fold (append_all self ops (append_datapoint self now total fs).2).
    rewrite IH. destruct (append_datapoint_content self now total n fs Hn) as [_ ->].
    destruct (record_of_match now n Hv H0) as (Hm & Hcr & Hlf & _).
    rewrite (matches_append_record _ _ _ Hcr Hlf Hm), <- app_assoc. reflexivity.
Qed.

(** ** C5 *)

(** C5.  After any sequence of appends to the trend store, each of a valid
    date and a non-negative integer total, reading the store yields the
    points it held before followed by the appended points, with their dates
    and values, in the order of the appends; a store that held no point
    yields exactly the appended points.  The date of each point reads back
    as the date that was written. *)
Theorem append_read_roundtrip (self : ProjectTrend)
    (ops : list (datetime * num)) (pts : list (datetime * Z)) (fs : files) :
  Forall2 stores ops pts ->
  let before := content_of (trend_data self) fs in
  let after := content_of (trend_data self) (append_all self ops fs) in
  (forall dates data,
      read_points [] [] (file_lines before) = Ok (dates, data) ->
      read_points [] [] (file_lines after)
      = Ok (dates ++ ((fun p => strftime_Ymd p.1) <$> pts), data ++ (snd <$> pts)))
  /\ (matches (file_lines before) = [] ->
      read_points [] [] (file_lines after)
      = Ok ((fun p => strftime_Ymd p.1) <$> pts, snd <$> pts))
  /\ Forall (fun p => date_of_text (strftime_Ymd p.1) = Ok p.1) pts
  /\ length pts = length ops.
Proof.
  intros Hops before after.
  assert (Hafter : read_points [] [] (file_lines after)
                   = Ok ((g_date <$> matches (file_lines before))
                         ++ ((fun p => strftime_Ymd p.1) <$> pts),
                         (remaining_of <$> matches (file_lines before))
                         ++ (snd <$> pts))).
  { rewrite read_points_spec. unfold after.
    rewrite (matches_append_all self ops pts Hops fs). fold before.
    rewrite !fmap_app, <- !list_fmap_compose. cbn [app].
    assert (E1 : g_date ∘ (fun p : datetime * Z => date_groups p.1 p.2) <$> pts
                 = (fun p => strftime_Ymd p.1) <$> pts) by reflexivity.
    assert (E2 : remaining_of ∘ (fun p : datetime * Z => date_groups p.1 p.2) <$> pts
                 = snd <$> pts).
    { clear -Hops. induction Hops as [|op p ops pts (_ & _ & _ & H0) _ IH]; [reflexivity|].
      cbn [fmap list_fmap]. rewrite <- IH. f_equal.
      cbn. apply text_of_Z_spec, H0. }
    rewrite E1, E2. reflexivity. }
  split; [|split; [|split]].
  - intros dates data Hbefore. rewrite read_points_spec in Hbefore.
    injection Hbefore as <- <-. exact Hafter.
  - intros Hnone. rewrite Hafter, Hnone. reflexivity.
  - clear -Hops. induction Hops as [|op p ops pts (_ & _ & Hv & _) _ IH]; constructor; auto.
    apply date_of_text_strftime, Hv.
  - symmetry. eapply Forall2_length, Hops.
Qed.

(** The example of the specification: a store with the points
    [2024-01-01 = 10] and [2024-01-08 = 6] receives [2024-01-15 = 6] (the
    aggregate is the float 6.0) and reads back as the three points. *)
Lemma append_read_roundtrip_witness :
  let fs := store_only (txt "2024-01-01 = 10" ++ [LF] ++ txt "2024-01-08 = 6") in
  let ops := [(mk_datetime 2024 1 15, NFloat 6%float)] in
  read_points [] []
    (file_lines (content_of (trend_data sample_run) (append_all sample_run ops fs)))
  = Ok ([txt "2024-01-01"; txt "2024-01-08"; txt "2024-01-15"], [10; 6; 6]).
Proof.
  intros fs ops.
  destruct (append_read_roundtrip sample_run ops [(mk_datetime 2024 1 15, 6)] fs)
    as [Hread _].
  - repeat constructor; vm_compute; congruence.
  - apply (Hread [txt "2024-01-01"; txt "2024-01-08"] [10; 6]).
    vm_compute. reflexivity.
Defined.

(** ** C8 *)

Lemma matches_matching_lines (lines : list text) :
  Forall2 (fun line g => match_data_pattern line = Some g)
          (matching_lines lines) (matches lines).
Proof.
  unfold matching_lines, matches.
  induction lines as [|line lines IH]; cbn [omap list_omap]; [constructor|].
  rewrite filter_cons.
  destruct (match_data_pattern line) as [g|] eqn:E.
  - rewrite decide_True by eauto. constructor; assumption.
  - rewrite decide_False by (intros [? ?]; discriminate). exact IH.
Qed.

Lemma gather_line_skip (st : gathered) (line : text) :
  match_data_pattern line = None -> gather_line st line = Ok st.
Proof. unfold gather_line. intros ->. reflexivity. Qed.

Lemma gather_lines_matching (lines : list text) :
  forall st, gather_lines st lines = gather_lines st (matching_lines lines).
Proof.
  unfold matching_lines.
  induction lines as [|line lines IH]; intros st; [reflexivity|].
  rewrite filter_cons. cbn [gather_lines].
  destruct (match_data_pattern line) as [g|] eqn:E.
  - rewrite decide_True by eauto. cbn [gather_lines].
    destruct (gather_line st line) as [st'|e]; [apply IH | reflexivity].
  - rewrite decide_False by (intros [? ?]; discriminate).
    rewrite (gather_line_skip st line E). apply IH.
Qed.

Lemma gather_line_y_axis (st st' : gathered) (line : text) :
  gather_line st line = Ok st' ->
  y_axis st' = y_axis st ++ (remaining_of <$> matches [line])
  /\ length (status st') = (length (status st) + length (matches [line]))%nat.
Proof.
  unfold gather_line, matches. cbn [omap list_omap].
  destruct (match_data_pattern line) as [g|] eqn:E.
  - intros Hst.
    apply match_data_pattern_elim in E as (? & ? & ? & _ & _ & _ & _ & [Hne Hall] & _).
    rewrite (int_of_text_digits _ Hne Hall) in Hst. cbn in Hst.
    repeat (apply bind_Ok in Hst as (? & _ & Hst)).
    injection Hst as <-. cbn. rewrite length_app. cbn. split; reflexivity.
  - intros [= <-]. cbn. rewrite app_nil_r. split; [reflexivity | lia].
Qed.

Lemma gather_lines_y_axis (lines : list text) :
  forall st st',
    gather_lines st lines = Ok st' ->
    y_axis st' = y_axis st ++ (remaining_of <$> matches lines)
    /\ length (status st') = (length (status st) + length (matches lines))%nat.
Proof.
  induction lines as [|line lines IH]; intros st st'; cbn [gather_lines].
  - intros [= <-]. cbn. rewrite app_nil_r. split; [reflexivity | lia].
  - intros Hst. apply bind_Ok in Hst as (st1 & H1 & Hst).
    apply gather_line_y_axis in H1 as [H1 L1]. apply IH in Hst as [-> ->].
    rewrite H1, L1, <- app_assoc, <- fmap_app.
    change (line :: lines) with ([line] ++ lines). rewrite matches_app, length_app.
    split; [reflexivity | lia].
Qed.

(** ** C10 *)

(** C10.  When the trend store exists and none of its lines matches the
    pattern (an empty store in particular), [generate_estimated_trend]
    raises [IndexError] on taking the last date, and writes nothing. *)
Theorem empty_history_raises_IndexError (self : ProjectTrend) (k : Z)
    (fs : files) (content : text) :
  fs !! trend_data self = Some content ->
  matches (file_lines content) = [] ->
  generate_estimated_trend self k fs = (Raise IndexError, fs).
Proof.
  intros Hfile Hnone. unfold generate_estimated_trend.
  rewrite Hfile, read_points_spec, Hnone. reflexivity.
Qed.

End StoreClaims.

(** An empty store, and a store that holds only a comment and a blank
    line. *)
Lemma empty_history_raises_IndexError_witness :
  generate_estimated_trend (H := sample_external) sample_run 4 (store_only [])
  = (Raise IndexError, store_only [])
  /\ generate_estimated_trend (H := sample_external) sample_run 4
       (store_only (txt "# days remaining" ++ [LF; LF]))
     = (Raise IndexError, store_only (txt "# days remaining" ++ [LF; LF])).
Proof.
  split.
  - apply (empty_history_raises_IndexError (H := sample_external) sample_run 4
             (store_only []) []); reflexivity.
  - apply (empty_history_raises_IndexError (H := sample_external) sample_run 4
             (store_only (txt "# days remaining" ++ [LF; LF]))
             (txt "# days remaining" ++ [LF; LF])); reflexivity.
Defined.

(** ** Claims on the estimate *)

Section EstimateClaims.

Context `{External}.

(** ** C2 *)

(** C2, as the code behaves.  The decrement is not checked.  With a decrement
    [k <= 0] and a positive last value [v] the loop executes its body for
    as long as the calendar lasts, [(3652059 - ordinal(d)) / 7] times, the
    [i]-th time appending the value [v - i*k >= v]; the next addition of
    seven days raises [OverflowError], which ends
    [generate_estimated_trend] before it writes anything. *)
Theorem nonpositive_decrement_runs_to_overflow (self : ProjectTrend) (k : Z)
    (fs : files) (content : text) (dates : list text) (data : list Z)
    (st0 : projection) :
  fs !! trend_data self = Some content ->
  read_points [] [] (file_lines content) = Ok (dates, data) ->
  last_point dates data = Ok st0 ->
  0 < last_remaining st0 ->
  k <= 0 ->
  let n := (_MAXORDINAL - toordinal (last_date st0)) / 7 in
  (exists st,
      expand_loop (Z.to_nat n) k st0 = Running st
      /\ current_data st = data ++ unclamped_values (last_remaining st0) k n
      /\ Forall (fun x => last_remaining st0 <= x)
                (unclamped_values (last_remaining st0) k n)
      /\ expand_step k st = Throw OverflowError)
  /\ expand_data k st0 = Raise OverflowError
  /\ generate_estimated_trend self k fs = (Raise OverflowError, fs).
Proof.
  intros Hfile Hread Hlast Hv Hk. cbv zeta.
  pose proof Hlast as Hlast'.
  apply last_point_Ok in Hlast' as (Hvalid & _ & _ & Hdates & Hdata).
  pose proof (toordinal_range _ Hvalid) as Hord.
  remember (last_date st0) as d eqn:Ed.
  remember (last_remaining st0) as v eqn:Ev.
  remember ((_MAXORDINAL - toordinal d) / 7) as n eqn:En.
  assert (Hn : 0 <= n /\ toordinal d + 7 * n <= _MAXORDINAL < toordinal d + 7 * (n + 1)).
  { pose proof (Z.div_mod (_MAXORDINAL - toordinal d) 7 ltac:(lia)) as Hdm.
    pose proof (Z.mod_pos_bound (_MAXORDINAL - toordinal d) 7 ltac:(lia)) as Hb.
    rewrite <- En in Hdm. lia. }
  destruct (expand_loop_nonpositive k Hk (Z.to_nat n) st0) as (date & Hdate & Hrun);
    rewrite <- ?Ed, <- ?Ev, ?Z2Nat.id by lia; try lia.
  rewrite <- Ed, <- Ev, Z2Nat.id in Hrun by lia.
  rewrite <- Ed, Z2Nat.id in Hdate by lia.
  set (st := mk_projection date (v - n * k)
               (current_dates st0 ++ (format_ymd <$> projected_dates d n))
               (current_data st0 ++ unclamped_values v k n)) in *.
  assert (Hstep : expand_step k st = Throw OverflowError).
  { unfold expand_step. cbn [last_remaining last_date st].
    destruct (0 <? v - n * k) eqn:E; [|nia].
    rewrite add_days_overflow by lia. reflexivity. }
  assert (Hdata' : expand_data k st0 = Raise OverflowError).
  { unfold expand_data, enough_fuel. rewrite <- Ed, <- En.
    replace (S (Z.to_nat (n + 1))) with (Z.to_nat n + 2)%nat by lia.
    rewrite expand_loop_add, Hrun. cbn [expand_loop]. rewrite Hstep. reflexivity. }
  split; [|split].
  - exists st. split; [exact Hrun|]. split; [cbn; rewrite Hdata; reflexivity|].
    split; [|exact Hstep].
    unfold unclamped_values. rewrite Forall_fmap. apply Forall_seqZ.
    intros i Hi. cbn. nia.
  - exact Hdata'.
  - unfold generate_estimated_trend. rewrite Hfile, Hread. cbn.
    rewrite Hlast. cbn. rewrite Hdata'. reflexivity.
Qed.

End EstimateClaims.

(** From [(9999-12-01, 3)] with the decrement [-2]: four bodies run, the
    values grow, and the run ends with [OverflowError] and no estimate. *)
Lemma nonpositive_decrement_runs_to_overflow_witness :
  let fs := store_only (txt "9999-12-01 = 3") in
  let st0 := mk_projection (mk_datetime 9999 12 1) 3 [txt "9999-12-01"] [3] in
  (exists st,
      expand_loop 4 (-2) st0 = Running st
      /\ current_data st = [3; 5; 7; 9; 11]
      /\ expand_step (-2) st = Throw OverflowError)
  /\ generate_estimated_trend (H := sample_external) sample_run (-2) fs
     = (Raise OverflowError, fs).
Proof.
  intros fs st0.
  destruct (nonpositive_decrement_runs_to_overflow (H := sample_external)
              sample_run (-2) fs (txt "9999-12-01 = 3") [txt "9999-12-01"] [3] st0)
    as [(st & Hrun & Hdata & _ & Hstep) [_ Hgen]].
  - reflexivity.
  - vm_compute. reflexivity.
  - vm_compute. reflexivity.
  - vm_compute. reflexivity.
  - lia.
  - split; [|exact Hgen]. exists st. split; [exact Hrun|]. split; [|exact Hstep].
    rewrite Hdata. vm_compute. reflexivity.
Defined.

(** C2 does not hold: with the decrement 0 the input is not rejected.
    From [(2024-02-01, 9)] the loop executes its body, and after three
    bodies it is still running, the value still 9. *)
Lemma nonpositive_decrement_counterexample :
  let st0 := mk_projection (mk_datetime 2024 2 1) 9 [txt "2024-02-01"] [9] in
  last_point [txt "2024-02-01"] [9] = Ok st0
  /\ expand_step 0 st0
     = Next (mk_projection (mk_datetime 2024 2 8) 9
               [txt "2024-02-01"; txt "2024-2-8"] [9; 9])
  /\ expand_loop 3 0 st0
     = Running (mk_projection (mk_datetime 2024 2 22) 9
                  [txt "2024-02-01"; txt "2024-2-8"; txt "2024-2-15"; txt "2024-2-22"]
                  [9; 9; 9; 9]).
Proof. vm_compute. repeat split; reflexivity. Qed.

(** ** C7 *)

(** C7 does not hold for the projected points: the loop formats their
    dates without padding.  From the store [2024-02-01 = 9] with the
    decrement 4, the estimate store receives the line [2024-2-8 = 5], which
    is not in the format [YYYY-MM-DD = <int>]; the line copied from the
    trend store is. *)
Lemma estimate_lines_not_zero_padded :
  let fs := store_only (txt "2024-02-01 = 9") in
  let fs' := (generate_estimated_trend (H := sample_external) sample_run 4 fs).2 in
  fs' !! estimate_data sample_run
  = Some (txt "2024-02-01 = 9" ++ [LF] ++ txt "2024-2-8 = 5" ++ [LF]
          ++ txt "2024-2-15 = 1" ++ [LF] ++ txt "2024-2-22 = 0" ++ [LF])
  /\ iso_point_line (txt "2024-02-01 = 9" ++ [LF]) = true
  /\ iso_point_line (txt "2024-2-8 = 5" ++ [LF]) = false
  /\ (iso_point_line <$> file_lines (content_of (estimate_data sample_run) fs'))
     = [true; false; false; false].
Proof. vm_compute. repeat split; reflexivity. Qed.

(** ** Files that the methods write *)

Section FrameFacts.

Context `{External}.

Lemma path_join_last (a b : text) :
  b <> [] -> last (path_join a b) = last b.
Proof.
  intros Hb. destruct b as [|c b]; [congruence|]. unfold path_join.
  assert (Hl : is_Some (last (c :: b))).
  { destruct (list_snoc_case (c :: b)) as [E | (l & x & E)]; [discriminate|].
    rewrite E, last_snoc. eauto. }
  destruct Hl as [x Hx].
  destruct (is_char "/" c); [reflexivity|].
  destruct (ends_with_slash a).
  - rewrite last_app, Hx. reflexivity.
  - destruct a as [|a0 a]; [reflexivity|].
    change (txt "/" ++ c :: b) with (["/"%char] ++ c :: b).
    rewrite !last_app, Hx. reflexivity.
Qed.

(** Two names joined to the same directory get the same prefix. *)
Lemma path_join_same_directory (a : text) (c1 c2 : ascii) (b1 b2 : text) :
  is_char "/" c1 = false -> is_char "/" c2 = false ->
  exists pre, path_join a (c1 :: b1) = pre ++ c1 :: b1
              /\ path_join a (c2 :: b2) = pre ++ c2 :: b2.
Proof.
  intros H1 H2. unfold path_join. rewrite H1, H2.
  destruct (ends_with_slash a).
  - exists a. auto.
  - destruct a as [|a0 a].
    + exists []. auto.
    + exists ((a0 :: a) ++ txt "/"). rewrite <- !app_assoc. auto.
Qed.

Lemma trend_data_not_estimate_data (self : ProjectTrend) :
  trend_data self <> estimate_data self.
Proof.
  unfold trend_data, estimate_data.
  destruct (path_join_same_directory (_path self) "t" "e" (txt "rend.dat")
              (txt "stimate.dat") eq_refl eq_refl) as (pre & E1 & E2).
  change (txt "trend.dat") with ("t"%char :: txt "rend.dat").
  change (txt "estimate.dat") with ("e"%char :: txt "stimate.dat").
  rewrite E1, E2. intros E. apply app_inv_head in E. discriminate.
Qed.

Lemma last_trend_data (self : ProjectTrend) : last (trend_data self) = Some "t"%char.
Proof. unfold trend_data. rewrite path_join_last by discriminate. reflexivity. Qed.

Lemma last_resolve (name suffix : text) (c : ascii) :
  last suffix = Some c -> last (resolve (name ++ suffix)) = Some c.
Proof.
  intros Hs. unfold resolve.
  rewrite path_join_last by (intros E; apply app_eq_nil in E as [_ ->]; discriminate).
  rewrite last_app, Hs. reflexivity.
Qed.

Lemma trend_data_not_artifact (self : ProjectTrend) (graph_name : text) :
  trend_data self <> resolve (graph_name ++ txt ".png")
  /\ trend_data self <> resolve (graph_name ++ txt ".html").
Proof.
  split; intros E; apply (f_equal last) in E;
    rewrite last_trend_data in E;
    [ rewrite (last_resolve graph_name (txt ".png") "g" eq_refl) in E
    | rewrite (last_resolve graph_name (txt ".html") "l" eq_refl) in E ];
    discriminate.
Qed.

(** [generate_trend] changes at most its two artifacts. *)
Lemma generate_trend_frame (self : ProjectTrend) (graph_name : text)
    (trend_data_arg title_arg : option text) (fs : files) (path : text) :
  path <> resolve (graph_name ++ txt ".png") ->
  path <> resolve (graph_name ++ txt ".html") ->
  (generate_trend self graph_name trend_data_arg title_arg fs).2 !! path = fs !! path.
Proof.
  intros Hpng Hhtml. unfold generate_trend.
  destruct (fs !! _) as [content|]; [|reflexivity].
  destruct (_ ≫= _) as [fig|e]; [|reflexivity].
  destruct (to_image fig) as [png|e]; [|reflexivity].
  destruct (to_html fig) as [html|e]; cbn [snd].
  - rewrite !lookup_insert_ne by congruence. reflexivity.
  - rewrite lookup_insert_ne by congruence. reflexivity.
Qed.

(** [generate_estimated_trend] changes at most the estimate store and the
    two artifacts of the estimate. *)
Lemma generate_estimated_trend_frame (self : ProjectTrend) (k : Z)
    (fs : files) (path : text) :
  path <> estimate_data self ->
  path <> resolve (txt "estimate" ++ txt ".png") ->
  path <> resolve (txt "estimate" ++ txt ".html") ->
  (generate_estimated_trend self k fs).2 !! path = fs !! path.
Proof.
  intros Hest Hpng Hhtml. unfold generate_estimated_trend.
  destruct (fs !! trend_data self) as [content|]; [|reflexivity].
  destruct (_ ≫= _) as [st|e]; [|reflexivity].
  destruct (write_points _ _ _ _) as [written [[]|e]].
  - rewrite generate_trend_frame by assumption.
    rewrite lookup_insert_ne by congruence. reflexivity.
  - cbn [snd]. rewrite lookup_insert_ne by congruence. reflexivity.
Qed.

(** ** C9 *)

(** C9.  [add_datapoint] only appends to the trend store: its previous
    content is a prefix of the new one, and an existing store still
    exists; [generate_trend] and [generate_estimated_trend] leave the trend
    store as it was, the latter writing the estimate store and the
    artifacts of the estimate only. *)
Theorem trend_store_is_append_only (self : ProjectTrend) (now : datetime)
    (fs : files) :
  (content_of (trend_data self) fs
     `prefix_of` content_of (trend_data self) (add_datapoint self now fs).2
   /\ (is_Some (fs !! trend_data self) ->
       is_Some ((add_datapoint self now fs).2 !! trend_data self))
   /\ forall path, path <> trend_data self ->
                   (add_datapoint self now fs).2 !! path = fs !! path)
  /\ (forall graph_name trend_data_arg title_arg,
         (generate_trend self graph_name trend_data_arg title_arg fs).2
           !! trend_data self
         = fs !! trend_data self)
  /\ (forall k,
         (generate_estimated_trend self k fs).2 !! trend_data self
         = fs !! trend_data self)
  /\ (forall k path,
         path <> estimate_data self ->
         path <> resolve (txt "estimate.png") ->
         path <> resolve (txt "estimate.html") ->
         (generate_estimated_trend self k fs).2 !! path = fs !! path).
Proof.
  split; [|split; [|split]].
  - unfold add_datapoint.
    destruct (total_remaining (cards self)) as [total|e]; cbn [snd];
      [|split; [reflexivity | split; [auto | reflexivity]]].
    unfold append_datapoint.
    destruct (int_of_num total) as [n|e]; cbn [snd].
    + unfold write_append.
      fold (content_of (trend_data self) (open_append (trend_data self) fs)).
      rewrite open_append_content. split; [|split].
      * unfold content_of at 2. rewrite lookup_insert_eq. cbn.
        apply prefix_app_r. reflexivity.
      * intros _. rewrite lookup_insert_eq. eauto.
      * intros path Hp. rewrite lookup_insert_ne by congruence.
        unfold open_append. destruct (fs !! trend_data self); [reflexivity|].
        rewrite lookup_insert_ne by congruence. reflexivity.
    + rewrite open_append_content. split; [reflexivity|]. split.
      * intros [c Hc]. unfold open_append. rewrite Hc. eauto.
      * intros path Hp. unfold open_append.
        destruct (fs !! trend_data self); [reflexivity|].
        rewrite lookup_insert_ne by congruence. reflexivity.
  - intros graph_name tda ta.
    apply generate_trend_frame; apply trend_data_not_artifact.
  - intros k. apply generate_estimated_trend_frame;
      [apply trend_data_not_estimate_data | apply trend_data_not_artifact ..].
  - intros k path. apply generate_estimated_trend_frame.
Qed.

End FrameFacts.

(** A run of [add_datapoint] on a store with one point: the point is still
    there, followed by the new record; the two generators leave the store
    alone. *)
Lemma trend_store_is_append_only_witness :
  let fs := store_only (txt "2024-01-01 = 10") in
  let now := mk_datetime 2024 1 8 in
  txt "2024-01-01 = 10"
    `prefix_of` content_of (trend_data sample_run)
                  (add_datapoint (H := sample_external) sample_run now fs).2
  /\ (generate_trend (H := sample_external) sample_run (txt "figure") None None fs).2
       !! trend_data sample_run = Some (txt "2024-01-01 = 10")
  /\ (generate_estimated_trend (H := sample_external) sample_run 4 fs).2
       !! trend_data sample_run = Some (txt "2024-01-01 = 10").
Proof.
  intros fs now.
  destruct (trend_store_is_append_only (H := sample_external) sample_run now fs)
    as ((Hprefix & _ & _) & Htrend & Hest & _).
  split; [exact Hprefix|]. split.
  - rewrite Htrend. reflexivity.
  - rewrite Hest. reflexivity.
Defined.

(** ** Status of the points *)

Section StatusClaims.

Context `{External}.

Lemma statuses_after_snoc (ys : list Z) :
  forall prev r,
    statuses_after prev (ys ++ [r])
    = statuses_after prev ys ++ [status_after (default prev (last ys)) r].
Proof.
  induction ys as [|y ys IH]; intros prev r; cbn [app statuses_after].
  - reflexivity.
  - rewrite IH. cbn [app]. do 3 f_equal.
    destruct ys as [|y' ys]; [reflexivity|]. rewrite last_cons_cons.
    destruct (last (y' :: ys)) eqn:E; [reflexivity|].
    apply last_None in E. discriminate.
Qed.

Lemma derived_statuses_snoc (ys : list Z) (r : Z) :
  derived_statuses (ys ++ [r])
  = derived_statuses ys
    ++ [match last ys with Some prev => status_after prev r | None => start end].
Proof.
  destruct ys as [|y ys]; [reflexivity|].
  cbn [app derived_statuses]. rewrite statuses_after_snoc. cbn [app]. do 3 f_equal.
  destruct ys as [|y' ys]; [reflexivity|]. rewrite last_cons_cons.
  destruct (last (y' :: ys)) eqn:E; [reflexivity|].
  apply last_None in E. discriminate.
Qed.

Lemma index_from_end_1 {A : Type} (l : list A) (x : A) :
  index_from_end (l ++ [x]) 1 = Ok x.
Proof.
  unfold index_from_end. rewrite length_app. cbn [length].
  destruct (length l + 1 <? 1)%nat eqn:E; [apply Nat.ltb_lt in E; lia|].
  replace (length l + 1 - 1)%nat with (length l) by lia.
  rewrite list_lookup_middle by reflexivity. reflexivity.
Qed.

Lemma index_from_end_2 {A : Type} (l : list A) (p x : A) :
  last l = Some p -> index_from_end (l ++ [x]) 2 = Ok p.
Proof.
  intros Hl. apply last_Some in Hl as [l' ->].
  unfold index_from_end. rewrite !length_app. cbn [length].
  destruct (length l' + 1 + 1 <? 2)%nat eqn:E; [apply Nat.ltb_lt in E; lia|].
  replace (length l' + 1 + 1 - 2)%nat with (length l') by lia.
  rewrite <- app_assoc. cbn [app]. rewrite list_lookup_middle by reflexivity.
  reflexivity.
Qed.

(** The statuses stay those derived from the values, line after line. *)
Lemma gather_line_status (st st' : gathered) (line : text) :
  status st = derived_statuses (y_axis st) ->
  gather_line st line = Ok st' ->
  status st' = derived_statuses (y_axis st').
Proof.
  intros Inv. unfold gather_line.
  destruct (match_data_pattern line) as [g|]; [|intros [= <-]; exact Inv].
  intros Hst.
  apply bind_Ok in Hst as (r & _ & Hst).
  apply bind_Ok in Hst as (y & _ & Hst).
  apply bind_Ok in Hst as (m & _ & Hst).
  apply bind_Ok in Hst as (d & _ & Hst).
  apply bind_Ok in Hst as (date & _ & Hst).
  apply bind_Ok in Hst as (seconds & _ & Hst).
  apply bind_Ok in Hst as (s & Hs & Hst).
  injection Hst as <-. cbn [status y_axis].
  rewrite derived_statuses_snoc, <- Inv. f_equal. f_equal.
  destruct (status st) as [|s0 ss] eqn:Es.
  - injection Hs as <-.
    destruct (y_axis st) as [|y0 ys]; [reflexivity | discriminate].
  - destruct (last (y_axis st)) as [prev|] eqn:El.
    + rewrite index_from_end_1, (index_from_end_2 _ prev r El) in Hs. cbn in Hs.
      unfold status_after.
      destruct (r <? prev); [congruence|]. destruct (prev <? r); congruence.
    + apply last_None in El. rewrite El in Inv. discriminate.
Qed.

Lemma gather_lines_status (lines : list text) :
  forall st st',
    status st = derived_statuses (y_axis st) ->
    gather_lines st lines = Ok st' ->
    status st' = derived_statuses (y_axis st').
Proof.
  induction lines as [|line lines IH]; intros st st' Inv; cbn [gather_lines].
  - intros [= <-]. exact Inv.
  - intros Hst. apply bind_Ok in Hst as (st1 & H1 & Hst).
    eapply IH; [|exact Hst]. eapply gather_line_status; eassumption.
Qed.

Lemma statuses_after_lookup (ys : list Z) :
  forall prev i a b,
    (prev :: ys) !! i = Some a -> ys !! i = Some b ->
    statuses_after prev ys !! i = Some (status_after a b).
Proof.
  induction ys as [|y ys IH]; intros prev i a b Ha Hb; [destruct i; discriminate|].
  destruct i as [|i]; cbn in *.
  - congruence.
  - apply (IH y i a b); assumption.
Qed.

(** ** C6 *)

(** C6.  Of the points [generate_trend] reads, the first has the status
    [start]; every later point has [better] when its value is less than the
    value of the point just before it, [worse] when it is greater, [same]
    when they are equal, whatever the earlier points are. *)
Theorem status_follows_previous_point (content : text) (g : gathered) :
  gather content = Ok g ->
  status g = derived_statuses (y_axis g)
  /\ length (status g) = length (y_axis g)
  /\ (forall y, y_axis g !! 0%nat = Some y -> status g !! 0%nat = Some start)
  /\ (forall i prev cur,
         y_axis g !! i = Some prev -> y_axis g !! S i = Some cur ->
         status g !! S i
         = Some (if cur <? prev then better
                 else if prev <? cur then worse else same)).
Proof.
  intros Hg.
  assert (Inv : status g = derived_statuses (y_axis g))
    by (eapply (gather_lines_status _ gathered_init g); [reflexivity | exact Hg]).
  split; [exact Inv|]. rewrite Inv.
  destruct (y_axis g) as [|y0 ys]; cbn [derived_statuses].
  - split; [reflexivity|]. split; intros; discriminate.
  - split; [|split].
    + cbn. f_equal. clear. revert y0. induction ys as [|y ys IH]; intros y0; cbn; auto.
    + reflexivity.
    + intros i prev cur Hp Hc. cbn in Hc |- *.
      apply (statuses_after_lookup ys y0 i prev cur Hp Hc).
Qed.

End StatusClaims.

(** The example of the specification: the values 10, 6, 6 get the statuses
    [start], [better], [same]. *)
Lemma status_follows_previous_point_witness :
  exists g,
    gather (H := sample_external)
      (txt "2024-01-01 = 10" ++ [LF] ++ txt "2024-01-08 = 6" ++ [LF]
       ++ txt "2024-01-15 = 6") = Ok g
    /\ y_axis g = [10; 6; 6]
    /\ status g = [start; better; same].
Proof.
  destruct (gather (H := sample_external)
              (txt "2024-01-01 = 10" ++ [LF] ++ txt "2024-01-08 = 6" ++ [LF]
               ++ txt "2024-01-15 = 6")) as [g|e] eqn:E; [|vm_compute in E; discriminate].
  exists g. split; [reflexivity|].
  destruct (status_follows_previous_point (H := sample_external) _ g E) as [Hs _].
  assert (Hy : y_axis g = [10; 6; 6]) by (vm_compute in E; injection E as <-; reflexivity).
  split; [exact Hy|]. rewrite Hs, Hy. reflexivity.
Defined.

(** ** Exclusion *)

Section ExclusionClaims.

Lemma string_eqb_true (a b : string) : String.eqb a b = true <-> a = b.
Proof. apply String.eqb_eq. Qed.

Lemma resolve_name_Some (name : string) (d : pydict string) (id : string) :
  resolve_name name d = Some id <-> resolves name d id.
Proof.
  induction d as [|[k n] d IH]; cbn [resolve_name].
  - split; [discriminate|]. intros (i & n & Hi & _). destruct i; discriminate.
  - destruct (String.eqb (lower n) name) eqn:E.
    + apply string_eqb_true in E. split.
      * intros [= <-]. exists 0%nat, n. repeat split; auto. intros j kn Hj. lia.
      * intros (i & n' & Hi & Hn & Hfirst). destruct i as [|i].
        -- cbn in Hi. congruence.
        -- exfalso. apply (Hfirst 0%nat (k, n)); [lia | reflexivity | exact E].
    + assert (lower n <> name) by (intros Hn; apply string_eqb_true in Hn; congruence).
      rewrite IH. split.
      * intros (i & n' & Hi & Hn & Hfirst). exists (S i), n'. repeat split; auto.
        intros [|j] kn Hj Hkn; cbn in Hkn.
        -- injection Hkn as <-. assumption.
        -- apply (Hfirst j kn); [lia | assumption].
      * intros (i & n' & Hi & Hn & Hfirst). destruct i as [|i].
        -- cbn in Hi. congruence.
        -- exists i, n'. repeat split; auto.
           intros j kn Hj Hkn. apply (Hfirst (S j) kn); [lia | assumption].
Qed.

Lemma resolve_name_None (name : string) (d : pydict string) :
  resolve_name name d = None <-> unnamed name d.
Proof.
  induction d as [|[k n] d IH]; cbn [resolve_name].
  - split; [|reflexivity]. intros _ i kn Hi. destruct i; discriminate.
  - destruct (String.eqb (lower n) name) eqn:E.
    + apply string_eqb_true in E. split; [discriminate|].
      intros Hu. exfalso. apply (Hu 0%nat (k, n)); [reflexivity | exact E].
    + assert (lower n <> name) by (intros Hn; apply string_eqb_true in Hn; congruence).
      rewrite IH. split.
      * intros Hu [|i] kn Hi; cbn in Hi; [injection Hi as <-; assumption|].
        apply (Hu i kn Hi).
      * intros Hu i kn Hi. apply (Hu (S i) kn Hi).
Qed.

(** The mappings of the snapshot are dictionaries: no key occurs twice, so
    an entry of the list is the value the key is bound to. *)
Lemma dict_set_keys {V : Type} (d : pydict V) (k : string) (v : V) :
  NoDup (d.*1) -> NoDup ((dict_set d k v).*1)
  /\ forall k', k' ∈ (dict_set d k v).*1 <-> k' = k \/ k' ∈ d.*1.
Proof.
  induction d as [|[k0 v0] d IH]; cbn [dict_set fmap list_fmap fst].
  - intros _. split; [repeat constructor; apply not_elem_of_nil|].
    intros k'. rewrite list_elem_of_singleton. rewrite elem_of_nil. tauto.
  - intros Hnd. apply NoDup_cons in Hnd as [Hk0 Hnd].
    destruct (String.eqb k0 k) eqn:E; cbn [fmap list_fmap fst].
    + apply string_eqb_true in E as ->. split; [apply NoDup_cons; auto|].
      intros k'. rewrite !elem_of_cons. tauto.
    + destruct (IH Hnd) as [IH1 IH2].
      assert (k0 <> k) by (intros ->; rewrite String.eqb_refl in E; discriminate).
      split.
      * apply NoDup_cons. split; [|exact IH1]. rewrite IH2. intros [?|?]; auto.
      * intros k'. rewrite !elem_of_cons, IH2. tauto.
Qed.

Lemma build_mapping_NoDup (values : list board_item) :
  NoDup ((build_mapping values).*1).
Proof.
  unfold build_mapping.
  assert (G : forall d : pydict string, NoDup (d.*1) ->
              NoDup ((fold_left (fun d v => dict_set d (item_id v) (item_name v))
                                values d).*1)).
  { induction values as [|v values IH]; intros d Hd; cbn [fold_left]; [exact Hd|].
    apply IH. apply dict_set_keys, Hd. }
  apply G. constructor.
Qed.

Lemma dict_get_entry {V : Type} (d : pydict V) (i : nat) (k : string) (v : V) :
  NoDup (d.*1) -> d !! i = Some (k, v) -> dict_get d k = Some v.
Proof.
  revert i. induction d as [|[k0 v0] d IH]; intros i Hnd Hi; [destruct i; discriminate|].
  cbn [fmap list_fmap fst] in Hnd. apply NoDup_cons in Hnd as [Hk0 Hnd].
  cbn [dict_get]. destruct i as [|i]; cbn in Hi.
  - injection Hi as -> ->. rewrite String.eqb_refl. reflexivity.
  - destruct (String.eqb k0 k) eqn:E.
    + apply string_eqb_true in E as ->. exfalso. apply Hk0.
      apply list_elem_of_fmap. exists (k, v). split; [reflexivity|].
      eapply list_elem_of_lookup_2, Hi.
    + eapply IH; eassumption.
Qed.

(** ** C3 *)

(** C3.  [_calculate_exclude] returns true exactly when the card carries a
    label whose id is the one the label mapping resolves ["exclude"] to, or
    the id of its list is the one the list mapping resolves ["complete"]
    to, names being compared up to case; when no label or no list has the
    name, that check cannot hold, and with neither name on the board no
    card is excluded. *)
Theorem exclusion_rule (trend : snapshot) (card : trello_card) :
  (_calculate_exclude trend card = true <->
   (exists label, label ∈ card_labels card
                  /\ resolves "exclude" (labels trend) (item_id label))
   \/ resolves "complete" (lists trend) (card_idList card))
  /\ (_calculate_exclude trend card = false <->
      (forall label, label ∈ card_labels card ->
                     ~ resolves "exclude" (labels trend) (item_id label))
      /\ ~ resolves "complete" (lists trend) (card_idList card))
  /\ (unnamed "exclude" (labels trend) ->
      forall id, ~ resolves "exclude" (labels trend) id)
  /\ (unnamed "complete" (lists trend) ->
      forall id, ~ resolves "complete" (lists trend) id)
  /\ (unnamed "exclude" (labels trend) -> unnamed "complete" (lists trend) ->
      _calculate_exclude trend card = false).
Proof.
  assert (Hiff : _calculate_exclude trend card = true <->
                 (exists label, label ∈ card_labels card
                                /\ resolves "exclude" (labels trend) (item_id label))
                 \/ resolves "complete" (lists trend) (card_idList card)).
  { unfold _calculate_exclude.
    destruct (existsb _ (card_labels card)) eqn:Ex.
    - split; [|reflexivity]. intros _. left.
      apply existsb_exists in Ex as (label & Hin & Hl).
      apply bool_decide_eq_true in Hl. exists label. split.
      + apply list_elem_of_In, Hin.
      + apply resolve_name_Some. symmetry. exact Hl.
    - assert (Hno : ~ exists label, label ∈ card_labels card
                      /\ resolves "exclude" (labels trend) (item_id label)).
      { intros (label & Hin & Hr). apply resolve_name_Some in Hr.
        assert (existsb (fun label => bool_decide
                           (Some (item_id label) = resolve_name "exclude" (labels trend)))
                        (card_labels card) = true); [|congruence].
        apply existsb_exists. exists label. split; [apply list_elem_of_In, Hin|].
        apply bool_decide_eq_true. congruence. }
      destruct (bool_decide _) eqn:Ec.
      + apply bool_decide_eq_true in Ec. split; [|reflexivity]. intros _. right.
        apply resolve_name_Some. symmetry. exact Ec.
      + apply bool_decide_eq_false in Ec. split; [discriminate|].
        intros [Hl | Hr]; [contradiction|].
        apply resolve_name_Some in Hr. congruence. }
  assert (Hun : forall name d, unnamed name d -> forall id, ~ resolves name d id).
  { intros name d Hu id Hr. apply resolve_name_None in Hu.
    apply resolve_name_Some in Hr. congruence. }
  split; [exact Hiff|]. split; [|split; [|split]].
  - rewrite <- not_true_iff_false, Hiff. split.
    + intros Hn. split; [intros label Hin Hr; apply Hn; left; eauto|].
      intros Hr. apply Hn. right. exact Hr.
    + intros [Hl Hc] [(label & Hin & Hr) | Hr]; [apply (Hl label Hin Hr) | auto].
  - apply Hun.
  - apply Hun.
  - intros Hl Hc. apply not_true_iff_false. rewrite Hiff.
    intros [(label & _ & Hr) | Hr];
      [apply (Hun _ _ Hl _ Hr) | apply (Hun _ _ Hc _ Hr)].
Qed.

(** A board with the label "Exclude" and the list "COMPLETE": a card with
    that label is excluded, a card on that list is excluded, a card with
    neither is not. *)
Lemma exclusion_rule_witness :
  let trend :=
    init_snapshot []
      [mk_item "l1" "Urgent"; mk_item "l2" "Exclude"]
      [mk_item "b1" "Doing"; mk_item "b2" "COMPLETE"] in
  _calculate_exclude trend (mk_card "c1" "a" "b1" [mk_item "l2" "Exclude"]) = true
  /\ _calculate_exclude trend (mk_card "c2" "b" "b2" []) = true
  /\ _calculate_exclude trend (mk_card "c3" "c" "b1" [mk_item "l1" "Urgent"]) = false
  /\ _calculate_exclude (init_snapshot [] [] [])
       (mk_card "c1" "a" "b1" [mk_item "l2" "Exclude"]) = false.
Proof.
  intros trend. split; [|split; [|split]].
  - apply (exclusion_rule trend). left. exists (mk_item "l2" "Exclude").
    split; [apply list_elem_of_here|]. apply resolve_name_Some. reflexivity.
  - apply (exclusion_rule trend). right. apply resolve_name_Some. reflexivity.
  - reflexivity.
  - apply (exclusion_rule (init_snapshot [] [] [])); intros i kn Hi; destruct i; discriminate.
Defined.

End ExclusionClaims.

(** ** Remaining time *)

Section RemainingClaims.

Context `{External}.

(** Every record the normalizer builds has the attribute [exclude]. *)
Lemma normalize_card_exclude (trend : snapshot) (card : trello_card)
    (items : list field_item) :
  is_Some (normalize_card trend card items !! "exclude").
Proof.
  unfold normalize_card.
  match goal with |- is_Some (fold_left ?f items ?c0 !! _) =>
    assert (G : forall c : card_record, is_Some (c !! "exclude") ->
                is_Some (fold_left f items c !! "exclude"))
  end.
  { induction items as [|item items IH]; intros c Hc; cbn [fold_left]; [exact Hc|].
    apply IH. destruct (dict_get _ _) as [field_name|]; [|exact Hc].
    rewrite lookup_insert. case_decide; eauto. }
  apply G. rewrite lookup_insert_eq. eauto.
Qed.

Lemma accumulate_floats (cs : list card_record) (rs : list float) :
  Forall2 (fun c r => _get_card_remaining_time c = Ok r) cs rs ->
  forall f, accumulate (NFloat f) cs = Ok (NFloat (fold_left PrimFloat.add rs f)).
Proof.
  induction 1 as [|c r cs rs Hc _ IH]; intros f; cbn [accumulate fold_left].
  - reflexivity.
  - rewrite Hc. cbn. apply IH.
Qed.

(** ** C4 *)

(** C4.  For a normalized card record the remaining time is 0.0 when its
    [exclude] attribute is true; otherwise, with an attribute [remaining],
    it is [float] of the member [number] of that attribute; otherwise it is
    1.0.  The total of a run is the sum of these values over the cards, in
    their order. *)
Theorem remaining_time_rule :
  (forall (card : card_record) (flag : json),
      card !! "exclude" = Some flag ->
      (truthy flag = true -> _get_card_remaining_time card = Ok 0%float)
      /\ (truthy flag = false ->
          forall r, card !! "remaining" = Some r ->
                    _get_card_remaining_time card
                    = (n ← subscript r "number"; py_float n))
      /\ (truthy flag = false ->
          forall o n, card !! "remaining" = Some (JObj o) ->
                      dict_get o "number" = Some n ->
                      _get_card_remaining_time card = py_float n)
      /\ (truthy flag = false -> card !! "remaining" = None ->
          _get_card_remaining_time card = Ok 1%float))
  /\ (forall trend card items,
         is_Some (normalize_card trend card items !! "exclude"))
  /\ (forall (cs : list card_record) (rs : list float),
         Forall2 (fun c r => _get_card_remaining_time c = Ok r) cs rs ->
         total_remaining cs = Ok (sum_floats rs)).
Proof.
  split; [|split].
  - intros card flag Hflag. unfold _get_card_remaining_time. rewrite Hflag.
    split; [|split; [|split]].
    + intros ->. reflexivity.
    + intros -> r ->. reflexivity.
    + intros -> o n -> Hn. cbn. rewrite Hn. reflexivity.
    + intros -> ->. reflexivity.
  - apply normalize_card_exclude.
  - intros cs rs Hrs. unfold total_remaining.
    destruct Hrs as [|c r cs rs Hc Hrs]; [reflexivity|].
    cbn [accumulate sum_floats fold_left]. rewrite Hc. cbn.
    apply (accumulate_floats cs rs Hrs).
Qed.

End RemainingClaims.

(** The example of the specification: a card without the attribute
    [remaining] that is not excluded contributes 1.0 to the total; next to
    it, an excluded card contributes 0.0 and a card with
    [remaining = {"number": "3"}] contributes 3.0. *)
Lemma remaining_time_rule_witness :
  let trend := init_snapshot [mk_item "f1" "Remaining"] [] [] in
  let plain := normalize_card trend (mk_card "c1" "a" "b1" []) [] in
  let timed :=
    normalize_card trend (mk_card "c2" "b" "b1" [])
      [mk_field_item "f1" (JObj [("number", JStr "3")])] in
  let excluded : card_record := <["exclude" := JBool true]> plain in
  _get_card_remaining_time (H := sample_external) plain = Ok 1%float
  /\ _get_card_remaining_time (H := sample_external) timed = Ok 3%float
  /\ _get_card_remaining_time (H := sample_external) excluded = Ok 0%float
  /\ total_remaining (H := sample_external) [plain] = Ok (NFloat 1%float)
  /\ total_remaining (H := sample_external) [plain; timed; excluded]
     = Ok (NFloat 4%float).
Proof.
  intros trend plain timed excluded.
  destruct (remaining_time_rule (H := sample_external)) as (Hcard & _ & Htotal).
  assert (H1 : _get_card_remaining_time (H := sample_external) plain = Ok 1%float).
  { apply (Hcard plain (JBool false)); reflexivity. }
  assert (H2 : _get_card_remaining_time (H := sample_external) timed = Ok 3%float).
  { destruct (Hcard timed (JBool false) eq_refl) as (_ & _ & Hn & _).
    rewrite (Hn eq_refl [("number", JStr "3")] (JStr "3") eq_refl eq_refl).
    reflexivity. }
  assert (H3 : _get_card_remaining_time (H := sample_external) excluded = Ok 0%float).
  { apply (Hcard excluded (JBool true)); reflexivity. }
  split; [exact H1|]. split; [exact H2|]. split; [exact H3|]. split.
  - apply (Htotal [plain] [1%float]). constructor; [exact H1 | constructor].
  - apply (Htotal [plain; timed; excluded] [1%float; 3%float; 0%float]).
    constructor; [exact H1|]. constructor; [exact H2|].
    constructor; [exact H3 | constructor].
Defined.

(** ** The content of the estimate store *)

Section EstimateStore.

Context `{External}.

Lemma write_points_from (dates : list text) (data : list Z) (m : nat) :
  forall (n : nat) (written : text),
    length dates = length data ->
    (n + m)%nat = length data ->
    write_points dates data (seq n m) written
    = (written ++ concat (zip_with estimate_line (drop n dates) (drop n data)), Ok ()).
Proof.
  induction m as [|m IH]; intros n written Hlen Hn; cbn [seq write_points].
  - rewrite !drop_ge by lia. cbn. rewrite app_nil_r. reflexivity.
  - destruct (lookup_lt_is_Some_2 dates n ltac:(lia)) as [date Hd].
    destruct (lookup_lt_is_Some_2 data n ltac:(lia)) as [v Hv].
    rewrite Hd, Hv, (IH (S n)) by lia.
    rewrite (drop_S dates date n Hd), (drop_S data v n Hv).
    cbn [zip_with concat]. unfold estimate_line.
    repeat (rewrite <- app_assoc; cbn [app]). reflexivity.
Qed.

(** With as many dates as values, every point is written, one per line. *)
Lemma write_points_all (dates : list text) (data : list Z) :
  length dates = length data ->
  write_points dates data (seq 0 (length data)) []
  = (concat (zip_with estimate_line dates data), Ok ()).
Proof.
  intros Hlen. rewrite (write_points_from dates data (length data) 0 []) by auto.
  reflexivity.
Qed.

Lemma expand_loop_lengths (k : Z) (fuel : nat) :
  forall st st',
    length (current_dates st) = length (current_data st) ->
    expand_loop fuel k st = Finished st' ->
    length (current_dates st') = length (current_data st').
Proof.
  induction fuel as [|fuel IH]; intros st st' Hlen; cbn [expand_loop]; [discriminate|].
  unfold expand_step. destruct (0 <? last_remaining st); [|intros [= <-]; exact Hlen].
  destruct (add_days (last_date st) 7) as [date|e]; [|discriminate].
  apply IH. cbn. rewrite !length_app, Hlen. reflexivity.
Qed.

Lemma last_estimate_data (self : ProjectTrend) :
  last (estimate_data self) = Some "t"%char.
Proof. unfold estimate_data. rewrite path_join_last by discriminate. reflexivity. Qed.

Lemma estimate_data_not_artifact (self : ProjectTrend) (graph_name : text) :
  estimate_data self <> resolve (graph_name ++ txt ".png")
  /\ estimate_data self <> resolve (graph_name ++ txt ".html").
Proof.
  split; intros E; apply (f_equal last) in E;
    rewrite last_estimate_data in E;
    [ rewrite (last_resolve graph_name (txt ".png") "g" eq_refl) in E
    | rewrite (last_resolve graph_name (txt ".html") "l" eq_refl) in E ];
    discriminate.
Qed.

(** When the projection succeeds, the estimate store is rewritten in full:
    it holds the points of the history followed by the projected points,
    one per line, whatever happens to the chart afterwards. *)
Lemma generate_estimated_trend_writes (self : ProjectTrend) (k : Z) (fs : files)
    (content : text) (st0 st : projection) :
  fs !! trend_data self = Some content ->
  last_point (g_date <$> matches (file_lines content))
             (remaining_of <$> matches (file_lines content)) = Ok st0 ->
  expand_data k st0 = Ok st ->
  (generate_estimated_trend self k fs).2 !! estimate_data self
  = Some (concat (zip_with estimate_line (current_dates st) (current_data st))).
Proof.
  intros Hfile Hlast Hexp. unfold generate_estimated_trend.
  rewrite Hfile, read_points_spec. cbn. rewrite Hlast. cbn. rewrite Hexp.
  assert (Hlen : length (current_dates st) = length (current_data st)).
  { apply last_point_Ok in Hlast as (_ & _ & _ & Hd & Hv).
    unfold expand_data in Hexp.
    destruct (expand_loop _ k st0) as [s| |] eqn:E; try discriminate.
    injection Hexp as ->.
    eapply expand_loop_lengths; [|exact E].
    rewrite Hd, Hv, !length_fmap. reflexivity. }
  rewrite (write_points_all _ _ Hlen).
  rewrite generate_trend_frame by apply estimate_data_not_artifact.
  apply lookup_insert_eq.
Qed.

(** A projected point in the first nine months, or on the first nine days
    of a month, is written without padding and so is not in the format
    [YYYY-MM-DD = <int>]. *)
Lemma projected_line_not_padded (d : datetime) (v : Z) :
  valid_date d = true -> 0 <= v ->
  month d < 10 \/ day d < 10 ->
  iso_point_line (estimate_line (format_ymd d) v) = false.
Proof.
  intros Hv Hn Hsmall. pose proof (valid_date_fields d Hv) as (Hy & Hm & Hd).
  destruct (text_of_Z_spec (year d) ltac:(lia)) as (Y1 & Y2 & _).
  destruct (text_of_Z_spec (month d) ltac:(lia)) as (M1 & M2 & _).
  destruct (text_of_Z_spec (day d) ltac:(lia)) as (D1 & D2 & _).
  destruct (text_of_Z_spec v Hn) as (V1 & V2 & _).
  assert (Hline : estimate_line (format_ymd d) v
                  = point_line (text_of_Z (year d)) (text_of_Z (month d))
                               (text_of_Z (day d)) [" "%char] [" "%char]
                               (text_of_Z v) [LF]).
  { unfold estimate_line, format_ymd, point_line.
    change (txt "-") with ["-"%char].
    change (txt " = ") with [" "%char; "="%char; " "%char].
    repeat (rewrite <- app_assoc; cbn [app]). reflexivity. }
  unfold iso_point_line. rewrite Hline.
  rewrite match_data_pattern_intro by (try split; auto; reflexivity).
  cbn [g_year g_month g_day].
  assert (Hone : forall n, 1 <= n < 10 -> length (text_of_Z n) = 1%nat).
  { intros n Hn'.
    assert (Hc : n = 1 \/ n = 2 \/ n = 3 \/ n = 4 \/ n = 5 \/ n = 6 \/ n = 7
                 \/ n = 8 \/ n = 9) by lia.
    repeat (destruct Hc as [-> | Hc]); try subst n; reflexivity. }
  destruct Hsmall as [Hs | Hs].
  - rewrite (Hone (month d)) by lia. cbn. rewrite andb_false_r. reflexivity.
  - rewrite (Hone (day d)) by lia. cbn. apply andb_false_r.
Qed.

End EstimateStore.

(** ** C8 *)

Section ReaderClaims.

Context `{External}.

Lemma gather_lines_app (l1 l2 : list text) :
  forall st, gather_lines st (l1 ++ l2) = st' ← gather_lines st l1; gather_lines st' l2.
Proof.
  induction l1 as [|l l1 IH]; intros st; cbn [app gather_lines]; [reflexivity|].
  destruct (gather_line st l) as [st1|e]; cbn; [apply IH | reflexivity].
Qed.

(** A matching line whose date the constructor refuses is not skipped: the
    loop raises the exception of the constructor. *)
Lemma gather_line_raises (st : gathered) (line : text) (g : groups) (e : exn) :
  match_data_pattern line = Some g ->
  date_of_groups g = Raise e ->
  gather_line st line = Raise e.
Proof.
  intros Hm Hd. unfold gather_line. rewrite Hm.
  apply match_data_pattern_elim in Hm
    as (? & ? & ? & _ & [? ?] & [? ?] & [? ?] & [? ?] & _).
  rewrite !int_of_text_digits by assumption. cbn.
  unfold date_of_groups in Hd. rewrite Hd. reflexivity.
Qed.

(** A matching line with an accepted date extends the series. *)
Lemma gather_line_total (st : gathered) (line : text) (g : groups) :
  length (status st) = length (y_axis st) ->
  match_data_pattern line = Some g ->
  date_accepted g ->
  exists st', gather_line st line = Ok st'
              /\ length (status st') = length (y_axis st').
Proof.
  intros Hlen Hm (d & s & Hd & Hs).
  assert (Hrun : exists st', gather_line st line = Ok st').
  { unfold gather_line. rewrite Hm.
    apply match_data_pattern_elim in Hm
      as (? & ? & ? & _ & [? ?] & [? ?] & [? ?] & [? ?] & _).
    rewrite !int_of_text_digits by assumption. cbn.
    unfold date_of_groups in Hd. rewrite Hd. cbn. rewrite Hs. cbn.
    destruct (status st) as [|s0 ss] eqn:Es; [eexists; reflexivity|].
    rewrite index_from_end_1.
    destruct (last (y_axis st)) as [p|] eqn:El.
    - rewrite (index_from_end_2 _ p _ El). cbn.
      destruct (_ <? p); [eexists; reflexivity|].
      destruct (p <? _); eexists; reflexivity.
    - apply last_None in El. rewrite El in Hlen. discriminate. }
  destruct Hrun as [st' Hst']. exists st'. split; [exact Hst'|].
  destruct (gather_line_y_axis st st' line Hst') as [Hy Hl].
  rewrite Hl, Hy, Hlen, length_app, length_fmap. reflexivity.
Qed.

Lemma gather_lines_total (lines : list text) :
  forall st,
    length (status st) = length (y_axis st) ->
    Forall date_accepted (matches lines) ->
    exists st', gather_lines st lines = Ok st'.
Proof.
  induction lines as [|line lines IH]; intros st Hlen Hall; cbn [gather_lines];
    [eauto|].
  unfold matches in Hall. cbn [omap list_omap] in Hall. fold (matches lines) in Hall.
  destruct (match_data_pattern line) as [g|] eqn:Hm.
  - apply Forall_cons in Hall as [Hg Hall].
    destruct (gather_line_total st line g Hlen Hm Hg) as (st1 & -> & Hlen1). cbn.
    apply IH; assumption.
  - rewrite (gather_line_skip st line Hm). cbn. apply IH; assumption.
Qed.

(** The lines behind a match and the matches around it. *)
Lemma matches_split (lines : list text) :
  forall (gs1 gs2 : list groups) (g : groups),
    matches lines = gs1 ++ g :: gs2 ->
    exists l1 line l2,
      lines = l1 ++ line :: l2 /\ matches l1 = gs1
      /\ match_data_pattern line = Some g /\ matches l2 = gs2.
Proof.
  induction lines as [|line lines IH]; intros gs1 gs2 g Hm.
  - destruct gs1; discriminate.
  - unfold matches in Hm. cbn [omap list_omap] in Hm. fold (matches lines) in Hm.
    destruct (match_data_pattern line) as [g0|] eqn:E.
    + destruct gs1 as [|g1 gs1]; cbn [app] in Hm; injection Hm as -> Hm.
      * exists [], line, lines. auto.
      * destruct (IH gs1 gs2 g Hm) as (l1 & l & l2 & -> & H1 & H2 & H3).
        exists (line :: l1), l, l2. split; [reflexivity|].
        split; [|auto]. unfold matches. cbn [omap list_omap]. rewrite E.
        fold (matches l1). rewrite H1. reflexivity.
    + destruct (IH gs1 gs2 g Hm) as (l1 & l & l2 & -> & H1 & H2 & H3).
      exists (line :: l1), l, l2. split; [reflexivity|].
      split; [|auto]. unfold matches. cbn [omap list_omap]. rewrite E. exact H1.
Qed.

(** C8, with the matching lines that the reader of [generate_trend] does
    not skip.  Both readers test every line of the file against the pattern
    and pass over the lines that do not match, whatever they contain, without
    raising.  The reader of [generate_estimated_trend] never raises and
    returns the dates and values of the matching lines in file order.  The
    reader of [generate_trend] behaves on a file as on its matching lines
    alone: when the date of every matching line is accepted it returns the
    values of the matching lines in file order, and at the first matching
    line whose date the constructor refuses it raises the exception of the
    constructor. *)
Theorem unmatched_lines_are_skipped (content : text) :
  let lines := file_lines content in
  read_points [] [] lines
  = Ok (g_date <$> matches lines, remaining_of <$> matches lines)
  /\ Forall2 (fun line g => match_data_pattern line = Some g)
             (matching_lines lines) (matches lines)
  /\ (forall st, gather_lines st lines = gather_lines st (matching_lines lines))
  /\ (forall st line, match_data_pattern line = None -> gather_line st line = Ok st)
  /\ (Forall date_accepted (matches lines) ->
      exists g, gather content = Ok g
                /\ y_axis g = remaining_of <$> matches lines
                /\ length (status g) = length (matches lines))
  /\ (forall gs1 g gs2 e,
         matches lines = gs1 ++ g :: gs2 ->
         Forall date_accepted gs1 ->
         date_of_groups g = Raise e ->
         gather content = Raise e
         /\ e = (if fits_int (digits_value (g_year g))
                    && fits_int (digits_value (g_month g))
                    && fits_int (digits_value (g_day g))
                 then ValueError else OverflowError))
  /\ (forall g, gather content = Ok g -> y_axis g = remaining_of <$> matches lines).
Proof.
  intros lines. split; [|split; [|split; [|split; [|split; [|split]]]]].
  - apply read_points_spec.
  - apply matches_matching_lines.
  - apply gather_lines_matching.
  - apply gather_line_skip.
  - intros Hall.
    destruct (gather_lines_total lines gathered_init eq_refl Hall) as [g Hg].
    exists g. split; [exact Hg|].
    destruct (gather_lines_y_axis lines gathered_init g Hg) as [Hy Hl].
    split; [exact Hy | exact Hl].
  - intros gs1 g gs2 e Hm Hall Hd.
    split; [|apply (datetime_new_Raise _ _ _ e Hd)].
    destruct (matches_split lines gs1 gs2 g Hm) as (l1 & line & l2 & Hl & H1 & H2 & _).
    rewrite <- H1 in Hall.
    destruct (gather_lines_total l1 gathered_init eq_refl Hall) as [st Hst].
    unfold gather. fold lines. rewrite Hl, gather_lines_app, Hst. cbn.
    rewrite (gather_line_raises st line g e H2 Hd). reflexivity.
  - intros g Hg. apply gather_lines_y_axis in Hg as [-> _]. reflexivity.
Qed.

End ReaderClaims.

(** A store with a comment, a blank line and a line that is not a point
    among its two points: both readers return the two points. *)
Lemma unmatched_lines_are_skipped_witness :
  let content :=
    txt "# days remaining" ++ [LF] ++ txt "2024-01-01 = 10" ++ [LF; LF]
    ++ txt "next week = ?" ++ [CR; LF] ++ txt "2024-01-08=6  " ++ [LF] in
  read_points [] [] (file_lines content)
  = Ok ([txt "2024-01-01"; txt "2024-01-08"], [10; 6])
  /\ exists g, gather (H := sample_external) content = Ok g
               /\ y_axis g = [10; 6] /\ length (status g) = 2%nat.
Proof.
  intros content.
  assert (Hm : matches (file_lines content)
               = [mk_groups (txt "2024") (txt "01") (txt "01") (txt "10");
                  mk_groups (txt "2024") (txt "01") (txt "08") (txt "6")])
    by (vm_compute; reflexivity).
  destruct (unmatched_lines_are_skipped (H := sample_external) content)
    as (Hread & _ & _ & _ & Hgather & _).
  split.
  - rewrite Hread, Hm. reflexivity.
  - destruct Hgather as (g & Hg & Hy & Hl).
    + rewrite Hm. constructor; [|constructor; [|constructor]].
      * exists (mk_datetime 2024 1 1). eexists.
        split; [reflexivity | vm_compute; reflexivity].
      * exists (mk_datetime 2024 1 8). eexists.
        split; [reflexivity | vm_compute; reflexivity].
    + exists g. split; [exact Hg|]. rewrite Hy, Hl, Hm. split; reflexivity.
Defined.

(** C8 does not hold for the reader of [generate_trend] on every store: a
    store whose lines are a comment and a point dated 2024-02-30 is read by
    [generate_estimated_trend] as that one point, and makes the reader of
    [generate_trend] raise [ValueError]; with the year 99999999999 it raises
    [OverflowError]. *)
Lemma matching_line_raises_counterexample :
  let content := txt "# days remaining" ++ [LF] ++ txt "2024-02-30 = 7" ++ [LF] in
  let far := txt "99999999999-01-01 = 5" ++ [LF] in
  matching_lines (file_lines content) = [txt "2024-02-30 = 7" ++ [LF]]
  /\ read_points [] [] (file_lines content) = Ok ([txt "2024-02-30"], [7])
  /\ gather (H := sample_external) content = Raise ValueError
  /\ generate_trend (H := sample_external) sample_run (txt "figure") None None
       (store_only content) = (Raise ValueError, store_only content)
  /\ matching_lines (file_lines far) = [far]
  /\ gather (H := sample_external) far = Raise OverflowError.
Proof. vm_compute. repeat split; reflexivity. Qed.

(* ===================================================================== *)
(** * Part III: further properties of the code                            *)
(* ===================================================================== *)

(** ** The mappings of the snapshot *)

Section MappingFacts.

Lemma dict_get_set {V : Type} (d : pydict V) (k k' : string) (v : V) :
  dict_get (dict_set d k v) k' = if String.eqb k k' then Some v else dict_get d k'.
Proof.
  induction d as [|[k0 v0] d IH]; cbn [dict_set dict_get].
  - reflexivity.
  - destruct (String.eqb k0 k) eqn:E0; cbn [dict_get].
    + apply string_eqb_true in E0 as ->.
      destruct (String.eqb k k'); reflexivity.
    + destruct (String.eqb k0 k') eqn:E1.
      * apply string_eqb_true in E1 as ->.
        rewrite String.eqb_sym, E0. reflexivity.
      * exact IH.
Qed.

Lemma last_filter_cons {A : Type} (P : A -> Prop) `{forall x, Decision (P x)}
    (x : A) (l : list A) :
  last (filter P (x :: l))
  = match last (filter P l) with
    | Some y => Some y
    | None => if decide (P x) then Some x else None
    end.
Proof.
  rewrite filter_cons. destruct (decide (P x)); [|destruct (last _); reflexivity].
  rewrite last_cons. reflexivity.
Qed.

Lemma fold_mapping_lookup (values : list board_item) (k : string) :
  forall d : pydict string,
    dict_get (fold_left (fun d v => dict_set d (item_id v) (item_name v)) values d) k
    = match last (values_for k values) with
      | Some v => Some (item_name v)
      | None => dict_get d k
      end.
Proof.
  unfold values_for.
  induction values as [|v values IH]; intros d; cbn [fold_left]; [reflexivity|].
  rewrite IH, last_filter_cons, dict_get_set.
  destruct (last (filter _ values)); [reflexivity|].
  destruct (decide (item_id v = k)) as [->|Hne].
  - rewrite String.eqb_refl. reflexivity.
  - destruct (String.eqb (item_id v) k) eqn:E; [|reflexivity].
    apply string_eqb_true in E. contradiction.
Qed.

(** X1.  A mapping that [__init__] builds from a response binds every id of
    the response to the name of the last value with that id, binds no other
    key, and has no key twice. *)
Theorem mapping_binds_last_name (values : list board_item) (k : string) :
  dict_get (build_mapping values) k = item_name <$> last (values_for k values)
  /\ (dict_get (build_mapping values) k = None <->
      forall v, v ∈ values -> item_id v <> k)
  /\ NoDup ((build_mapping values).*1).
Proof.
  assert (Hget : dict_get (build_mapping values) k
                 = item_name <$> last (values_for k values)).
  { unfold build_mapping. rewrite fold_mapping_lookup.
    destruct (last _); reflexivity. }
  split; [exact Hget|]. split; [|apply build_mapping_NoDup].
  rewrite Hget. unfold values_for. split.
  - intros Hnone v Hv Hk.
    destruct (last (filter (fun v0 => item_id v0 = k) values)) as [w|] eqn:El;
      [discriminate|].
    apply last_None in El.
    assert (Hin : v ∈ filter (fun v0 => item_id v0 = k) values)
      by (apply list_elem_of_filter; auto).
    rewrite El in Hin. apply elem_of_nil in Hin. exact Hin.
  - intros Hall.
    destruct (last (filter (fun v0 => item_id v0 = k) values)) as [w|] eqn:El;
      [|reflexivity].
    apply last_Some in El as [l' El].
    assert (Hin : w ∈ filter (fun v0 => item_id v0 = k) values)
      by (rewrite El; apply elem_of_app; right; apply list_elem_of_here).
    apply list_elem_of_filter in Hin as [Hk Hin]. exfalso. exact (Hall w Hin Hk).
Qed.

End MappingFacts.

(** ** The normalizer *)

Section NormalizerFacts.

Context `{External}.

Lemma fold_fields_lookup (trend : snapshot) (items : list field_item) (key : string) :
  forall c : card_record,
    fold_left
      (fun (c : card_record) (item : field_item) =>
         match dict_get (custom_fields trend) (idCustomField item) with
         | Some field_name => <[lower field_name := field_value item]> c
         | None => c
         end) items c !! key
    = match last (items_for trend key items) with
      | Some item => Some (field_value item)
      | None => c !! key
      end.
Proof.
  unfold items_for.
  induction items as [|item items IH]; intros c; cbn [fold_left]; [reflexivity|].
  rewrite IH, last_filter_cons.
  destruct (last (filter _ items)); [reflexivity|].
  unfold custom_key.
  destruct (dict_get (custom_fields trend) (idCustomField item)) as [name|]; cbn.
  - rewrite lookup_insert.
    destruct (decide (Some (lower name) = Some key)) as [E|E].
    + injection E as ->. rewrite decide_True by reflexivity. reflexivity.
    + rewrite decide_False by congruence. reflexivity.
  - rewrite decide_False by discriminate. reflexivity.
Qed.

Lemma normalize_card_lookup (trend : snapshot) (card : trello_card)
    (items : list field_item) (key : string) :
  normalize_card trend card items !! key
  = match last (items_for trend key items) with
    | Some item => Some (field_value item)
    | None => base_card trend card !! key
    end.
Proof. unfold normalize_card. apply fold_fields_lookup. Qed.

Lemma items_for_nil (trend : snapshot) (key : string) (items : list field_item) :
  (forall item, item ∈ items -> custom_key trend item <> Some key) ->
  items_for trend key items = [].
Proof.
  intros Hno. unfold items_for.
  induction items as [|item items IH]; [reflexivity|].
  rewrite filter_cons, decide_False by (apply Hno, list_elem_of_here).
  apply IH. intros i Hi. apply Hno. apply list_elem_of_further, Hi.
Qed.

(** X2.  An attribute of a normalized card holds the value of the last
    custom field item of the card whose field the board knows under that
    name, lower-cased; without such an item it is the attribute of the
    template ([id], [name], [list], [exclude]) or absent.  Items of fields
    the board does not know change nothing. *)
Theorem normalized_attribute (trend : snapshot) (card : trello_card)
    (items : list field_item) (key : string) :
  (normalize_card trend card items !! key
   = match last (items_for trend key items) with
     | Some item => Some (field_value item)
     | None => base_card trend card !! key
     end)
  /\ base_card trend card !! "id" = Some (JStr (card_id card))
  /\ base_card trend card !! "name" = Some (JStr (card_name card))
  /\ base_card trend card !! "list" = Some (JStr (card_idList card))
  /\ base_card trend card !! "exclude" = Some (JBool (_calculate_exclude trend card))
  /\ (key <> "id" -> key <> "name" -> key <> "list" -> key <> "exclude" ->
      base_card trend card !! key = None)
  /\ ((forall item, item ∈ items -> custom_key trend item = None) ->
      normalize_card trend card items = base_card trend card).
Proof.
  split; [apply normalize_card_lookup|].
  split; [reflexivity|]. split; [reflexivity|]. split; [reflexivity|].
  split; [reflexivity|]. split.
  - intros H1 H2 H3 H4. unfold base_card.
    rewrite !lookup_insert_ne by congruence. apply lookup_empty.
  - intros Hnone. apply map_eq. intros k. rewrite normalize_card_lookup.
    rewrite items_for_nil; [reflexivity|].
    intros item Hitem. rewrite (Hnone item Hitem). discriminate.
Qed.

(** X3.  A card that the exclusion rule excludes counts for 0.0, whatever
    its custom fields hold (a malformed [remaining] included), as long as
    no custom field of the board is named [exclude]. *)
Theorem excluded_card_counts_zero (trend : snapshot) (card : trello_card)
    (items : list field_item) :
  (forall item, item ∈ items -> custom_key trend item <> Some "exclude") ->
  _calculate_exclude trend card = true ->
  _get_card_remaining_time (normalize_card trend card items) = Ok 0%float.
Proof.
  intros Hno Hex. unfold _get_card_remaining_time.
  rewrite normalize_card_lookup, (items_for_nil _ _ _ Hno).
  unfold base_card. rewrite lookup_insert_eq, Hex. reflexivity.
Qed.

(** X4.  A card that the rule does not exclude counts for [float] of the
    member [number] of its last item stored under [remaining], and for 1.0
    when it has no such item, as long as no custom field of the board is
    named [exclude]. *)
Theorem counted_card_uses_last_remaining (trend : snapshot) (card : trello_card)
    (items : list field_item) :
  (forall item, item ∈ items -> custom_key trend item <> Some "exclude") ->
  _calculate_exclude trend card = false ->
  (forall item, last (items_for trend "remaining" items) = Some item ->
                _get_card_remaining_time (normalize_card trend card items)
                = (n ← subscript (field_value item) "number"; py_float n))
  /\ (last (items_for trend "remaining" items) = None ->
      _get_card_remaining_time (normalize_card trend card items) = Ok 1%float).
Proof.
  intros Hno Hex.
  assert (Hflag : normalize_card trend card items !! "exclude" = Some (JBool false)).
  { rewrite normalize_card_lookup, (items_for_nil _ _ _ Hno).
    unfold base_card. rewrite lookup_insert_eq, Hex. reflexivity. }
  split.
  - intros item Hlast. unfold _get_card_remaining_time. rewrite Hflag. cbn.
    rewrite normalize_card_lookup, Hlast. reflexivity.
  - intros Hlast. unfold _get_card_remaining_time. rewrite Hflag. cbn.
    rewrite normalize_card_lookup, Hlast. reflexivity.
Qed.


End NormalizerFacts.

(** A board whose label "Exclude" is on the card: the card counts for 0.0
    although its [remaining] holds no number. *)
Lemma excluded_card_counts_zero_witness :
  let trend := init_snapshot [mk_item "f1" "Remaining"] [mk_item "l1" "Exclude"] [] in
  let card := mk_card "c1" "a" "b1" [mk_item "l1" "Exclude"] in
  _get_card_remaining_time (H := sample_external)
    (normalize_card trend card [mk_field_item "f1" (JStr "soon")])
  = Ok 0%float.
Proof.
  intros trend card.
  apply (excluded_card_counts_zero (H := sample_external) trend card).
  - intros item Hitem. apply list_elem_of_singleton in Hitem. subst item.
    vm_compute. discriminate.
  - reflexivity.
Defined.

(** A card with two items of the field "Remaining" counts for the second;
    a card without any counts for 1.0. *)
Lemma counted_card_uses_last_remaining_witness :
  let trend := init_snapshot [mk_item "f1" "Remaining"] [] [] in
  let card := mk_card "c1" "a" "b1" [] in
  let items := [mk_field_item "f1" (JObj [("number", JStr "3")]);
                mk_field_item "f1" (JObj [("number", JStr "5")])] in
  _get_card_remaining_time (H := sample_external) (normalize_card trend card items)
  = Ok 5%float
  /\ _get_card_remaining_time (H := sample_external) (normalize_card trend card [])
     = Ok 1%float.
Proof.
  intros trend card items. split.
  - destruct (counted_card_uses_last_remaining (H := sample_external) trend card items)
      as [Hlast _].
    + intros item Hitem. apply elem_of_cons in Hitem as [-> | Hitem];
        [vm_compute; discriminate|].
      apply list_elem_of_singleton in Hitem. subst item. vm_compute. discriminate.
    + reflexivity.
    + rewrite (Hlast (mk_field_item "f1" (JObj [("number", JStr "5")])) eq_refl).
      reflexivity.
  - destruct (counted_card_uses_last_remaining (H := sample_external) trend card [])
      as [_ Hnone].
    + intros item Hitem. apply elem_of_nil in Hitem. contradiction.
    + reflexivity.
    + apply Hnone. reflexivity.
Defined.


(** ** Failures and lost points of [add_datapoint] *)

Section AppendFacts.

Context `{External}.

Lemma accumulate_first_failure (cs1 cs2 : list card_record) (c : card_record)
    (e : exn) :
  Forall (fun c => exists r, _get_card_remaining_time c = Ok r) cs1 ->
  _get_card_remaining_time c = Raise e ->
  forall total,
    (forall f, exists total', num_add_float total f = Ok total'
                              /\ exists g, total' = NFloat g) ->
    accumulate total (cs1 ++ c :: cs2) = Raise e.
Proof.
  intros Hok Hc. induction Hok as [|c1 cs1 [r Hr] _ IH]; intros total Htotal;
    cbn [app accumulate].
  - rewrite Hc. reflexivity.
  - rewrite Hr. cbn. destruct (Htotal r) as (total' & -> & g & ->). cbn.
    apply IH. intros f. eexists. split; [reflexivity|]. eauto.
Qed.

(** X6.  [add_datapoint] raises the exception of the first card whose
    remaining time cannot be computed, and then the trend store is neither
    written nor created: a run records a point for all the cards or none. *)
Theorem add_datapoint_all_or_nothing (self : ProjectTrend) (now : datetime)
    (fs : files) (cs1 cs2 : list card_record) (c : card_record) (e : exn) :
  cards self = cs1 ++ c :: cs2 ->
  Forall (fun c => exists r, _get_card_remaining_time c = Ok r) cs1 ->
  _get_card_remaining_time c = Raise e ->
  add_datapoint self now fs = (Raise e, fs).
Proof.
  intros Hcards Hok Hc. unfold add_datapoint, total_remaining. rewrite Hcards.
  rewrite (accumulate_first_failure cs1 cs2 c e Hok Hc); [reflexivity|].
  intros f. cbn. eexists. split; [reflexivity|]. eauto.
Qed.

Lemma matches_append_line (old rec : text) :
  no_CR rec -> no_LF rec -> rec <> [] ->
  matches (file_lines (old ++ LF :: rec))
  = matches (file_lines old) ++ matches [rec].
Proof.
  intros Hcr Hlf Hne. unfold file_lines, translate_newlines, split_lines.
  destruct (translate_from_record rec Hcr old false) as (X & HX & Hcase).
  cbn [delivered app] in HX, Hcase. rewrite HX, lines_from_app_LF, matches_app.
  rewrite (lines_from_no_LF rec Hlf []) by exact Hne. cbn [app].
  f_equal. destruct Hcase as [-> | ->]; [apply matches_closed | reflexivity].
Qed.

Lemma gather_line_same_match (st : gathered) (l1 l2 : text) :
  match_data_pattern l1 = match_data_pattern l2 -> gather_line st l1 = gather_line st l2.
Proof. unfold gather_line. intros ->. reflexivity. Qed.

(** A line feed at the end of a text does not change what is gathered. *)
Lemma gather_lines_closed (X : text) :
  forall cur st,
    gather_lines st (lines_from cur (X ++ [LF])) = gather_lines st (lines_from cur X).
Proof.
  induction X as [|c X IH]; intros cur st; cbn [app lines_from].
  - change (is_char LF LF) with true. cbv iota. cbn [gather_lines].
    rewrite (gather_line_same_match st _ cur (match_data_pattern_snoc_LF cur)).
    destruct cur as [|c cur]; cbn [gather_lines]; [|reflexivity].
    rewrite gather_line_skip by reflexivity. reflexivity.
  - destruct (is_char LF c); [|apply IH].
    cbn [gather_lines]. destruct (gather_line st _); cbn; [apply IH | reflexivity].
Qed.

(** Appending a line that does not match changes nothing for [gather]. *)
Lemma gather_append_line (old rec : text) :
  match_data_pattern rec = None -> no_CR rec -> no_LF rec -> rec <> [] ->
  gather (old ++ LF :: rec) = gather old.
Proof.
  intros Hm Hcr Hlf Hne. unfold gather, file_lines, translate_newlines, split_lines.
  destruct (translate_from_record rec Hcr old false) as (X & HX & Hcase).
  cbn [delivered app] in HX, Hcase. rewrite HX, lines_from_app_LF, gather_lines_app.
  rewrite (lines_from_no_LF rec Hlf []) by exact Hne. cbn [app gather_lines].
  assert (E : gather_lines gathered_init (lines_from [] (X ++ [LF]))
              = gather_lines gathered_init (lines_from [] (translate_from false old))).
  { destruct Hcase as [-> | ->]; [apply gather_lines_closed | reflexivity]. }
  rewrite E. clear E. destruct (gather_lines _ _) as [st|e]; cbn; [|reflexivity].
  rewrite (gather_line_skip st rec Hm). reflexivity.
Qed.

Lemma text_of_Z_negative (n : Z) :
  n < 0 -> exists ds, text_of_Z n = "-"%char :: ds /\ all_digits ds = true /\ ds <> [].
Proof.
  intros Hn. unfold text_of_Z. destruct (n <? 0) eqn:E; [|lia].
  destruct (digits_of_spec (Z.to_nat (Z.log2 (- n))) (- n) [])
    as (D & HD & Hne & Hall & _).
  { split; [lia|].
    rewrite Nat2Z.inj_succ, Z2Nat.id by apply Z.log2_nonneg.
    apply Z.log2_spec. lia. }
  exists D. rewrite HD, app_nil_r. auto.
Qed.

Lemma skip_one_space (b : text) :
  stops is_space b -> skip_spaces (" "%char :: b) = b.
Proof. intros Hb. apply (skip_spaces_app [" "%char] b); [reflexivity | exact Hb]. Qed.

(** The record of a negative total is written like any other, and is not a
    line of the store. *)
Lemma negative_record (now : datetime) (n : Z) :
  valid_date now = true -> n < 0 ->
  match_data_pattern (record_of now n) = None
  /\ no_CR (record_of now n) /\ no_LF (record_of now n) /\ record_of now n <> [].
Proof.
  intros Hv Hn. pose proof (valid_date_fields now Hv) as (Hy & Hm & Hd).
  pose proof (padded_digits 4 (year now) ltac:(lia)) as Py.
  pose proof (padded_digits 2 (month now) ltac:(lia)) as Pm.
  pose proof (padded_digits 2 (day now) ltac:(lia)) as Pd.
  destruct (text_of_Z_negative n Hn) as (ds & Hds & Dall & Dne).
  assert (Hrec : record_of now n
                 = zfill 4 (text_of_Z (year now)) ++ "-"%char
                   :: zfill 2 (text_of_Z (month now)) ++ "-"%char
                   :: zfill 2 (text_of_Z (day now)) ++ [" "%char] ++ "="%char
                   :: [" "%char] ++ "-"%char :: ds).
  { unfold record_of, strftime_Ymd. rewrite Hds.
    change (txt "-") with ["-"%char].
    change (txt " = ") with [" "%char; "="%char; " "%char].
    repeat (rewrite <- app_assoc; cbn [app]). reflexivity. }
  rewrite Hrec. split; [|split; [|split]].
  - unfold match_data_pattern.
    rewrite (take_digits_app _ _ Py) by reflexivity. cbn. rewrite is_char_refl. cbn.
    rewrite (take_digits_app _ _ Pm) by reflexivity. cbn. rewrite is_char_refl. cbn.
    rewrite (take_digits_app _ _ Pd) by reflexivity. cbn.
    rewrite skip_one_space by reflexivity. rewrite take_char_cons. cbn.
    rewrite skip_one_space by reflexivity. reflexivity.
  - destruct Py as [_ Py], Pm as [_ Pm], Pd as [_ Pd].
    repeat first
      [ apply digits_no_CR; assumption | apply no_CR_cons; [reflexivity|]
      | apply no_CR_app | reflexivity ].
  - destruct Py as [_ Py], Pm as [_ Pm], Pd as [_ Pd].
    repeat first
      [ apply digits_no_LF; assumption | apply no_LF_cons; [reflexivity|]
      | apply no_LF_app | reflexivity ].
  - destruct (zfill 4 (text_of_Z (year now))); discriminate.
Qed.

(** X7.  A negative total is appended to the trend store like any other,
    but its line does not match the pattern: neither reader sees the point,
    and both read the store as they did before the run. *)
Theorem negative_total_is_not_read_back (self : ProjectTrend) (now : datetime)
    (total : num) (n : Z) (fs : files) :
  valid_date now = true ->
  int_of_num total = Ok n ->
  n < 0 ->
  let before := content_of (trend_data self) fs in
  let after := content_of (trend_data self) (append_datapoint self now total fs).2 in
  after = before ++ LF :: record_of now n
  /\ read_points [] [] (file_lines after) = read_points [] [] (file_lines before)
  /\ gather after = gather before.
Proof.
  intros Hv Hn Hneg before after.
  destruct (append_datapoint_content self now total n fs Hn) as [_ Hafter].
  fold before after in Hafter.
  destruct (negative_record now n Hv Hneg) as (Hm & Hcr & Hlf & Hne).
  split; [exact Hafter|]. split.
  - rewrite !read_points_spec, Hafter, (matches_append_line _ _ Hcr Hlf Hne).
    unfold matches at 2 4. cbn [omap list_omap]. rewrite Hm, !app_nil_r. reflexivity.
  - rewrite Hafter. apply gather_append_line; assumption.
Qed.

(** X8.  The store is opened before the total is converted: when the
    total is not a finite number ([int] raises [OverflowError] on an
    infinity, [ValueError] on a NaN), [add_datapoint] raises that exception
    after it has created the store, empty, if it did not exist; a store that
    existed keeps its content, and no other file changes. *)
Theorem total_conversion_fails_after_open (self : ProjectTrend) (now : datetime)
    (fs : files) (total : num) (e : exn) :
  total_remaining (cards self) = Ok total ->
  int_of_num total = Raise e ->
  let out := add_datapoint self now fs in
  out.1 = Raise e
  /\ out.2 !! trend_data self = Some (content_of (trend_data self) fs)
  /\ (forall path, path <> trend_data self -> out.2 !! path = fs !! path).
Proof.
  intros Htotal Hint out. unfold out, add_datapoint, append_datapoint.
  rewrite Htotal, Hint. cbn [fst snd]. split; [reflexivity|].
  unfold open_append, content_of. split.
  - destruct (fs !! trend_data self) eqn:E; [rewrite E | rewrite lookup_insert_eq];
      reflexivity.
  - intros path Hpath. destruct (fs !! trend_data self) eqn:E; [reflexivity|].
    rewrite lookup_insert_ne by congruence. reflexivity.
Qed.

End AppendFacts.

(** A card whose remaining time is the string [x], read as an infinity by
    the environment of this example: the run raises [OverflowError] and
    leaves an empty store behind. *)
Lemma total_conversion_fails_after_open_witness :
  let env : External :=
    {| figure := chart;
       str_to_float := fun _ => Ok infinity;
       mktime := fun _ => Ok 0%float;
       strftime_B_Y := fun _ => [];
       cwd := txt "/work";
       plot := fun c => Ok c;
       to_image := fun _ => Ok [];
       to_html := fun _ => Ok [] |} in
  let trend := init_snapshot [mk_item "f1" "Remaining"] [] [] in
  let card := normalize_card trend (mk_card "c1" "a" "b1" [])
                [mk_field_item "f1" (JObj [("number", JStr "x")])] in
  let self := mk_ProjectTrend (txt "Board") trend [card] (txt "/opt/trend") in
  let out := add_datapoint (H := env) self (mk_datetime 2024 1 8) ∅ in
  out.1 = Raise OverflowError /\ out.2 !! trend_data self = Some [].
Proof.
  intros env trend card self out.
  destruct (total_conversion_fails_after_open (H := env) self (mk_datetime 2024 1 8) ∅
              (NFloat infinity) OverflowError) as (Hr & Hstore & _).
  - reflexivity.
  - reflexivity.
  - split; [exact Hr | exact Hstore].
Defined.

(** Three cards, the second with a [remaining] that has no [number]: the
    run raises [KeyError] and the store is as it was. *)
Lemma add_datapoint_all_or_nothing_witness :
  let trend := init_snapshot [mk_item "f1" "Remaining"] [] [] in
  let good := normalize_card trend (mk_card "c1" "a" "b1" [])
                [mk_field_item "f1" (JObj [("number", JStr "3")])] in
  let bad := normalize_card trend (mk_card "c2" "b" "b1" [])
               [mk_field_item "f1" (JObj [])] in
  let self := mk_ProjectTrend (txt "Board") trend [good; bad; good] (txt "/opt/trend") in
  let fs := store_only (txt "2024-01-01 = 10") in
  add_datapoint (H := sample_external) self (mk_datetime 2024 1 8) fs
  = (Raise KeyError, fs).
Proof.
  intros trend good bad self fs.
  apply (add_datapoint_all_or_nothing (H := sample_external) self (mk_datetime 2024 1 8)
           fs [good] [good] bad KeyError).
  - reflexivity.
  - constructor; [|constructor]. exists 3%float. reflexivity.
  - reflexivity.
Defined.

(** A total of -3.0 on 2024-01-08: the record [2024-01-08 = -3] is in the
    store, and the store still reads as its one earlier point. *)
Lemma negative_total_is_not_read_back_witness :
  let fs := store_only (txt "2024-01-01 = 10") in
  let now := mk_datetime 2024 1 8 in
  let after :=
    content_of (trend_data sample_run)
               (append_datapoint sample_run now (NFloat (-3)%float) fs).2 in
  after = txt "2024-01-01 = 10" ++ LF :: txt "2024-01-08 = -3"
  /\ read_points [] [] (file_lines after) = Ok ([txt "2024-01-01"], [10]).
Proof.
  intros fs now after.
  destruct (negative_total_is_not_read_back (H := sample_external) sample_run now (NFloat (-3)%float) (-3) fs)
    as (Hafter & Hread & _); [reflexivity | reflexivity | lia |].
  split; [exact Hafter|]. fold after in Hread. rewrite Hread. reflexivity.
Defined.

(** ** The loop of [generate_trend] *)

Section GatherFacts.

Context `{External}.

Lemma maximum_of_snoc (m r : Z) (ys : list Z) :
  maximum_of m ys -> maximum_of (if m <? r then r else m) (ys ++ [r]).
Proof.
  intros (M0 & Mle & Mmem). unfold maximum_of.
  rewrite Forall_app, Forall_singleton.
  destruct (m <? r) eqn:E.
  - split; [lia|]. split.
    + split; [|lia]. eapply Forall_impl; [exact Mle|]. cbn. intros; lia.
    + right. apply elem_of_app. right. apply list_elem_of_singleton. reflexivity.
  - split; [exact M0|]. split.
    + split; [exact Mle | lia].
    + destruct Mmem as [-> | Hin]; [left; reflexivity|].
      right. apply elem_of_app. left. exact Hin.
Qed.

Lemma gather_line_ok (st st' : gathered) (line : text) :
  gathered_ok st -> gather_line st line = Ok st' -> gathered_ok st'.
Proof.
  intros (Hx & Hmax & Hnd & Hlen & Hsub). unfold gather_line.
  destruct (match_data_pattern line) as [g|];
    [|intros [= <-]; exact (conj Hx (conj Hmax (conj Hnd (conj Hlen Hsub))))].
  intros Hst.
  apply bind_Ok in Hst as (r & _ & Hst).
  apply bind_Ok in Hst as (y & _ & Hst).
  apply bind_Ok in Hst as (m & _ & Hst).
  apply bind_Ok in Hst as (d & _ & Hst).
  apply bind_Ok in Hst as (date & _ & Hst).
  apply bind_Ok in Hst as (seconds & _ & Hst).
  apply bind_Ok in Hst as (s & _ & Hst).
  injection Hst as <-. unfold gathered_ok. cbn.
  split; [rewrite !length_app, Hx; reflexivity|].
  split; [apply maximum_of_snoc, Hmax|].
  destruct (bool_decide (strftime_B_Y date ∈ x_tick_text st)) eqn:K.
  - split; [exact Hnd|]. split; [exact Hlen|].
    apply sublist_inserts_r, Hsub.
  - apply bool_decide_eq_false in K.
    split; [|split].
    + apply NoDup_app. split; [exact Hnd|]. split; [|apply NoDup_singleton].
      intros x Hin Hx'. apply list_elem_of_singleton in Hx'. subst x. contradiction.
    + rewrite !length_app, Hlen. reflexivity.
    + apply sublist_app; [exact Hsub | reflexivity].
Qed.

Lemma gather_lines_ok (lines : list text) :
  forall st st', gathered_ok st -> gather_lines st lines = Ok st' -> gathered_ok st'.
Proof.
  induction lines as [|line lines IH]; intros st st' Hok; cbn [gather_lines].
  - intros [= <-]. exact Hok.
  - intros Hst. apply bind_Ok in Hst as (st1 & H1 & Hst).
    eapply IH; [|exact Hst]. eapply gather_line_ok; eassumption.
Qed.

(** X9.  Whatever the store holds, the data [generate_trend] gathers from
    it is consistent: as many x values as y values, [y_max] the greatest of
    0 and the y values, no month label twice among the ticks, as many tick
    values as tick labels, and the tick values taken, in order, from the x
    values. *)
Theorem gathered_data_is_consistent (content : text) (g : gathered) :
  gather content = Ok g ->
  length (x_axis g) = length (y_axis g)
  /\ maximum_of (y_max g) (y_axis g)
  /\ NoDup (x_tick_text g)
  /\ length (x_tick_vals g) = length (x_tick_text g)
  /\ sublist (x_tick_vals g) (x_axis g).
Proof.
  intros Hg. apply (gather_lines_ok (file_lines content) gathered_init g); [|exact Hg].
  unfold gathered_ok, maximum_of. cbn.
  repeat split; auto using NoDup_nil_2, Forall_nil_2. reflexivity.
Qed.

(** X10.  A line of the trend store that matches the pattern and whose date
    the constructor of [datetime] refuses makes [generate_trend] raise when
    it reaches it, and no chart is written: [ValueError] for a date that does
    not exist (a month 13, a 30th of February, a year 0), [OverflowError]
    when a field does not fit a C [int]. *)
Theorem impossible_date_stops_the_chart (self : ProjectTrend) (graph_name : text)
    (title_arg : option text) (fs : files) (content : text)
    (before after : list text) (line : text) (st : gathered) (g : groups)
    (e : exn) :
  fs !! trend_data self = Some content ->
  file_lines content = before ++ line :: after ->
  gather_lines gathered_init before = Ok st ->
  match_data_pattern line = Some g ->
  date_of_groups g = Raise e ->
  generate_trend self graph_name None title_arg fs = (Raise e, fs)
  /\ e = (if fits_int (digits_value (g_year g)) && fits_int (digits_value (g_month g))
             && fits_int (digits_value (g_day g))
          then ValueError else OverflowError).
Proof.
  intros Hfile Hlines Hbefore Hm Hd.
  split; [|apply (datetime_new_Raise _ _ _ e Hd)].
  unfold generate_trend. rewrite Hfile.
  unfold gather. rewrite Hlines, gather_lines_app, Hbefore. cbn.
  rewrite (gather_line_raises st line g e Hm Hd). reflexivity.
Qed.

End GatherFacts.

(** Three points in two months: three x values, the maximum 7, the two
    labels [January 2024] and [February 2024]. *)
Lemma gathered_data_is_consistent_witness :
  exists g,
    gather (H := sample_external)
      (txt "2024-01-01 = 5" ++ [LF] ++ txt "2024-01-08 = 7" ++ [LF]
       ++ txt "2024-02-05 = 3" ++ [LF]) = Ok g
    /\ length (x_axis g) = 3%nat
    /\ maximum_of (y_max g) [5; 7; 3]
    /\ NoDup (x_tick_text g)
    /\ x_tick_text g = [txt "January 2024"; txt "February 2024"]
    /\ length (x_tick_vals g) = 2%nat.
Proof.
  destruct (gather (H := sample_external)
              (txt "2024-01-01 = 5" ++ [LF] ++ txt "2024-01-08 = 7" ++ [LF]
               ++ txt "2024-02-05 = 3" ++ [LF])) as [g|e] eqn:E;
    [|vm_compute in E; discriminate].
  exists g. split; [reflexivity|].
  destruct (gathered_data_is_consistent (H := sample_external) _ g E)
    as (Hx & Hmax & Hnd & Hlen & _).
  assert (Hy : y_axis g = [5; 7; 3]) by (vm_compute in E; injection E as <-; reflexivity).
  assert (Ht : x_tick_text g = [txt "January 2024"; txt "February 2024"])
    by (vm_compute in E; injection E as <-; reflexivity).
  rewrite Hy in Hx, Hmax. rewrite Ht in Hlen.
  split; [exact Hx|]. split; [exact Hmax|]. split; [exact Hnd|].
  split; [exact Ht | exact Hlen].
Defined.

(** A store whose second line is dated 2024-02-30: [ValueError], no chart;
    a store whose only line has the year 99999999999: [OverflowError]. *)
Lemma impossible_date_stops_the_chart_witness :
  let fs := store_only (txt "2024-02-01 = 9" ++ [LF] ++ txt "2024-02-30 = 7" ++ [LF]
                        ++ txt "2024-03-07 = 5" ++ [LF]) in
  let far := store_only (txt "99999999999-01-01 = 5" ++ [LF]) in
  generate_trend (H := sample_external) sample_run (txt "figure") None None fs
  = (Raise ValueError, fs)
  /\ generate_trend (H := sample_external) sample_run (txt "figure") None None far
     = (Raise OverflowError, far).
Proof.
  intros fs far. split.
  - destruct (gather_lines (H := sample_external) gathered_init
                [txt "2024-02-01 = 9" ++ [LF]])
      as [st|e] eqn:E; [|vm_compute in E; discriminate].
    apply (impossible_date_stops_the_chart (H := sample_external) sample_run
             (txt "figure") None fs
             (txt "2024-02-01 = 9" ++ [LF] ++ txt "2024-02-30 = 7" ++ [LF]
              ++ txt "2024-03-07 = 5" ++ [LF])
             [txt "2024-02-01 = 9" ++ [LF]] [txt "2024-03-07 = 5" ++ [LF]]
             (txt "2024-02-30 = 7" ++ [LF]) st
             (mk_groups (txt "2024") (txt "02") (txt "30") (txt "7")) ValueError).
    + reflexivity.
    + reflexivity.
    + exact E.
    + reflexivity.
    + reflexivity.
  - apply (impossible_date_stops_the_chart (H := sample_external) sample_run
             (txt "figure") None far (txt "99999999999-01-01 = 5" ++ [LF])
             [] [] (txt "99999999999-01-01 = 5" ++ [LF]) gathered_init
             (mk_groups (txt "99999999999") (txt "01") (txt "01") (txt "5"))
             OverflowError).
    + reflexivity.
    + reflexivity.
    + reflexivity.
    + reflexivity.
    + reflexivity.
Defined.

(** ** The last point of the estimate *)

Section LastPointFacts.

Context `{External}.

Lemma date_of_text_groups (line : text) (g : groups) :
  match_data_pattern line = Some g -> date_of_text (g_date g) = date_of_groups g.
Proof.
  intros Hm.
  apply match_data_pattern_elim in Hm
    as (? & ? & ? & _ & [Hy1 Hy] & [Hm1 Hm] & [Hd1 Hd] & _).
  unfold date_of_text, g_date. change (txt "-") with ["-"%char]. cbn [app].
  rewrite (proj2 (split_on_dash_digits _ Hy)), (proj2 (split_on_dash_digits _ Hm)),
    (proj1 (split_on_dash_digits _ Hd)).
  rewrite !int_of_text_digits by assumption. reflexivity.
Qed.

Lemma matches_elem (lines : list text) (g : groups) :
  g ∈ matches lines -> exists line, line ∈ lines /\ match_data_pattern line = Some g.
Proof. unfold matches. intros Hg. apply list_elem_of_omap in Hg. exact Hg. Qed.

(** The last point, from the matches of the store. *)
Lemma last_point_of_matches (content : text) (gs : list groups) (g : groups) :
  matches (file_lines content) = gs ++ [g] ->
  ('(dates, data) ← read_points [] [] (file_lines content); last_point dates data)
  = (d ← date_of_groups g;
     Ok (mk_projection d (remaining_of g) (g_date <$> gs ++ [g])
                       (remaining_of <$> gs ++ [g]))).
Proof.
  intros Hmatches. rewrite read_points_spec, Hmatches. cbn. unfold last_point.
  assert (L : forall {A} (f : groups -> A), last (f <$> gs ++ [g]) = Some (f g))
    by (intros A f; rewrite fmap_app; apply last_snoc).
  rewrite !L.
  destruct (matches_elem (file_lines content) g) as (line & _ & Hline).
  { rewrite Hmatches. apply elem_of_app. right. apply list_elem_of_singleton.
    reflexivity. }
  rewrite (date_of_text_groups line g Hline). reflexivity.
Qed.

(** X11.  Of the dates of the trend store, [generate_estimated_trend]
    constructs only the one of the last matching line: the projection starts
    from that date and from the value of that line, with the dates of all the
    matching lines as texts; and when the constructor refuses that date the
    method raises its exception ([ValueError] for a date that does not
    exist, [OverflowError] for a field that does not fit a C [int]) and
    writes nothing. *)
Theorem estimate_checks_only_the_last_date (self : ProjectTrend) (k : Z)
    (fs : files) (content : text) (gs : list groups) (g : groups) :
  fs !! trend_data self = Some content ->
  matches (file_lines content) = gs ++ [g] ->
  ('(dates, data) ← read_points [] [] (file_lines content); last_point dates data)
  = (d ← date_of_groups g;
     Ok (mk_projection d (remaining_of g) (g_date <$> gs ++ [g])
                       (remaining_of <$> gs ++ [g])))
  /\ (forall e,
         date_of_groups g = Raise e ->
         generate_estimated_trend self k fs = (Raise e, fs)
         /\ e = (if fits_int (digits_value (g_year g))
                    && fits_int (digits_value (g_month g))
                    && fits_int (digits_value (g_day g))
                 then ValueError else OverflowError)).
Proof.
  intros Hfile Hmatches.
  pose proof (last_point_of_matches content gs g Hmatches) as Hlast.
  split; [exact Hlast|].
  intros e Hd. split; [|apply (datetime_new_Raise _ _ _ e Hd)].
  unfold generate_estimated_trend. rewrite Hfile.
  rewrite Hd in Hlast. cbn in Hlast.
  destruct (read_points [] [] (file_lines content)) as [[dates data]|e']; cbn in *.
  - rewrite Hlast. reflexivity.
  - rewrite Hlast || injection Hlast as ->; reflexivity.
Qed.

End LastPointFacts.

(** The impossible date last: no estimate; the impossible date first: the
    projection starts from the last line; a year of eleven digits last:
    [OverflowError]. *)
Lemma estimate_checks_only_the_last_date_witness :
  let bad_last := store_only (txt "2024-02-01 = 9" ++ [LF] ++ txt "2024-02-30 = 7") in
  let bad_first := txt "2024-02-30 = 9" ++ [LF] ++ txt "2024-03-07 = 7" in
  let far := store_only (txt "99999999999-01-01 = 5") in
  generate_estimated_trend (H := sample_external) sample_run 4 bad_last
  = (Raise ValueError, bad_last)
  /\ ('(dates, data) ← read_points [] [] (file_lines bad_first); last_point dates data)
     = Ok (mk_projection (mk_datetime 2024 3 7) 7
             [txt "2024-02-30"; txt "2024-03-07"] [9; 7])
  /\ generate_estimated_trend (H := sample_external) sample_run 4 far
     = (Raise OverflowError, far).
Proof.
  intros bad_last bad_first far. split; [|split].
  - destruct (estimate_checks_only_the_last_date (H := sample_external) sample_run 4
                bad_last (txt "2024-02-01 = 9" ++ [LF] ++ txt "2024-02-30 = 7")
                [mk_groups (txt "2024") (txt "02") (txt "01") (txt "9")]
                (mk_groups (txt "2024") (txt "02") (txt "30") (txt "7")))
      as [_ Hbad]; [reflexivity | reflexivity |].
    apply (Hbad ValueError). reflexivity.
  - destruct (estimate_checks_only_the_last_date (H := sample_external) sample_run 4
                (store_only bad_first) bad_first
                [mk_groups (txt "2024") (txt "02") (txt "30") (txt "9")]
                (mk_groups (txt "2024") (txt "03") (txt "07") (txt "7")))
      as [Hlast _]; [reflexivity | reflexivity |].
    rewrite Hlast. reflexivity.
  - destruct (estimate_checks_only_the_last_date (H := sample_external) sample_run 4
                far (txt "99999999999-01-01 = 5") []
                (mk_groups (txt "99999999999") (txt "01") (txt "01") (txt "5")))
      as [_ Hbad]; [reflexivity | reflexivity |].
    apply (Hbad OverflowError). reflexivity.
Defined.

(** ** Termination of the projection *)

Section TerminationFacts.

Lemma expand_loop_stable (k : Z) (n m : nat) (st : projection) :
  match expand_loop n k st with Running _ => False | _ => True end ->
  expand_loop (n + m) k st = expand_loop n k st.
Proof.
  intros Hn. rewrite expand_loop_add.
  destruct (expand_loop n k st); [reflexivity | reflexivity | contradiction].
Qed.

Lemma expand_loop_raises_overflow (k : Z) (fuel : nat) :
  forall st e st', expand_loop fuel k st = Raised e st' -> e = OverflowError.
Proof.
  induction fuel as [|fuel IH]; intros st e st'; cbn [expand_loop]; [discriminate|].
  unfold expand_step. destruct (0 <? last_remaining st); [|discriminate].
  unfold add_days. destruct (_ && _).
  - apply IH.
  - intros [= <- _]. reflexivity.
Qed.

Lemma expand_loop_finished (k : Z) (fuel : nat) :
  forall st st', expand_loop fuel k st = Finished st' -> last_remaining st' <= 0.
Proof.
  induction fuel as [|fuel IH]; intros st st'; cbn [expand_loop]; [discriminate|].
  unfold expand_step. destruct (0 <? last_remaining st) eqn:E.
  - destruct (add_days _ _); [apply IH | discriminate].
  - intros [= <-]. lia.
Qed.

(** X12.  The loop that expands the data ends for every integer decrement
    and every starting point: after [enough_fuel st] tests of its condition it has
    left, and more tests change nothing.  It leaves either normally, with a
    remaining value that is not positive, or with [OverflowError]; it raises
    no other exception. *)
Theorem projection_loop_always_ends (k : Z) (st : projection) :
  (forall fuel : nat,
      (enough_fuel st <= fuel)%nat ->
      expand_loop fuel k st = expand_loop (enough_fuel st) k st)
  /\ ((exists st', expand_loop (enough_fuel st) k st = Finished st'
                   /\ expand_data k st = Ok st' /\ last_remaining st' <= 0)
      \/ (exists st', expand_loop (enough_fuel st) k st = Raised OverflowError st'
                      /\ expand_data k st = Raise OverflowError)).
Proof.
  pose proof (expand_loop_ends k (enough_fuel st) st (Nat.le_refl _)) as Hends.
  split.
  - intros fuel Hfuel.
    replace fuel with (enough_fuel st + (fuel - enough_fuel st))%nat by lia.
    apply expand_loop_stable, Hends.
  - unfold expand_data.
    destruct (expand_loop (enough_fuel st) k st) as [st'|e st'|st'] eqn:E.
    + left. exists st'. repeat split. eapply expand_loop_finished, E.
    + right. exists st'. rewrite (expand_loop_raises_overflow _ _ _ _ _ E).
      split; reflexivity.
    + contradiction.
Qed.

End TerminationFacts.

(** ** The estimate store read back *)

Section EstimateFacts.

Context `{External}.

Lemma digit_value_range (c : ascii) : is_digit c = true -> 0 <= digit_value c <= 9.
Proof. unfold is_digit, digit_value. lia. Qed.

Lemma digits_value_nonneg (s : text) : all_digits s = true -> 0 <= digits_value s.
Proof.
  induction s as [|c s IH] using rev_ind; [intros _; reflexivity|].
  rewrite all_digits_app, digits_value_snoc. intros Hs.
  apply andb_prop in Hs as [Hs Hc]. cbn in Hc. rewrite andb_true_r in Hc.
  pose proof (digit_value_range c Hc). specialize (IH Hs). lia.
Qed.

Lemma groups_date_text (line : text) (g : groups) :
  match_data_pattern line = Some g -> date_text (g_date g) /\ 0 <= remaining_of g.
Proof.
  intros Hm.
  apply match_data_pattern_elim in Hm as (? & ? & ? & _ & Hy & Hm & Hd & [_ Hv] & _).
  split; [|apply digits_value_nonneg, Hv].
  exists (g_year g), (g_month g), (g_day g).
  split; [exact Hy|]. split; [exact Hm|]. split; [exact Hd|].
  unfold g_date. change (txt "-") with ["-"%char]. reflexivity.
Qed.

Lemma format_ymd_text (d : datetime) :
  valid_date d = true -> date_text (format_ymd d) /\ date_of_text (format_ymd d) = Ok d.
Proof.
  intros Hv. pose proof (valid_date_fields d Hv) as (Hy & Hm & Hd).
  destruct (text_of_Z_spec (year d) ltac:(lia)) as (Y1 & Y2 & Y3).
  destruct (text_of_Z_spec (month d) ltac:(lia)) as (M1 & M2 & M3).
  destruct (text_of_Z_spec (day d) ltac:(lia)) as (D1 & D2 & D3).
  unfold format_ymd. change (txt "-") with ["-"%char]. cbn [app]. split.
  - exists (text_of_Z (year d)), (text_of_Z (month d)), (text_of_Z (day d)).
    split; [split; assumption|]. split; [split; assumption|].
    split; [split; assumption | reflexivity].
  - unfold date_of_text.
    rewrite (proj2 (split_on_dash_digits _ Y2)), (proj2 (split_on_dash_digits _ M2)),
      (proj1 (split_on_dash_digits _ D2)).
    rewrite !int_of_text_digits by assumption. cbn. rewrite Y3, M3, D3.
    rewrite datetime_new_Ok by exact Hv. destruct d; reflexivity.
Qed.

Lemma estimate_line_match (date : text) (v : Z) :
  date_text date -> 0 <= v ->
  (exists g, match_data_pattern (estimate_line date v) = Some g
             /\ g_date g = date /\ remaining_of g = v)
  /\ closed_line (estimate_line date v).
Proof.
  intros (y & m & d & Hy & Hm & Hd & ->) Hv.
  destruct (text_of_Z_spec v Hv) as (V1 & V2 & V3).
  assert (Hline : estimate_line (y ++ "-"%char :: m ++ "-"%char :: d) v
                  = point_line y m d [" "%char] [" "%char] (text_of_Z v) [LF]).
  { unfold estimate_line, point_line.
    change (txt " = ") with [" "%char; "="%char; " "%char].
    repeat (rewrite <- app_assoc; cbn [app]). reflexivity. }
  split.
  - exists (mk_groups y m d (text_of_Z v)). rewrite Hline. split.
    + apply match_data_pattern_intro; try assumption; try reflexivity.
      split; assumption.
    + split; [reflexivity | exact V3].
  - destruct Hy as [_ Hy], Hm as [_ Hm], Hd as [_ Hd].
    split.
    + unfold estimate_line. change (txt " = ") with [" "%char; "="%char; " "%char].
      repeat first
        [ apply digits_no_CR; assumption | apply no_CR_cons; [reflexivity|]
        | apply no_CR_app | reflexivity ].
    + exists ((y ++ "-"%char :: m ++ "-"%char :: d) ++ txt " = " ++ text_of_Z v).
      split.
      * unfold estimate_line. repeat (rewrite <- app_assoc; cbn [app]). reflexivity.
      * change (txt " = ") with [" "%char; "="%char; " "%char].
        repeat first
          [ apply digits_no_LF; assumption | apply no_LF_cons; [reflexivity|]
          | apply no_LF_app | reflexivity ].
Qed.

Lemma lines_from_line (body rest : text) :
  no_LF body ->
  forall cur, lines_from cur (body ++ LF :: rest) = (cur ++ body ++ [LF]) :: lines_from [] rest.
Proof.
  unfold no_LF. induction body as [|c body IH]; cbn [forallb app lines_from]; intros Hb cur.
  - change (is_char LF LF) with true. reflexivity.
  - apply andb_prop in Hb as [Hc Hb]. destruct (is_char LF c); [discriminate|].
    rewrite (IH Hb). rewrite <- app_assoc. reflexivity.
Qed.

Lemma no_CR_concat (ls : list text) : Forall closed_line ls -> no_CR (concat ls).
Proof.
  induction 1 as [|l ls [Hl _] _ IH]; [reflexivity|].
  cbn [concat]. apply no_CR_app; assumption.
Qed.

(** A text made of closed lines is read as these lines. *)
Lemma file_lines_concat (ls : list text) :
  Forall closed_line ls -> file_lines (concat ls) = ls.
Proof.
  intros Hls. unfold file_lines, translate_newlines, split_lines.
  rewrite translate_from_no_CR by (apply no_CR_concat, Hls).
  induction Hls as [|l ls (_ & body & -> & Hbody) _ IH]; [reflexivity|].
  cbn [concat]. rewrite <- app_assoc. cbn [app].
  rewrite (lines_from_line body _ Hbody). cbn [app]. rewrite IH. reflexivity.
Qed.

Lemma estimate_lines_closed (dates : list text) :
  forall data,
    Forall date_text dates -> Forall (fun v => 0 <= v) data ->
    Forall closed_line (zip_with estimate_line dates data).
Proof.
  induction dates as [|date dates IH]; intros [|v data] Hd Hv; cbn [zip_with];
    try constructor.
  - apply estimate_line_match; [eapply Forall_inv, Hd | eapply Forall_inv, Hv].
  - apply IH; [eapply Forall_inv_tail, Hd | eapply Forall_inv_tail, Hv].
Qed.

Lemma estimate_lines_matches (dates : list text) :
  forall data,
    length dates = length data ->
    Forall date_text dates -> Forall (fun v => 0 <= v) data ->
    g_date <$> matches (zip_with estimate_line dates data) = dates
    /\ remaining_of <$> matches (zip_with estimate_line dates data) = data.
Proof.
  induction dates as [|date dates IH]; intros [|v data] Hlen Hd Hv; try discriminate.
  - split; reflexivity.
  - cbn [zip_with]. unfold matches. cbn [omap list_omap]. fold (matches (zip_with estimate_line dates data)).
    destruct (estimate_line_match date v) as [(g & -> & Hg1 & Hg2) _];
      [eapply Forall_inv, Hd | eapply Forall_inv, Hv |].
    destruct (IH data) as [E1 E2];
      [injection Hlen; auto | eapply Forall_inv_tail, Hd | eapply Forall_inv_tail, Hv |].
    cbn [fmap list_fmap]. fold (g_date <$> matches (zip_with estimate_line dates data)).
    fold (remaining_of <$> matches (zip_with estimate_line dates data)).
    rewrite Hg1, Hg2, E1, E2. split; reflexivity.
Qed.

Lemma expand_loop_ok (k : Z) (fuel : nat) :
  forall st st',
    projection_ok st -> expand_loop fuel k st = Finished st' -> projection_ok st'.
Proof.
  induction fuel as [|fuel IH]; intros st st' Hok; cbn [expand_loop]; [discriminate|].
  unfold expand_step. destruct (0 <? last_remaining st); [|intros [= <-]; exact Hok].
  unfold add_days.
  destruct ((0 <? toordinal (last_date st) + 7)
            && (toordinal (last_date st) + 7 <=? _MAXORDINAL)) eqn:E; [|discriminate].
  apply IH. destruct Hok as (Hlen & Hd & Hv & Hvalid).
  destruct (fromordinal_spec (toordinal (last_date st) + 7) ltac:(lia)) as [Hnew _].
  unfold projection_ok. cbn.
  split; [rewrite !length_app, Hlen; reflexivity|].
  split; [apply Forall_app; split; [exact Hd|]; apply Forall_singleton;
          apply format_ymd_text, Hnew|].
  split; [|exact Hnew].
  apply Forall_app. split; [exact Hv|]. apply Forall_singleton.
  destruct (_ <? 0) eqn:E'; lia.
Qed.

Lemma last_point_ok (lines : list text) (st0 : projection) :
  last_point (g_date <$> matches lines) (remaining_of <$> matches lines) = Ok st0 ->
  projection_ok st0.
Proof.
  intros Hlast. apply last_point_Ok in Hlast as (Hvalid & _ & _ & Hd & Hv).
  unfold projection_ok. rewrite Hd, Hv, !length_fmap. split; [reflexivity|].
  split; [|split; [|exact Hvalid]].
  - apply Forall_fmap, Forall_forall. intros g Hg.
    destruct (matches_elem lines g Hg) as (line & _ & Hline).
    apply (groups_date_text line g Hline).
  - apply Forall_fmap, Forall_forall. intros g Hg.
    destruct (matches_elem lines g Hg) as (line & _ & Hline).
    apply (groups_date_text line g Hline).
Qed.

Lemma expand_data_ok (k : Z) (st0 st : projection) :
  projection_ok st0 -> expand_data k st0 = Ok st -> projection_ok st.
Proof.
  intros Hok. unfold expand_data.
  destruct (expand_loop (enough_fuel st0) k st0) as [st'|e st'|st'] eqn:E;
    try discriminate.
  intros [= <-]. eapply expand_loop_ok; eassumption.
Qed.

Lemma estimate_store_lines (self : ProjectTrend) (k : Z) (fs : files)
    (content : text) (st0 st : projection) :
  fs !! trend_data self = Some content ->
  last_point (g_date <$> matches (file_lines content))
             (remaining_of <$> matches (file_lines content)) = Ok st0 ->
  expand_data k st0 = Ok st ->
  let est := content_of (estimate_data self) (generate_estimated_trend self k fs).2 in
  file_lines est = zip_with estimate_line (current_dates st) (current_data st)
  /\ g_date <$> matches (file_lines est) = current_dates st
  /\ remaining_of <$> matches (file_lines est) = current_data st.
Proof.
  intros Hfile Hlast Hexp est.
  assert (Hest : est = concat (zip_with estimate_line (current_dates st) (current_data st))).
  { unfold est, content_of.
    rewrite (generate_estimated_trend_writes self k fs content st0 st Hfile Hlast Hexp).
    reflexivity. }
  destruct (expand_data_ok k st0 st (last_point_ok _ _ Hlast) Hexp)
    as (Hlen & Hd & Hv & _).
  assert (Hlines : file_lines est
                   = zip_with estimate_line (current_dates st) (current_data st)).
  { rewrite Hest. apply file_lines_concat, estimate_lines_closed; assumption. }
  split; [exact Hlines|]. rewrite Hlines.
  apply estimate_lines_matches; assumption.
Qed.

(** X13.  What [generate_estimated_trend] writes to the estimate store is
    read back as it was meant: the file has one line per point, history and
    projection, and the reader returns the dates and the values of the
    series the loop has built, in order. *)
Theorem estimate_store_reads_back (self : ProjectTrend) (k : Z) (fs : files)
    (content : text) (st0 st : projection) :
  fs !! trend_data self = Some content ->
  last_point (g_date <$> matches (file_lines content))
             (remaining_of <$> matches (file_lines content)) = Ok st0 ->
  expand_data k st0 = Ok st ->
  let est := content_of (estimate_data self) (generate_estimated_trend self k fs).2 in
  file_lines est = zip_with estimate_line (current_dates st) (current_data st)
  /\ read_points [] [] (file_lines est) = Ok (current_dates st, current_data st).
Proof.
  intros Hfile Hlast Hexp est.
  destruct (estimate_store_lines self k fs content st0 st Hfile Hlast Hexp)
    as (Hlines & Hdates & Hdata).
  fold est in Hlines, Hdates, Hdata.
  split; [exact Hlines|].
  rewrite read_points_spec, Hdates, Hdata. reflexivity.
Qed.

(** X14.  The dates the projection writes without padding are read back as
    the same dates: the line written for a valid date [d] and a value [v]
    matches the pattern, its groups give [d] and [v], and the text of its
    date is parsed to [d]. *)
Theorem projected_date_reads_back (d : datetime) (v : Z) :
  valid_date d = true ->
  0 <= v ->
  exists g,
    match_data_pattern (estimate_line (format_ymd d) v) = Some g
    /\ g_date g = format_ymd d
    /\ date_of_text (g_date g) = Ok d
    /\ date_of_groups g = Ok d
    /\ remaining_of g = v.
Proof.
  intros Hd Hv. destruct (format_ymd_text d Hd) as [Htext Hparse].
  destruct (estimate_line_match (format_ymd d) v Htext Hv) as [(g & Hg & Hdate & Hrem) _].
  exists g. split; [exact Hg|]. split; [exact Hdate|].
  split; [rewrite Hdate; exact Hparse|]. split; [|exact Hrem].
  rewrite <- (date_of_text_groups _ g Hg), Hdate. exact Hparse.
Qed.

Lemma statuses_after_app (a b : list Z) :
  forall prev,
    statuses_after prev (a ++ b)
    = statuses_after prev a ++ statuses_after (default prev (last a)) b.
Proof.
  induction a as [|y a IH]; intros prev; cbn [app statuses_after]; [reflexivity|].
  rewrite IH. cbn [app]. do 2 f_equal.
  destruct a as [|z a]; [reflexivity|].
  change (last (y :: z :: a)) with (last (z :: a)).
  destruct (last (z :: a)) eqn:L; [reflexivity|].
  apply last_None in L. discriminate.
Qed.

Lemma expand_loop_better (k : Z) (Hk : 0 < k) (fuel : nat) :
  forall st st',
    expand_loop fuel k st = Finished st' ->
    exists vs,
      current_data st' = current_data st ++ vs
      /\ statuses_after (last_remaining st) vs = replicate (length vs) better.
Proof.
  induction fuel as [|fuel IH]; intros st st'; cbn [expand_loop]; [discriminate|].
  unfold expand_step. destruct (0 <? last_remaining st) eqn:E.
  - destruct (add_days (last_date st) 7) as [date|e]; [|discriminate].
    intros Hrun. apply IH in Hrun as (vs & Hdata & Hst). cbn in Hdata, Hst.
    eexists (_ :: vs). rewrite Hdata, <- app_assoc. split; [reflexivity|].
    cbn [statuses_after length replicate]. rewrite Hst. f_equal.
    unfold status_after. destruct (last_remaining st - k <? 0) eqn:E'.
    + rewrite E. reflexivity.
    + destruct (last_remaining st - k <? last_remaining st) eqn:E'';
        [reflexivity | lia].
  - intros [= <-]. exists []. rewrite app_nil_r. split; reflexivity.
Qed.

(** X15.  In the chart of the estimate, with a positive decrement, the
    points of the history keep the statuses their values give them and
    every projected point has the status [better]. *)
Theorem projected_points_are_better (self : ProjectTrend) (k : Z) (fs : files)
    (content : text) (st0 st : projection) (g : gathered) :
  fs !! trend_data self = Some content ->
  last_point (g_date <$> matches (file_lines content))
             (remaining_of <$> matches (file_lines content)) = Ok st0 ->
  0 < k ->
  expand_data k st0 = Ok st ->
  gather (content_of (estimate_data self) (generate_estimated_trend self k fs).2) = Ok g ->
  y_axis g = current_data st
  /\ status g
     = derived_statuses (current_data st0)
       ++ replicate (length (current_data st) - length (current_data st0)) better.
Proof.
  intros Hfile Hlast Hk Hexp Hg.
  destruct (estimate_store_lines self k fs content st0 st Hfile Hlast Hexp)
    as (_ & _ & Hvalues).
  assert (Hy : y_axis g = current_data st).
  { apply gather_lines_y_axis in Hg as [-> _]. cbn [app y_axis gathered_init].
    exact Hvalues. }
  split; [exact Hy|].
  assert (Hs : status g = derived_statuses (y_axis g))
    by (eapply (gather_lines_status _ gathered_init g); [reflexivity | exact Hg]).
  rewrite Hs, Hy.
  unfold expand_data in Hexp.
  destruct (expand_loop (enough_fuel st0) k st0) as [st'|e st'|st'] eqn:E;
    try discriminate.
  injection Hexp as ->.
  destruct (expand_loop_better k Hk _ _ _ E) as (vs & Hdata & Hbetter).
  rewrite Hdata, length_app. replace (_ + _ - _)%nat with (length vs) by lia.
  apply last_point_Ok in Hlast as (_ & Hlastv & _ & _ & Hdata0).
  rewrite Hdata0 in *.
  destruct (remaining_of <$> matches (file_lines content)) as [|y ys] eqn:Eys;
    [discriminate|].
  cbn [app derived_statuses]. rewrite statuses_after_app. cbn [app]. do 2 f_equal.
  rewrite <- Hbetter. f_equal.
  destruct ys as [|z ys]; cbn in Hlastv |- *; [congruence|].
  rewrite Hlastv. reflexivity.
Qed.



(** X17.  A run with [--add] charts and projects today's total: after
    [add_datapoint], the chart has the total as its last value and the
    projection starts from today's date and the total, behind the points the
    store held. *)
Theorem run_with_add_starts_from_today (self : ProjectTrend) (now : datetime)
    (fs : files) (total : num) (n : Z) :
  total_remaining (cards self) = Ok total ->
  int_of_num total = Ok n ->
  0 <= n ->
  valid_date now = true ->
  let old := matches (file_lines (content_of (trend_data self) fs)) in
  let content := content_of (trend_data self) (add_datapoint self now fs).2 in
  ('(dates, data) ← read_points [] [] (file_lines content); last_point dates data)
  = Ok (mk_projection now n ((g_date <$> old) ++ [strftime_Ymd now])
                      ((remaining_of <$> old) ++ [n]))
  /\ (forall g, gather content = Ok g -> y_axis g = (remaining_of <$> old) ++ [n]).
Proof.
  intros Htotal Hint Hn Hnow old content.
  destruct (record_of_match now n Hnow Hn) as (Hm & Hcr & Hlf & Hdate & Hrem).
  assert (Hcontent : content = content_of (trend_data self) fs ++ LF :: record_of now n).
  { unfold content, add_datapoint. rewrite Htotal.
    apply (append_datapoint_content self now total n fs Hint). }
  assert (Hmatches : matches (file_lines content) = old ++ [date_groups now n]).
  { rewrite Hcontent. apply matches_append_record; assumption. }
  assert (Hd : date_of_groups (date_groups now n) = Ok now).
  { rewrite <- (date_of_text_groups _ _ Hm), Hdate. apply date_of_text_strftime, Hnow. }
  split.
  - rewrite (last_point_of_matches content old _ Hmatches), Hd.
    cbn [mbind result_bind]. rewrite !fmap_app. cbn [fmap list_fmap].
    rewrite Hdate, Hrem. reflexivity.
  - intros g Hg. apply gather_lines_y_axis in Hg as [-> _].
    rewrite Hmatches, fmap_app. cbn [y_axis gathered_init app fmap list_fmap].
    rewrite Hrem. reflexivity.
Qed.

End EstimateFacts.


(** A board with one card of three days, on 2024-01-08, over a store with
    one point: the projection starts from (2024-01-08, 3). *)
Lemma run_with_add_starts_from_today_witness :
  let trend := init_snapshot [mk_item "f1" "Remaining"] [] [] in
  let card := normalize_card trend (mk_card "c1" "a" "b1" [])
                [mk_field_item "f1" (JObj [("number", JStr "3")])] in
  let self := mk_ProjectTrend (txt "Board") trend [card] (txt "/opt/trend") in
  let now := mk_datetime 2024 1 8 in
  let content :=
    content_of (trend_data self)
      (add_datapoint (H := sample_external) self now
                     (store_only (txt "2024-01-01 = 10"))).2 in
  ('(dates, data) ← read_points [] [] (file_lines content); last_point dates data)
  = Ok (mk_projection now 3 [txt "2024-01-01"; txt "2024-01-08"] [10; 3]).
Proof.
  intros trend card self now content.
  destruct (run_with_add_starts_from_today (H := sample_external) self now
              (store_only (txt "2024-01-01 = 10")) (NFloat 3%float) 3)
    as [Hstart _].
  - reflexivity.
  - reflexivity.
  - lia.
  - reflexivity.
  - fold content in Hstart. rewrite Hstart. reflexivity.
Defined.

(** The store [2024-02-01 = 9] with the decrement 4: the estimate store
    reads back as the four points of the series. *)
Lemma estimate_store_reads_back_witness :
  let fs := store_only (txt "2024-02-01 = 9") in
  let est := content_of (estimate_data sample_run)
               (generate_estimated_trend (H := sample_external) sample_run 4 fs).2 in
  read_points [] [] (file_lines est)
  = Ok ([txt "2024-02-01"; txt "2024-2-8"; txt "2024-2-15"; txt "2024-2-22"],
        [9; 5; 1; 0]).
Proof.
  intros fs est.
  destruct (estimate_store_reads_back (H := sample_external) sample_run 4 fs
              (txt "2024-02-01 = 9")
              (mk_projection (mk_datetime 2024 2 1) 9 [txt "2024-02-01"] [9])
              (mk_projection (mk_datetime 2024 2 22) 0
                 [txt "2024-02-01"; txt "2024-2-8"; txt "2024-2-15"; txt "2024-2-22"]
                 [9; 5; 1; 0]))
    as [_ Hread]; [reflexivity | reflexivity | reflexivity |].
  exact Hread.
Defined.

(** The line written for the eighth of February 2024 with the value 5. *)
Lemma projected_date_reads_back_witness :
  exists g,
    match_data_pattern (txt "2024-2-8 = 5" ++ [LF]) = Some g
    /\ date_of_groups g = Ok (mk_datetime 2024 2 8)
    /\ remaining_of g = 5.
Proof.
  destruct (projected_date_reads_back (mk_datetime 2024 2 8) 5)
    as (g & Hg & _ & _ & Hdate & Hrem); [reflexivity | lia |].
  exists g. split; [exact Hg|]. split; [exact Hdate | exact Hrem].
Defined.

(** The store [10, 12] with the decrement 5: the chart of the estimate
    marks the history [start], [worse] and the three projected points
    [better]. *)
Lemma projected_points_are_better_witness :
  let fs := store_only (txt "2024-01-01 = 10" ++ [LF] ++ txt "2024-01-08 = 12") in
  exists g,
    gather (H := sample_external)
      (content_of (estimate_data sample_run)
         (generate_estimated_trend (H := sample_external) sample_run 5 fs).2) = Ok g
    /\ y_axis g = [10; 12; 7; 2; 0]
    /\ status g = [start; worse; better; better; better].
Proof.
  intros fs.
  destruct (gather (H := sample_external)
              (content_of (estimate_data sample_run)
                 (generate_estimated_trend (H := sample_external) sample_run 5 fs).2))
    as [g|e] eqn:E; [|vm_compute in E; discriminate].
  exists g. split; [reflexivity|].
  destruct (projected_points_are_better (H := sample_external) sample_run 5 fs
              (txt "2024-01-01 = 10" ++ [LF] ++ txt "2024-01-08 = 12")
              (mk_projection (mk_datetime 2024 1 8) 12
                 [txt "2024-01-01"; txt "2024-01-08"] [10; 12])
              (mk_projection (mk_datetime 2024 1 29) 0
                 [txt "2024-01-01"; txt "2024-01-08"; txt "2024-1-15"; txt "2024-1-22";
                  txt "2024-1-29"]
                 [10; 12; 7; 2; 0]) g)
    as [Hy Hs]; [reflexivity | reflexivity | lia | reflexivity | exact E |].
  split; [exact Hy | exact Hs].
Defined.

(** ** Which projected lines are in the padded format *)

Section PaddingFacts.

Lemma digits_of_S (fuel : nat) (n : Z) (acc : text) :
  digits_of (S fuel) n acc
  = if n <? 10 then digit_char (n mod 10) :: acc
    else digits_of fuel (n / 10) (digit_char (n mod 10) :: acc).
Proof. reflexivity. Qed.

Lemma digits_of_length (fuel : nat) :
  forall (n : Z) (acc : text) (w : nat),
    0 <= n < 2 ^ Z.of_nat (S fuel) ->
    n < 10 ^ Z.of_nat (S w) ->
    (w = 0%nat \/ 10 ^ Z.of_nat w <= n) ->
    length (digits_of (S fuel) n acc) = (S w + length acc)%nat.
Proof.
  induction fuel as [|fuel IH]; intros n acc w Hn Hlt Hge; rewrite digits_of_S.
  - change (2 ^ Z.of_nat 1) with 2 in Hn.
    destruct (n <? 10) eqn:E; [|lia].
    destruct Hge as [-> | Hge]; [reflexivity|].
    destruct w as [|w]; [reflexivity|].
    rewrite Nat2Z.inj_succ, Z.pow_succ_r in Hge by lia.
    pose proof (Z.pow_pos_nonneg 10 (Z.of_nat w) ltac:(lia) ltac:(lia)). lia.
  - destruct (n <? 10) eqn:E.
    + destruct Hge as [-> | Hge]; [reflexivity|].
      destruct w as [|w]; [reflexivity|].
      rewrite Nat2Z.inj_succ, Z.pow_succ_r in Hge by lia.
      pose proof (Z.pow_pos_nonneg 10 (Z.of_nat w) ltac:(lia) ltac:(lia)). lia.
    + destruct w as [|w]; [change (10 ^ Z.of_nat 1) with 10 in Hlt; lia|].
      destruct Hge as [Hw | Hge]; [discriminate|].
      rewrite (Nat2Z.inj_succ (S w)), Z.pow_succ_r in Hlt by lia.
      rewrite (Nat2Z.inj_succ w), Z.pow_succ_r in Hge by lia.
      rewrite (Nat2Z.inj_succ (S fuel)), Z.pow_succ_r in Hn by lia.
      pose proof (Z.pow_pos_nonneg 10 (Z.of_nat w) ltac:(lia) ltac:(lia)) as Hpos.
      rewrite (IH (n / 10) _ w).
      * cbn [length]. lia.
      * generalize dependent (2 ^ Z.of_nat (S fuel)). intros p Hp.
        split; [apply Z.div_pos; lia|].
        apply Z.div_lt_upper_bound; lia.
      * rewrite (Nat2Z.inj_succ w), Z.pow_succ_r in Hlt |- * by lia.
        apply Z.div_lt_upper_bound; lia.
      * right. apply Z.div_le_lower_bound; lia.
Qed.

Lemma text_of_Z_length (n : Z) (w : nat) :
  0 <= n -> n < 10 ^ Z.of_nat (S w) -> (w = 0%nat \/ 10 ^ Z.of_nat w <= n) ->
  length (text_of_Z n) = S w.
Proof.
  intros Hn Hlt Hge. unfold text_of_Z. destruct (n <? 0) eqn:E; [lia|].
  rewrite (digits_of_length _ n [] w); [cbn; lia | | exact Hlt | exact Hge].
  split; [lia|].
  rewrite Nat2Z.inj_succ, Z2Nat.id by apply Z.log2_nonneg.
  destruct (Z.eq_dec n 0) as [->|]; [reflexivity|].
  apply Z.log2_spec. lia.
Qed.

(** The number of digits of a number below 10000. *)
Lemma text_of_Z_length_small (n : Z) :
  0 <= n < 10000 ->
  length (text_of_Z n)
  = if n <? 10 then 1%nat else if n <? 100 then 2%nat
    else if n <? 1000 then 3%nat else 4%nat.
Proof.
  intros Hn.
  destruct (n <? 10) eqn:E1; [apply (text_of_Z_length n 0); [lia | | left; reflexivity];
                              change (10 ^ Z.of_nat 1) with 10; lia|].
  destruct (n <? 100) eqn:E2; [apply (text_of_Z_length n 1); [lia | | right];
                               [change (10 ^ Z.of_nat 2) with 100
                               | change (10 ^ Z.of_nat 1) with 10]; lia|].
  destruct (n <? 1000) eqn:E3; [apply (text_of_Z_length n 2); [lia | | right];
                                [change (10 ^ Z.of_nat 3) with 1000
                                | change (10 ^ Z.of_nat 2) with 100]; lia|].
  apply (text_of_Z_length n 3); [lia | | right];
    [change (10 ^ Z.of_nat 4) with 10000 | change (10 ^ Z.of_nat 3) with 1000]; lia.
Qed.

Lemma estimate_line_groups (d : datetime) (v : Z) :
  valid_date d = true -> 0 <= v ->
  match_data_pattern (estimate_line (format_ymd d) v)
  = Some (mk_groups (text_of_Z (year d)) (text_of_Z (month d)) (text_of_Z (day d))
                    (text_of_Z v)).
Proof.
  intros Hd Hv. pose proof (valid_date_fields d Hd) as (Hy & Hm & Hday).
  destruct (text_of_Z_spec (year d) ltac:(lia)) as (Y1 & Y2 & _).
  destruct (text_of_Z_spec (month d) ltac:(lia)) as (M1 & M2 & _).
  destruct (text_of_Z_spec (day d) ltac:(lia)) as (D1 & D2 & _).
  destruct (text_of_Z_spec v Hv) as (V1 & V2 & _).
  assert (Hline : estimate_line (format_ymd d) v
                  = point_line (text_of_Z (year d)) (text_of_Z (month d))
                               (text_of_Z (day d)) [" "%char] [" "%char]
                               (text_of_Z v) [LF]).
  { unfold estimate_line, format_ymd, point_line.
    change (txt "-") with ["-"%char].
    change (txt " = ") with [" "%char; "="%char; " "%char].
    repeat (rewrite <- app_assoc; cbn [app]). reflexivity. }
  rewrite Hline.
  apply match_data_pattern_intro; try reflexivity; split; assumption.
Qed.

(** X18.  The line the projection writes for a date is in the format
    [YYYY-MM-DD = <int>] exactly when the year has four digits and the month
    and the day have two: from year 1000 on, in October, November and
    December, from the 10th of the month on. *)
Theorem projected_line_padded_iff (d : datetime) (v : Z) :
  valid_date d = true ->
  0 <= v ->
  iso_point_line (estimate_line (format_ymd d) v)
  = (1000 <=? year d) && (10 <=? month d) && (10 <=? day d).
Proof.
  intros Hd Hv. unfold iso_point_line. rewrite (estimate_line_groups d v Hd Hv).
  cbn [g_year g_month g_day].
  assert (Hf : 1 <= year d <= 9999 /\ 1 <= month d <= 12 /\ 1 <= day d <= 31).
  { unfold valid_date, valid_ymd, MINYEAR, MAXYEAR in Hd.
    assert (Hdim : _days_in_month (year d) (month d) <= 31).
    { unfold _days_in_month.
      assert (Hm : month d = 1 \/ month d = 2 \/ month d = 3 \/ month d = 4
                   \/ month d = 5 \/ month d = 6 \/ month d = 7 \/ month d = 8
                   \/ month d = 9 \/ month d = 10 \/ month d = 11 \/ month d = 12)
        by lia.
      repeat (destruct Hm as [-> | Hm]); try rewrite Hm;
        destruct (_is_leap (year d)); vm_compute; discriminate. }
    lia. }
  destruct Hf as (Hy & Hm & Hday).
  rewrite !text_of_Z_length_small by lia.
  repeat match goal with
         | |- context [?a <? ?b] => destruct (a <? b) eqn:?
         end; cbn; lia.
Qed.

End PaddingFacts.

(** The thirteenth of October 2024 is written padded, the eighth of
    February is not. *)
Lemma projected_line_padded_iff_witness :
  iso_point_line (estimate_line (format_ymd (mk_datetime 2024 10 13)) 5) = true
  /\ iso_point_line (estimate_line (format_ymd (mk_datetime 2024 2 8)) 5) = false.
Proof.
  split.
  - rewrite (projected_line_padded_iff (mk_datetime 2024 10 13) 5); [reflexivity | reflexivity | lia].
  - rewrite (projected_line_padded_iff (mk_datetime 2024 2 8) 5); [reflexivity | reflexivity | lia].
Defined.

(** ** The board, the report card and the upload *)

Section TrelloFacts.

Context `{Service}.

Lemma first_board_found (bs1 bs2 : list json) (b : json) (name : string) :
  Forall (fun b' => exists n, subscript b' "name" = Ok n /\ equals_str n name = false)
         bs1 ->
  subscript b "name" = Ok (JStr name) ->
  first_board (bs1 ++ b :: bs2) name = Ok b.
Proof.
  intros Hbs Hb. induction Hbs as [|b' bs1 (n & Hn & Hne) _ IH]; cbn [app first_board].
  - rewrite Hb. cbn. rewrite String.eqb_refl. reflexivity.
  - rewrite Hn. cbn. rewrite Hne. exact IH.
Qed.

Lemma first_board_none (bs : list json) (name : string) :
  Forall (fun b' => exists n, subscript b' "name" = Ok n /\ equals_str n name = false)
         bs ->
  first_board bs name = Ok JNull.
Proof.
  induction 1 as [|b' bs (n & Hn & Hne) _ IH]; cbn [first_board]; [reflexivity|].
  rewrite Hn. cbn. rewrite Hne. exact IH.
Qed.

Lemma subscript_truthy (b : json) (k : string) (v : json) :
  subscript b k = Ok v -> truthy b = true.
Proof.
  destruct b as [| | | | |l|o]; try discriminate.
  destruct o as [|kv o]; [discriminate | reflexivity].
Qed.

(** X19.  [__init__] takes the first board of the response whose name is
    exactly the configured name, with the case of its letters; it raises
    [ValueError] when no board has that name and [TypeError] when the
    response is not JSON. *)
Theorem board_is_first_exact_match (raw : json) (name : string) :
  (forall bs1 b bs2 id,
      elements raw = Ok (bs1 ++ b :: bs2) ->
      Forall (fun b' => exists n, subscript b' "name" = Ok n
                                  /\ equals_str n name = false) bs1 ->
      subscript b "name" = Ok (JStr name) ->
      subscript b "id" = Ok id ->
      project_board raw name = Ok (b, id))
  /\ (forall bs,
         elements raw = Ok bs ->
         Forall (fun b' => exists n, subscript b' "name" = Ok n
                                     /\ equals_str n name = false) bs ->
         project_board raw name = Raise ValueError)
  /\ (raw = JNull -> project_board raw name = Raise TypeError).
Proof.
  split; [|split].
  - intros bs1 b bs2 id Hraw Hbs Hb Hid. unfold project_board, get_board_with_name.
    rewrite Hraw. cbn. rewrite (first_board_found bs1 bs2 b name Hbs Hb). cbn.
    rewrite (subscript_truthy b "id" id Hid), Hid. reflexivity.
  - intros bs Hraw Hbs. unfold project_board, get_board_with_name.
    rewrite Hraw. cbn. rewrite (first_board_none bs name Hbs). reflexivity.
  - intros ->. reflexivity.
Qed.

(** X20.  The report card is the answer to one request, for the first card
    whose name is exactly [Weekly Report]; later cards of that name are not
    asked for. *)
Theorem report_card_is_first_named (cs1 cs2 : list card_record) (c : card_record)
    (id : json) (log : list request) :
  Forall (fun c' => exists n, attribute c' "name" = Ok n
                              /\ equals_str n "Weekly Report" = false) cs1 ->
  attribute c "name" = Ok (JStr "Weekly Report") ->
  attribute c "id" = Ok id ->
  report_card_of (cs1 ++ c :: cs2) log = (respond log (GetCard id), log ++ [GetCard id]).
Proof.
  intros Hcs Hc Hid. unfold report_card_of.
  induction Hcs as [|c' cs1 (n & Hn & Hne) _ IH]; cbn [app get_card_by_name].
  - unfold mbind, api_mbind, api_bind, lift. rewrite Hc. cbn. rewrite Hid. reflexivity.
  - unfold mbind, api_mbind, api_bind, lift. rewrite Hn, Hne. exact IH.
Qed.

(** X21.  When no card is named [Weekly Report], the report card is [None]
    without any request, and [add_trends_to_trello] then does nothing: no
    request, no file read, no exception. *)
Theorem no_report_card_no_upload (cards : list card_record) (path : text)
    (fs : files) (log : list request) :
  Forall (fun c' => exists n, attribute c' "name" = Ok n
                              /\ equals_str n "Weekly Report" = false) cards ->
  report_card_of cards log = (Ok JNull, log)
  /\ (rc ← report_card_of cards; add_trends_to_trello rc path fs) log = (Ok (), log).
Proof.
  intros Hcs.
  assert (Hrc : report_card_of cards log = (Ok JNull, log)).
  { unfold report_card_of.
    induction Hcs as [|c' cs (n & Hn & Hne) _ IH]; cbn [get_card_by_name]; [reflexivity|].
    unfold mbind, api_mbind, api_bind, lift. rewrite Hn, Hne. exact IH. }
  split; [exact Hrc|].
  unfold mbind, api_mbind, api_bind. rewrite Hrc. reflexivity.
Qed.

Lemma delete_attachments_log (id : json) (l aids : list json) :
  Forall2 (fun a aid => subscript a "id" = Ok aid) l aids ->
  (forall log req, exists j, respond log req = Ok j) ->
  forall log,
    delete_attachments id l log = (Ok (), log ++ (DeleteAttachment id <$> aids)).
Proof.
  intros Hl Hok. induction Hl as [|a aid l aids Ha _ IH]; intros log;
    cbn [delete_attachments fmap list_fmap].
  - rewrite app_nil_r. reflexivity.
  - unfold mbind, api_mbind, api_bind, lift, delete_attachment, send. rewrite Ha.
    destruct (Hok log (DeleteAttachment id aid)) as [j ->].
    rewrite IH, <- app_assoc. reflexivity.
Qed.

Lemma upload_prefix (rc id atts : json) (l aids : list json) (path : text)
    (fs : files) (log : list request) :
  truthy rc = true ->
  subscript rc "id" = Ok id ->
  respond log (GetAttachments id) = Ok atts ->
  elements atts = Ok l ->
  Forall2 (fun a aid => subscript a "id" = Ok aid) l aids ->
  (forall log req, exists j, respond log req = Ok j) ->
  add_trends_to_trello rc path fs log
  = (_ ← add_attachment fs id (path_join path (txt "figure.png")) true;
     _ ← add_attachment fs id (path_join path (txt "estimate.png")) false;
     api_ret ())
      (log ++ GetAttachments id :: (DeleteAttachment id <$> aids)).
Proof.
  intros Hrc Hid Hatts Hl Haids Hok. unfold add_trends_to_trello. rewrite Hrc.
  unfold mbind at 1 2 3 4, api_mbind, api_bind at 1 2 3 4, lift, get_all_attachments, send.
  rewrite Hid, Hatts, Hl, (delete_attachments_log id l aids Haids Hok).
  rewrite <- app_assoc. reflexivity.
Qed.

(** X22.  With a report card, [add_trends_to_trello] asks for the
    attachments of the card, deletes every one of them in the order of the
    response, and only then uploads the two charts: [figure.png] as the
    cover, then [estimate.png], each with the content of its file in the
    directory of the script. *)
Theorem upload_replaces_attachments (rc id atts : json) (l aids : list json)
    (path : text) (fs : files) (png est : text) (log : list request) :
  truthy rc = true ->
  subscript rc "id" = Ok id ->
  respond log (GetAttachments id) = Ok atts ->
  elements atts = Ok l ->
  Forall2 (fun a aid => subscript a "id" = Ok aid) l aids ->
  (forall log req, exists j, respond log req = Ok j) ->
  fs !! path_join path (txt "figure.png") = Some png ->
  fs !! path_join path (txt "estimate.png") = Some est ->
  add_trends_to_trello rc path fs log
  = (Ok (),
     log ++ GetAttachments id :: (DeleteAttachment id <$> aids)
         ++ [PostAttachment id (path_join path (txt "figure.png")) png "true";
             PostAttachment id (path_join path (txt "estimate.png")) est "false"]).
Proof.
  intros Hrc Hid Hatts Hl Haids Hok Hpng Hest.
  rewrite (upload_prefix rc id atts l aids path fs log Hrc Hid Hatts Hl Haids Hok).
  unfold mbind, api_mbind, api_bind, add_attachment, send. rewrite Hpng, Hest.
  destruct (Hok (log ++ GetAttachments id :: (DeleteAttachment id <$> aids))
                (PostAttachment id (path_join path (txt "figure.png")) png
                                (setCover_of true))) as [j1 ->].
  destruct (Hok ((log ++ GetAttachments id :: (DeleteAttachment id <$> aids))
                 ++ [PostAttachment id (path_join path (txt "figure.png")) png
                                    (setCover_of true)])
                (PostAttachment id (path_join path (txt "estimate.png")) est
                                (setCover_of false))) as [j2 ->].
  unfold api_ret. f_equal. rewrite <- !app_assoc. reflexivity.
Qed.

(** X23.  When [figure.png] is not in the directory of the script,
    [add_trends_to_trello] raises [FileNotFoundError] after it has deleted
    every attachment of the report card: the card is left without charts.
    When only [estimate.png] is missing, the cover has been uploaded
    before the exception. *)
Theorem missing_chart_leaves_card_bare (rc id atts : json) (l aids : list json)
    (path : text) (fs : files) (log : list request) :
  truthy rc = true ->
  subscript rc "id" = Ok id ->
  respond log (GetAttachments id) = Ok atts ->
  elements atts = Ok l ->
  Forall2 (fun a aid => subscript a "id" = Ok aid) l aids ->
  (forall log req, exists j, respond log req = Ok j) ->
  (fs !! path_join path (txt "figure.png") = None ->
   add_trends_to_trello rc path fs log
   = (Raise FileNotFoundError,
      log ++ GetAttachments id :: (DeleteAttachment id <$> aids)))
  /\ (forall png,
         fs !! path_join path (txt "figure.png") = Some png ->
         fs !! path_join path (txt "estimate.png") = None ->
         add_trends_to_trello rc path fs log
         = (Raise FileNotFoundError,
            log ++ GetAttachments id :: (DeleteAttachment id <$> aids)
                ++ [PostAttachment id (path_join path (txt "figure.png")) png "true"])).
Proof.
  intros Hrc Hid Hatts Hl Haids Hok.
  rewrite (upload_prefix rc id atts l aids path fs log Hrc Hid Hatts Hl Haids Hok).
  unfold mbind, api_mbind, api_bind, add_attachment, send, lift. split.
  - intros ->. reflexivity.
  - intros png -> ->.
    destruct (Hok (log ++ GetAttachments id :: (DeleteAttachment id <$> aids))
                  (PostAttachment id (path_join path (txt "figure.png")) png
                                  (setCover_of true))) as [j1 ->].
    f_equal. rewrite <- !app_assoc. reflexivity.
Qed.

End TrelloFacts.

(** Three cards, the last two named [Weekly Report]: one request, for the
    second card. *)
Lemma report_card_is_first_named_witness :
  let blank := init_snapshot [] [] [] in
  let task := normalize_card blank (mk_card "c1" "Task" "b1" []) [] in
  let report := normalize_card blank (mk_card "c2" "Weekly Report" "b1" []) [] in
  let other := normalize_card blank (mk_card "c3" "Weekly Report" "b1" []) [] in
  report_card_of (H := sample_service) [task; report; other] []
  = (Ok (JObj [("id", JStr "c2"); ("name", JStr "Weekly Report")]),
     [GetCard (JStr "c2")]).
Proof.
  intros blank task report other.
  refine (report_card_is_first_named (H := sample_service) [task] [other] report
            (JStr "c2") [] _ _ _).
  - constructor; [|constructor]. exists (JStr "Task"). split; reflexivity.
  - reflexivity.
  - reflexivity.
Defined.

(** A board whose only card is a task: nothing is sent. *)
Lemma no_report_card_no_upload_witness :
  let task := normalize_card (init_snapshot [] [] []) (mk_card "c1" "Task" "b1" []) [] in
  (rc ← report_card_of (H := sample_service) [task];
   add_trends_to_trello (H := sample_service) rc (txt "/opt/trend") ∅) []
  = (Ok (), []).
Proof.
  intros task.
  apply (no_report_card_no_upload (H := sample_service) [task] (txt "/opt/trend") ∅ []).
  constructor; [|constructor]. exists (JStr "Task"). split; reflexivity.
Defined.

(** A report card with two attachments and both charts in [/opt/trend]:
    five requests, the deletions before the uploads. *)
Lemma upload_replaces_attachments_witness :
  let rc := JObj [("id", JStr "c2"); ("name", JStr "Weekly Report")] in
  let fs : files :=
    <[txt "/opt/trend/figure.png" := txt "PNG1"]>
      (<[txt "/opt/trend/estimate.png" := txt "PNG2"]> ∅) in
  add_trends_to_trello (H := sample_service) rc (txt "/opt/trend") fs []
  = (Ok (),
     [GetAttachments (JStr "c2");
      DeleteAttachment (JStr "c2") (JStr "a1");
      DeleteAttachment (JStr "c2") (JStr "a2");
      PostAttachment (JStr "c2") (txt "/opt/trend/figure.png") (txt "PNG1") "true";
      PostAttachment (JStr "c2") (txt "/opt/trend/estimate.png") (txt "PNG2") "false"]).
Proof.
  intros rc fs.
  apply (upload_replaces_attachments (H := sample_service) rc (JStr "c2")
           (JList [JObj [("id", JStr "a1")]; JObj [("id", JStr "a2")]])
           [JObj [("id", JStr "a1")]; JObj [("id", JStr "a2")]]
           [JStr "a1"; JStr "a2"] (txt "/opt/trend") fs (txt "PNG1") (txt "PNG2") []).
  - reflexivity.
  - reflexivity.
  - reflexivity.
  - reflexivity.
  - constructor; [reflexivity|]. constructor; [reflexivity | constructor].
  - intros log req. destruct req; eexists; reflexivity.
  - reflexivity.
  - reflexivity.
Defined.

(** The same card when [/opt/trend] holds no chart: the two attachments are
    deleted, then the run raises. *)
Lemma missing_chart_leaves_card_bare_witness :
  let rc := JObj [("id", JStr "c2"); ("name", JStr "Weekly Report")] in
  add_trends_to_trello (H := sample_service) rc (txt "/opt/trend") ∅ []
  = (Raise FileNotFoundError,
     [GetAttachments (JStr "c2");
      DeleteAttachment (JStr "c2") (JStr "a1");
      DeleteAttachment (JStr "c2") (JStr "a2")]).
Proof.
  intros rc.
  destruct (missing_chart_leaves_card_bare (H := sample_service) rc (JStr "c2")
              (JList [JObj [("id", JStr "a1")]; JObj [("id", JStr "a2")]])
              [JObj [("id", JStr "a1")]; JObj [("id", JStr "a2")]]
              [JStr "a1"; JStr "a2"] (txt "/opt/trend") ∅ [])
    as [Hbare _].
  - reflexivity.
  - reflexivity.
  - reflexivity.
  - reflexivity.
  - constructor; [reflexivity|]. constructor; [reflexivity | constructor].
  - intros log req. destruct req; eexists; reflexivity.
  - apply Hbare. reflexivity.
Defined.

(** ** The files of a run *)

Section RunFacts.

Context `{External} `{Service}.

Lemma add_datapoint_frame (self : ProjectTrend) (now : datetime) (fs : files)
    (path : text) :
  path <> trend_data self -> (add_datapoint self now fs).2 !! path = fs !! path.
Proof.
  intros Hne. unfold add_datapoint.
  destruct (total_remaining (cards self)) as [total|e]; [|reflexivity].
  unfold append_datapoint, write_append, open_append.
  destruct (int_of_num total) as [n|e]; cbn [snd];
    destruct (fs !! trend_data self) eqn:E;
    rewrite ?lookup_insert_ne by congruence; reflexivity.
Qed.

Lemma path_join_suffix (a : text) (c : ascii) (b : text) :
  is_char "/" c = false -> exists pre, path_join a (c :: b) = pre ++ c :: b.
Proof.
  intros Hc.
  destruct (path_join_same_directory a c c b b Hc Hc) as (pre & E & _). eauto.
Qed.

Lemma chart_names_differ (pre pre' : text) :
  pre ++ txt "figure.png" <> pre' ++ txt "estimate.png".
Proof.
  intros E. apply (f_equal (@rev ascii)) in E. rewrite !rev_app_distr in E.
  change (rev (txt "figure.png")) with (txt "gnp.erugif") in E.
  change (rev (txt "estimate.png")) with (txt "gnp.etamitse") in E.
  cbn [txt list_ascii_of_string app] in E. discriminate E.
Qed.

Lemma last_upload_path (self : ProjectTrend) :
  last (figure_png self) = Some "g"%char /\ last (estimate_png self) = Some "g"%char.
Proof.
  unfold figure_png, estimate_png. rewrite !path_join_last by discriminate.
  split; reflexivity.
Qed.

(** The upload paths are none of the files the run writes, except perhaps
    the chart of the same name. *)
Lemma upload_paths_apart (self : ProjectTrend) :
  (figure_png self <> trend_data self /\ figure_png self <> estimate_data self
   /\ figure_png self <> resolve (txt "figure" ++ txt ".html")
   /\ figure_png self <> resolve (txt "estimate" ++ txt ".png")
   /\ figure_png self <> resolve (txt "estimate" ++ txt ".html"))
  /\ (estimate_png self <> trend_data self /\ estimate_png self <> estimate_data self
      /\ estimate_png self <> resolve (txt "figure" ++ txt ".png")
      /\ estimate_png self <> resolve (txt "figure" ++ txt ".html")
      /\ estimate_png self <> resolve (txt "estimate" ++ txt ".html")).
Proof.
  destruct (last_upload_path self) as [Lf Le].
  pose proof (last_trend_data self) as Lt.
  pose proof (last_estimate_data self) as Ld.
  pose proof (last_resolve (txt "figure") (txt ".html") "l" eq_refl) as Lfh.
  pose proof (last_resolve (txt "estimate") (txt ".html") "l" eq_refl) as Leh.
  destruct (path_join_suffix (_path self) "f" (txt "igure.png") eq_refl) as (p1 & E1).
  destruct (path_join_suffix (_path self) "e" (txt "stimate.png") eq_refl) as (p2 & E2).
  destruct (path_join_suffix cwd "f" (txt "igure.png") eq_refl) as (q1 & F1).
  destruct (path_join_suffix cwd "e" (txt "stimate.png") eq_refl) as (q2 & F2).
  split; repeat split; intros E;
    try (apply (f_equal last) in E; congruence).
  - unfold figure_png, resolve in E.
    change (txt "figure.png") with ("f"%char :: txt "igure.png") in E.
    change (txt "estimate" ++ txt ".png") with ("e"%char :: txt "stimate.png") in E.
    rewrite E1, F2 in E. exact (chart_names_differ p1 q2 E).
  - unfold estimate_png, resolve in E.
    change (txt "estimate.png") with ("e"%char :: txt "stimate.png") in E.
    change (txt "figure" ++ txt ".png") with ("f"%char :: txt "igure.png") in E.
    rewrite E2, F1 in E. symmetry in E. exact (chart_names_differ q1 p2 E).
Qed.

Lemma main_steps_frame (add : bool) (est : Z) (self : ProjectTrend) (rc : json)
    (now : datetime) (fs : files) (log : list request) (path : text) :
  path <> trend_data self -> path <> estimate_data self ->
  path <> resolve (txt "figure" ++ txt ".png") ->
  path <> resolve (txt "figure" ++ txt ".html") ->
  path <> resolve (txt "estimate" ++ txt ".png") ->
  path <> resolve (txt "estimate" ++ txt ".html") ->
  (main_steps add est self rc now fs log).1.2 !! path = fs !! path.
Proof.
  intros Ht Hd Hfp Hfh Hep Heh. unfold main_steps.
  assert (S0 : (if add then add_datapoint self now fs else (Ok (), fs)).2 !! path
               = fs !! path)
    by (destruct add; [apply add_datapoint_frame, Ht | reflexivity]).
  destruct (if add then add_datapoint self now fs else (Ok (), fs)) as [r0 fs0].
  cbn [snd] in S0. destruct r0 as [[]|e]; [|exact S0].
  pose proof (generate_trend_frame self (txt "figure") None None fs0 path Hfp Hfh) as S1.
  destruct (generate_trend self (txt "figure") None None fs0) as [r1 fs1].
  cbn [snd] in S1. destruct r1 as [[]|e]; [|cbn; congruence].
  pose proof (generate_estimated_trend_frame self est fs1 path Hd Hep Heh) as S2.
  destruct (generate_estimated_trend self est fs1) as [r2 fs2].
  cbn [snd] in S2. destruct r2 as [[]|e]; [|cbn; congruence].
  destruct (add_trends_to_trello rc (_path self) fs2 log) as [r3 log3].
  cbn. congruence.
Qed.

Lemma add_trends_to_trello_reads (rc : json) (path : text) (fs fs' : files) :
  fs' !! path_join path (txt "figure.png") = fs !! path_join path (txt "figure.png") ->
  fs' !! path_join path (txt "estimate.png") = fs !! path_join path (txt "estimate.png") ->
  add_trends_to_trello rc path fs' = add_trends_to_trello rc path fs.
Proof.
  intros Hf He. unfold add_trends_to_trello, add_attachment. rewrite Hf, He.
  reflexivity.
Qed.

(** X24.  Unless the process runs in the directory of the script, a run
    writes none of the two files it uploads: [generate_trend] writes
    [figure.png] and [estimate.png] in the working directory, and
    [add_trends_to_trello] reads them in the directory of the script.  The
    upload sends what these files held before the run, and fails as it would
    have failed before the run when they do not exist. *)
Theorem upload_reads_files_the_run_does_not_write (add : bool) (est : Z)
    (self : ProjectTrend) (rc : json) (now : datetime) (fs : files)
    (log : list request) :
  figure_png self <> resolve (txt "figure.png") ->
  estimate_png self <> resolve (txt "estimate.png") ->
  let fs' := (main_steps add est self rc now fs log).1.2 in
  fs' !! figure_png self = fs !! figure_png self
  /\ fs' !! estimate_png self = fs !! estimate_png self
  /\ add_trends_to_trello rc (_path self) fs' = add_trends_to_trello rc (_path self) fs.
Proof.
  intros Hf He fs'.
  destruct (upload_paths_apart self)
    as ((F1 & F2 & F3 & F4 & F5) & (E1 & E2 & E3 & E4 & E5)).
  assert (Hfig : fs' !! figure_png self = fs !! figure_png self)
    by (apply main_steps_frame; assumption).
  assert (Hest : fs' !! estimate_png self = fs !! estimate_png self)
    by (apply main_steps_frame; assumption).
  split; [exact Hfig|]. split; [exact Hest|].
  apply add_trends_to_trello_reads; assumption.
Qed.

End RunFacts.

(** A run started in [/work] for a script installed in [/opt/trend], where
    an old [figure.png] lies: after the run the old file is still there, and
    the new chart is in [/work]. *)
Lemma upload_reads_files_the_run_does_not_write_witness :
  let rc := JObj [("id", JStr "c2"); ("name", JStr "Weekly Report")] in
  let fs : files :=
    <[figure_png sample_run := txt "OLD"]> (store_only (txt "2024-02-01 = 9")) in
  let fs' :=
    (main_steps (H := sample_external) (H0 := sample_service) true 4 sample_run rc
                (mk_datetime 2024 2 8) fs []).1.2 in
  fs' !! figure_png sample_run = Some (txt "OLD")
  /\ fs' !! resolve (H := sample_external) (txt "figure.png") = Some (txt "PNG").
Proof.
  intros rc fs fs'.
  destruct (upload_reads_files_the_run_does_not_write (H := sample_external)
              (H0 := sample_service) true 4 sample_run rc (mk_datetime 2024 2 8) fs [])
    as (Hfig & _ & _).
  - vm_compute. discriminate.
  - vm_compute. discriminate.
  - split; [|vm_compute; reflexivity].
    fold fs' in Hfig. rewrite Hfig. reflexivity.
Defined.

(** ** The margin of the chart *)

Section MarginFacts.

Lemma margin_checked : forallb margin_ok (seqZ 0 5000) = true.
Proof. vm_compute. reflexivity. Qed.

(** X25.  For a maximum below 5000 the margin [int(y_max * 0.05)] that
    [generate_trend] puts below and above the points is the twentieth part
    of the maximum, rounded down; the binary rounding of [0.05] and of the
    product never shows. *)
Theorem margin_is_a_twentieth (y : Z) :
  0 <= y < 5000 -> y_margin_of y = Ok (y / 20).
Proof.
  intros Hy. pose proof margin_checked as Hall.
  rewrite forallb_forall in Hall. specialize (Hall y).
  assert (Hin : In y (seqZ 0 5000)).
  { apply list_elem_of_In, elem_of_seqZ. lia. }
  specialize (Hall Hin). unfold margin_ok in Hall.
  destruct (y_margin_of y) as [m|e]; [|discriminate].
  f_equal. lia.
Qed.

End MarginFacts.

(** A maximum of 130 days gives a margin of 6. *)
Lemma margin_is_a_twentieth_witness : y_margin_of 130 = Ok 6.
Proof. apply (margin_is_a_twentieth 130). lia. Defined.
